(** * Access-code subsystem of [database.js] (class [DatabaseManager])

    A shallow embedding of the code generation, regeneration, cascade
    deletion and verification logic of [src/database.js], together with the
    properties the specification states about it.

    Conventions.
    - JavaScript strings are [string]s (the bytes of their UTF-8 encoding);
      the only non-ASCII literal of the source is the Arabic product token.
    - Instants and IndexedDB keys are integers ([Z]).
    - An [async] method is a program of the monad [prog]: a tree of requests
      to the environment (the IndexedDB store, the clock, [Math.random],
      [setTimeout]).  [await] of a rejected promise is [Throw].  The
      environment is a [handler]; [idb] is the IndexedDB object-store
      semantics, and theorems about error paths quantify over every handler. *)

From stdpp Require Import base gmap strings list.
From Stdlib Require Import ZArith Lia Ascii String List Bool.
Import ListNotations.
Local Open Scope string_scope.
Local Open Scope Z_scope.

(** ** JavaScript string primitives used by the source *)

Module Js.

(** [String.prototype.toUpperCase] on the ASCII range (it is only applied
    to radix-36 renderings of numbers). *)
Definition upper_char (c : ascii) : ascii :=
  let n := nat_of_ascii c in
  if ((97 <=? n) && (n <=? 122))%nat then ascii_of_nat (n - 32) else c.

Fixpoint toUpperCase (s : string) : string :=
  match s with
  | EmptyString => EmptyString
  | String c r => String (upper_char c) (toUpperCase r)
  end.

Fixpoint drop (n : nat) (s : string) : string :=
  match n, s with
  | O, _ => s
  | S _, EmptyString => EmptyString
  | S k, String _ r => drop k r
  end.

Fixpoint take (n : nat) (s : string) : string :=
  match n, s with
  | O, _ => EmptyString
  | S _, EmptyString => EmptyString
  | S k, String c r => String c (take k r)
  end.

(** [s.slice(-n)]: the last [n] characters, all of [s] when it is shorter. *)
Definition slice_last (n : nat) (s : string) : string :=
  drop (String.length s - n) s.

(** [s.substring(a, b)] for [0 <= a <= b]. *)
Definition substring (a b : nat) (s : string) : string :=
  take (b - a) (drop a s).

Fixpoint startsWith (p s : string) : bool :=
  match p, s with
  | EmptyString, _ => true
  | String _ _, EmptyString => false
  | String a p', String b s' => Ascii.eqb a b && startsWith p' s'
  end.

(** [s.includes(p)]: [p] occurs in [s] as a contiguous substring. *)
Fixpoint includes (s p : string) : bool :=
  startsWith p s ||
  match s with
  | EmptyString => false
  | String _ r => includes r p
  end.

(** The digit characters of radix 36, lower case as [toString] gives them. *)
Definition digit36 (d : nat) : ascii :=
  let d := (d mod 36)%nat in
  if (d <? 10)%nat then ascii_of_nat (48 + d) else ascii_of_nat (87 + d).

Fixpoint nat_digits36 (fuel : nat) (n : N) (acc : string) : string :=
  match fuel with
  | O => acc
  | S f =>
      let acc' := String (digit36 (N.to_nat (n mod 36)%N)) acc in
      if (n <? 36)%N then acc' else nat_digits36 f (n / 36)%N acc'
  end.

(** [n.toString(36)] for an integer [n]. *)
Definition toString36 (n : Z) : string :=
  let m := Z.abs_N n in
  let body := nat_digits36 (S (N.to_nat (N.log2 m))) m EmptyString in
  if n <? 0 then String "-" body else body.

(** [x.toString(36)] for a number [0 <= x < 1] whose radix-36 fraction
    digits are [ds]: ["0"] for zero, otherwise ["0."] and the digits. *)
Definition fraction_toString36 (ds : list nat) : string :=
  match ds with
  | [] => "0"
  | _ => "0." ++ string_of_list_ascii (List.map digit36 ds)
  end.

End Js.

(** ** Code Generator: [generateCode] *)

(** The value of [generateCode(type)] when [Date.now()] is [now] and
    [Math.random()] has the radix-36 fraction digits [rnd]. *)
Definition generateCode_at (type : string) (now : Z) (rnd : list nat) : string :=
  let prefix := if String.eqb type "admin" then "ADM" else "VWR" in
  let timestamp := Js.toUpperCase (Js.slice_last 4 (Js.toString36 now)) in
  let random := Js.toUpperCase (Js.substring 2 6 (Js.fraction_toString36 rnd)) in
  prefix ++ "-" ++ timestamp ++ random.

(** The pattern [^(ADM|VWR)-[A-Z0-9]{8}$]. *)
Definition is_upper_alnum (c : ascii) : bool :=
  let n := nat_of_ascii c in
  (((48 <=? n) && (n <=? 57)) || ((65 <=? n) && (n <=? 90)))%nat.

Definition matches_code_pattern (s : string) : bool :=
  (Js.startsWith "ADM-" s || Js.startsWith "VWR-" s) &&
  (String.length (Js.drop 4 s) =? 8)%nat &&
  forallb is_upper_alnum (list_ascii_of_string (Js.drop 4 s)).

(** ** Records of the object stores *)

(** [user.expiryDate] as [verifyCode] reads it: a falsy value ([null],
    [undefined], the empty string), a value that [new Date(..).getTime()]
    turns into an instant, or a value [Date] cannot parse ([NaN]). *)
Inductive date_field :=
| DAbsent
| DInstant (t : Z)
| DInvalid.

(** [user.product]: a string, or missing. *)
Inductive product_field :=
| PUndefined
| PNull
| PText (s : string).

Module User.
Record t := mk {
  id : Z;
  name : string;
  email : string;
  phone : string;
  product : product_field;
  expiryDate : date_field;
  status : string
}.
End User.

Module Code.
Record t := mk {
  id : Z;
  userId : Z;
  code : string;
  type : string;
  isActive : bool;
  createdAt : Z;
  expiresAt : option Z;
  updatedAt : option Z
}.

(** The object handed to [store.add]: no [id] yet. *)
Record draft := mk_draft {
  d_userId : Z;
  d_code : string;
  d_type : string;
  d_isActive : bool;
  d_createdAt : Z;
  d_expiresAt : option Z
}.

Definition with_id (k : Z) (d : draft) : t :=
  mk k (d_userId d) (d_code d) (d_type d) (d_isActive d) (d_createdAt d)
     (d_expiresAt d) None.

Definition set_isActive (b : bool) (c : t) : t :=
  mk (id c) (userId c) (code c) (type c) b (createdAt c) (expiresAt c)
     (updatedAt c).

Definition set_updatedAt (now : Z) (c : t) : t :=
  mk (id c) (userId c) (code c) (type c) (isActive c) (createdAt c)
     (expiresAt c) (Some now).
End Code.

Module Subscription.
Record t := mk {
  id : Z;
  userId : Z;
  tier : string;
  isActive : bool
}.
End Subscription.

(** ** Errors, requests and asynchronous programs *)

Inductive error :=
| IdbError (name : string)   (* [request.error] / [transaction.error] *)
| TypeError                  (* property access on [null] / [undefined] *)
| JsError (message : string) (* [new Error(message)] *).

Inductive result (A : Type) :=
| Ok (a : A)
| Err (e : error).
Arguments Ok {A} a.
Arguments Err {A} e.

(** The index argument of [getAll('codes', indexName, query)]. *)
Inductive codes_query :=
| ByUserId (userId : Z)
| ByCode (codeString : string)
| AllRecords.

(** What the methods ask of their environment.  A request whose promise can
    reject answers with a [result]. *)
Variant effE : Type -> Type :=
| EnsureInit : effE (result unit)       (* [if (!this.db) await this.init()] *)
| GetAll_codes (q : codes_query) : effE (result (list Code.t))
| Get_codes (key : Z) : effE (result (option Code.t))
| Add_codes (d : Code.draft) : effE (result Z)
| Update_codes (c : Code.t) : effE (result Z)
| Delete_codes (key : Z) : effE (result bool)
| Get_users (key : Z) : effE (result (option User.t))
| Delete_users (key : Z) : effE (result bool)
| GetAll_subscriptions (userId : Z) : effE (result (list Subscription.t))
| Delete_subscriptions (key : Z) : effE (result bool)
| Date_now : effE Z
| Math_random : effE (list nat)
| SetTimeout (ms : Z) : effE unit.

Inductive prog (A : Type) : Type :=
| Ret (a : A)
| Throw (e : error)
| Vis {X : Type} (ev : effE X) (k : X -> prog A).
Arguments Ret {A} a.
Arguments Throw {A} e.
Arguments Vis {A X} ev k.

Fixpoint bind {A B : Type} (p : prog A) (f : A -> prog B) : prog B :=
  match p with
  | Ret a => f a
  | Throw e => Throw e
  | Vis ev k => Vis ev (fun x => bind (k x) f)
  end.

(** [try { p } catch (error) { h error }] *)
Fixpoint try_catch {A : Type} (p : prog A) (h : error -> prog A) : prog A :=
  match p with
  | Ret a => Ret a
  | Throw e => h e
  | Vis ev k => Vis ev (fun x => try_catch (k x) h)
  end.

#[global] Instance prog_ret : MRet prog := @Ret.
#[global] Instance prog_bind : MBind prog := fun A B f p => bind p f.

(** A request that cannot fail. *)
Definition perform {X : Type} (ev : effE X) : prog X := Vis ev Ret.

(** [await] of a request: a rejection is thrown. *)
Definition settle {A : Type} (r : result A) : prog A :=
  match r with
  | Ok a => Ret a
  | Err e => Throw e
  end.

Definition await {A : Type} (ev : effE (result A)) : prog A := Vis ev settle.

(** [Promise.all(xs.map(x => request x))]: every request is issued, in
    order; the combined promise rejects when one of them does. *)
Fixpoint issue_all {A B : Type} (req : A -> effE (result B)) (xs : list A)
  : prog (list (result B)) :=
  match xs with
  | [] => Ret []
  | x :: rest => Vis (req x) (fun r => bind (issue_all req rest) (fun rs => Ret (r :: rs)))
  end.

Fixpoint all_ok {B : Type} (rs : list (result B)) : result (list B) :=
  match rs with
  | [] => Ok []
  | Err e :: _ => Err e
  | Ok b :: rest =>
      match all_ok rest with
      | Ok bs => Ok (b :: bs)
      | Err e => Err e
      end
  end.

Definition promise_all {A B : Type} (req : A -> effE (result B)) (xs : list A)
  : prog (list B) :=
  bind (issue_all req xs) (fun rs => settle (all_ok rs)).

(** [for (const x of xs) { await body x }] *)
Fixpoint for_of {A : Type} (xs : list A) (body : A -> prog unit) : prog unit :=
  match xs with
  | [] => Ret tt
  | x :: rest => bind (body x) (fun _ => for_of rest body)
  end.

(** ** Running a program against an environment *)

Definition handler (W : Type) : Type := forall X : Type, effE X -> W -> X * W.

Inductive outcome (A : Type) :=
| Returned (a : A)
| Thrown (e : error).
Arguments Returned {A} a.
Arguments Thrown {A} e.

Fixpoint run {W A : Type} (h : handler W) (p : prog A) (w : W) : outcome A * W :=
  match p with
  | Ret a => (Returned a, w)
  | Throw e => (Thrown e, w)
  | Vis ev k => let (x, w') := h _ ev w in run h (k x) w'
  end.

(** A request together with the answer it received. *)
Inductive obs : Type :=
| Obs {X : Type} (ev : effE X) (x : X).

Fixpoint history {W A : Type} (h : handler W) (p : prog A) (w : W) : list obs :=
  match p with
  | Ret _ | Throw _ => []
  | Vis ev k => let (x, w') := h _ ev w in Obs ev x :: history h (k x) w'
  end.

(** ** The methods of [DatabaseManager] *)

(** [addCode(codeData)]; [isActive: codeData.isActive !== false] and
    [expiresAt: codeData.expiresAt || null] are folded into the argument. *)
Record codeData := mk_codeData {
  cd_userId : Z;
  cd_code : string;
  cd_type : string;
  cd_isActive : option bool;     (* [None]: the field is not given *)
  cd_expiresAt : option Z
}.

Definition addCode (cd : codeData) : prog Z :=
  createdAt ← perform Date_now;
  await (Add_codes
           (Code.mk_draft (cd_userId cd) (cd_code cd) (cd_type cd)
              (match cd_isActive cd with Some false => false | _ => true end)
              createdAt
              (match cd_expiresAt cd with Some 0 => None | e => e end))).

Definition getCode (codeString : string) : prog (option Code.t) :=
  codes ← await (GetAll_codes (ByCode codeString));
  mret (match codes with
        | c :: _ => Some c          (* codes.length > 0 ? codes[0] : null *)
        | [] => None
        end).

Definition getUser (userId : Z) : prog (option User.t) :=
  await (Get_users userId).

(** Truthiness of an optional [type] argument ([null] and [''] are falsy). *)
Definition type_given (type : option string) : option string :=
  match type with
  | Some "" | None => None
  | Some ty => Some ty
  end.

Definition getUserCodes (userId : Z) (type : option string)
  : prog (list Code.t) :=
  await EnsureInit;;
  try_catch
    (codes ← await (GetAll_codes (ByUserId userId));
     mret (match type_given type with
           | Some ty =>
               List.filter (fun c => String.eqb (Code.type c) ty && Code.isActive c) codes
           | None => List.filter (fun c => Code.isActive c) codes
           end))
    (fun _ =>
       (* Fallback: try without index *)
       try_catch
         (allCodes ← await (GetAll_codes AllRecords);
          let userCodes :=
            List.filter (fun c => (Code.userId c =? userId) && Code.isActive c) allCodes in
          mret (match type_given type with
                | Some ty => List.filter (fun c => String.eqb (Code.type c) ty) userCodes
                | None => userCodes
                end))
         (fun _ => mret [])).

(** [updateCode(codeId, codeData)]: [patch] is the effect of spreading
    [codeData] over the stored record. *)
Definition updateCode (codeId : Z) (patch : Code.t -> Code.t) : prog Z :=
  code ← await (Get_codes codeId);
  match code with
  | None => Throw (JsError "Code not found")
  | Some code =>
      now ← perform Date_now;
      await (Update_codes (Code.set_updatedAt now (patch code)))
  end.

Definition deleteCode (codeId : Z) : effE (result bool) := Delete_codes codeId.

Definition deleteUserCodes (userId : Z) : prog (list bool) :=
  codes ← getUserCodes userId None;
  promise_all (fun code => deleteCode (Code.id code)) codes.

Definition deleteUserSubscriptions (userId : Z) : prog (list bool) :=
  subscriptions ← await (GetAll_subscriptions userId);
  promise_all (fun sub => Delete_subscriptions (Subscription.id sub)) subscriptions.

Definition deleteUser (userId : Z) : prog bool :=
  (* Also delete related codes and subscriptions *)
  deleteUserCodes userId;;
  deleteUserSubscriptions userId;;
  await (Delete_users userId).

Definition generateCode (type : string) : prog string :=
  now ← perform Date_now;
  rnd ← perform Math_random;
  mret (generateCode_at type now rnd).

Definition maxAttempts : nat := 10.

(** The loop
    [do { c = generateCode(type); existing = await getCode(c);
          if (!existing) break; attempts++ } while (attempts < maxAttempts)]
    entered with [attempts = maxAttempts - 1 - retries]; its value is the
    last candidate [c]. *)
Fixpoint unique_candidate (type : string) (retries : nat) : prog string :=
  candidate ← generateCode type;
  existing ← getCode candidate;
  match existing, retries with
  | None, _ => mret candidate
  | Some _, S r => unique_candidate type r
  | Some _, O => mret candidate
  end.

Definition verification_failed : error :=
  JsError "Failed to save codes to database - verification failed".

Definition present {A : Type} (o : option A) : bool :=
  match o with Some _ => true | None => false end.

(** Lines 507-539: the read-back of the two codes just added. *)
Definition verify_saved (adminCode viewerCode : string) (adminCodeId viewerCodeId : Z)
  : prog unit :=
  perform (SetTimeout 200);;
  verifyAdmin ← getCode adminCode;
  verifyViewer ← getCode viewerCode;
  (* If not found by code, try by ID *)
  verifyAdmin ← (if present verifyAdmin then mret verifyAdmin
                 else await (Get_codes adminCodeId));
  verifyViewer ← (if present verifyViewer then mret verifyViewer
                  else await (Get_codes viewerCodeId));
  if negb (present verifyAdmin) || negb (present verifyViewer) then
    (* Last attempt: wait more and retry *)
    perform (SetTimeout 300);;
    verifyAdmin ← getCode adminCode;
    verifyViewer ← getCode viewerCode;
    if negb (present verifyAdmin) || negb (present verifyViewer)
    then Throw verification_failed
    else mret tt
  else mret tt.

(** The body of the loop over [existingCodes] (lines 464-468). *)
Definition deactivate_body (code : Code.t) : prog unit :=
  if Code.isActive code
  then updateCode (Code.id code) (Code.set_isActive false);; mret tt
  else mret tt.

Definition generateCodesForUser (userId : Z) : prog (string * string) :=
  await EnsureInit;;
  try_catch
    ((* Deactivate existing codes for this user *)
     existingCodes ← getUserCodes userId None;
     for_of existingCodes deactivate_body;;
     (* Generate unique codes *)
     adminCode ← unique_candidate "admin" (maxAttempts - 1);
     viewerCode ← unique_candidate "viewer" (maxAttempts - 1);
     adminCodeId ← addCode (mk_codeData userId adminCode "admin" (Some true) None);
     viewerCodeId ← addCode (mk_codeData userId viewerCode "viewer" (Some true) None);
     verify_saved adminCode viewerCode adminCodeId viewerCodeId;;
     mret (adminCode, viewerCode))
    (fun error => Throw error).

(** *** [verifyCode] *)

Record verified := mk_verified {
  role : string;
  until : Z;
  tier : string;
  codes_admin : string;
  codes_viewer : string;
  payload_userId : Z;
  payload_name : string;
  payload_email : string;
  payload_product : product_field
}.

Inductive verification :=
| Failure (message : string)          (* [{ ok: false, message }] *)
| Success (v : verified)              (* [{ ok: true, ... }] *).

(** A JavaScript number, as far as [expiryDate] needs it. *)
Inductive jsnum :=
| Num (z : Z)
| NaN.

(** [user.expiryDate ? new Date(user.expiryDate).getTime() : null] *)
Definition expiry_time (d : date_field) : option jsnum :=
  match d with
  | DAbsent => None
  | DInstant t => Some (Num t)
  | DInvalid => Some NaN
  end.

(** Truthiness of a number-or-null. *)
Definition truthy_num (x : option jsnum) : bool :=
  match x with
  | Some (Num z) => negb (z =? 0)
  | Some NaN | None => false
  end.

(** [expiryDate && expiryDate < now] *)
Definition is_expired (expiryDate : option jsnum) (now : Z) : bool :=
  truthy_num expiryDate &&
  match expiryDate with
  | Some (Num z) => z <? now
  | _ => false
  end.

(** [expiryDate || (now + 180 * 24 * 60 * 60 * 1000)] *)
Definition until_time (expiryDate : option jsnum) (now : Z) : Z :=
  match expiryDate with
  | Some (Num z) => if truthy_num expiryDate then z else now + 180 * 24 * 60 * 60 * 1000
  | _ => now + 180 * 24 * 60 * 60 * 1000
  end.

Definition truthy_product (p : product_field) : bool :=
  match p with
  | PText s => negb (String.eqb s "")
  | PUndefined | PNull => false
  end.

(** [user.product.includes(pat)]; a [TypeError] when [product] is missing. *)
Definition product_includes (p : product_field) (pat : string) : prog bool :=
  match p with
  | PText s => mret (Js.includes s pat)
  | PUndefined | PNull => Throw TypeError
  end.

(** [a && b] and [a || b] on conditions, with their short circuit. *)
Definition and_then (a : bool) (b : prog bool) : prog bool :=
  if a then b else mret false.

Definition or_else (a : prog bool) (b : prog bool) : prog bool :=
  x ← a; if x : bool then mret true else b.

Definition yearly_ar : string := "سنوي".

(** Lines 380-386. *)
Definition derive_tier (product : product_field) : prog string :=
  c6 ← and_then (truthy_product product) (product_includes product "6");
  if c6 : bool then mret "Pro-6"
  else
    c12 ← or_else (and_then (truthy_product product) (product_includes product yearly_ar))
                  (product_includes product "Yearly");
    if c12 : bool then mret "Pro-12" else mret "Basic-3".

Definition find_code (type : string) (userCodes : list Code.t) : option Code.t :=
  List.find (fun c => String.eqb (Code.type c) type && Code.isActive c) userCodes.

Definition code_or_empty (c : option Code.t) : string :=
  match c with
  | Some c => Code.code c
  | None => ""
  end.

Definition verifyCode (codeString : string) : prog verification :=
  await EnsureInit;;
  try_catch
    (code ← getCode codeString;
     match code with
     | None => mret (Failure "INVALID")
     | Some code =>
         if negb (Code.isActive code) then mret (Failure "INVALID")
         else
           (* Get user information *)
           user ← getUser (Code.userId code);
           match user with
           | None => mret (Failure "USER_NOT_FOUND")
           | Some user =>
               (* Check if user subscription is still valid *)
               now ← perform Date_now;
               let expiryDate := expiry_time (User.expiryDate user) in
               if is_expired expiryDate now then mret (Failure "EXPIRED")
               else
                 (* Get both codes for the user *)
                 userCodes ← getUserCodes (Code.userId code) None;
                 let adminCode := find_code "admin" userCodes in
                 let viewerCode := find_code "viewer" userCodes in
                 let role := if String.eqb (Code.type code) "admin" then "admin" else "viewer" in
                 let until := until_time expiryDate now in
                 tier ← derive_tier (User.product user);
                 mret (Success
                         (mk_verified role until tier
                            (code_or_empty adminCode) (code_or_empty viewerCode)
                            (User.id user) (User.name user) (User.email user)
                            (User.product user)))
           end
     end)
    (fun _ : error => Ret (Failure "ERROR")).

(** ** The IndexedDB environment *)

(** The object stores [users], [codes] (key path [id], auto-increment, unique
    index on [code]) and [subscriptions]; the clock and the random source
    are read from oracles, one sample per call. *)
Record World := mk_world {
  users : gmap Z User.t;
  codes : list Code.t;              (* in primary-key order *)
  codesKeyGen : Z;                  (* the key generator of [codes] *)
  subscriptions : list Subscription.t;
  clock : nat -> Z;
  ticks : nat;
  entropy : nat -> list nat;
  draws : nat
}.

Module Idb.

Definition by_key (k : Z) (l : list Code.t) : option Code.t :=
  List.find (fun c => Code.id c =? k) l.

Definition remove_key (k : Z) (l : list Code.t) : list Code.t :=
  List.filter (fun c => negb (Code.id c =? k)) l.

Fixpoint insert_by_key (c : Code.t) (l : list Code.t) : list Code.t :=
  match l with
  | [] => [c]
  | x :: r => if Code.id c <? Code.id x then c :: l else x :: insert_by_key c r
  end.

(** Records an index query returns, in primary-key order. *)
Definition query (q : codes_query) (l : list Code.t) : list Code.t :=
  match q with
  | ByUserId u => List.filter (fun c => Code.userId c =? u) l
  | ByCode s => List.filter (fun c => String.eqb (Code.code c) s) l
  | AllRecords => l
  end.

(** The unique index on [code]: is [s] held by a record other than [k]? *)
Definition code_taken (s : string) (k : Z) (l : list Code.t) : bool :=
  existsb (fun c => String.eqb (Code.code c) s && negb (Code.id c =? k)) l.

Definition constraint_error : error := IdbError "ConstraintError".

Definition set_codes (l : list Code.t) (g : Z) (w : World) : World :=
  mk_world (users w) l g (subscriptions w) (clock w) (ticks w) (entropy w) (draws w).

Definition set_users (u : gmap Z User.t) (w : World) : World :=
  mk_world u (codes w) (codesKeyGen w) (subscriptions w) (clock w) (ticks w)
           (entropy w) (draws w).

Definition set_subscriptions (s : list Subscription.t) (w : World) : World :=
  mk_world (users w) (codes w) (codesKeyGen w) s (clock w) (ticks w)
           (entropy w) (draws w).

Definition tick (w : World) : World :=
  mk_world (users w) (codes w) (codesKeyGen w) (subscriptions w) (clock w)
           (S (ticks w)) (entropy w) (draws w).

Definition draw (w : World) : World :=
  mk_world (users w) (codes w) (codesKeyGen w) (subscriptions w) (clock w)
           (ticks w) (entropy w) (S (draws w)).

(** [store.add(value)] on [codes]. *)
Definition add (d : Code.draft) (w : World) : result Z * World :=
  let k := codesKeyGen w in
  if present (by_key k (codes w)) || code_taken (Code.d_code d) k (codes w)
  then (Err constraint_error, w)
  else (Ok k, set_codes (insert_by_key (Code.with_id k d) (codes w)) (k + 1) w).

(** [store.put(value)] on [codes]. *)
Definition put (c : Code.t) (w : World) : result Z * World :=
  if code_taken (Code.code c) (Code.id c) (codes w)
  then (Err constraint_error, w)
  else (Ok (Code.id c),
        set_codes (insert_by_key c (remove_key (Code.id c) (codes w)))
                  (Z.max (codesKeyGen w) (Code.id c + 1)) w).

Definition step : handler World := fun X ev =>
  match ev in effE X return World -> X * World with
  | EnsureInit => fun w => (Ok tt, w)
  | GetAll_codes q => fun w => (Ok (query q (codes w)), w)
  | Get_codes k => fun w => (Ok (by_key k (codes w)), w)
  | Add_codes d => add d
  | Update_codes c => put c
  | Delete_codes k => fun w =>
      (Ok true, set_codes (remove_key k (codes w)) (codesKeyGen w) w)
  | Get_users k => fun w => (Ok (users w !! k), w)
  | Delete_users k => fun w => (Ok true, set_users (delete k (users w)) w)
  | GetAll_subscriptions u => fun w =>
      (Ok (List.filter (fun s => Subscription.userId s =? u) (subscriptions w)), w)
  | Delete_subscriptions k => fun w =>
      (Ok true,
       set_subscriptions
         (List.filter (fun s => negb (Subscription.id s =? k)) (subscriptions w)) w)
  | Date_now => fun w => (clock w (ticks w), tick w)
  | Math_random => fun w => (entropy w (draws w), draw w)
  | SetTimeout _ => fun w => (tt, w)
  end.

(** The answer of a request that the store rejects with [e]; [None] for
    the requests that cannot be rejected. *)
Definition rejection (e : error) {X : Type} (ev : effE X) : option X :=
  match ev in effE X return option X with
  | EnsureInit => Some (Err e)
  | GetAll_codes _ => Some (Err e)
  | Get_codes _ => Some (Err e)
  | Add_codes _ => Some (Err e)
  | Update_codes _ => Some (Err e)
  | Delete_codes _ => Some (Err e)
  | Get_users _ => Some (Err e)
  | Delete_users _ => Some (Err e)
  | GetAll_subscriptions _ => Some (Err e)
  | Delete_subscriptions _ => Some (Err e)
  | Date_now | Math_random | SetTimeout _ => None
  end.

(** The same store, rejecting the requests whose position in the run
    (counted from 0) is listed in [plan]. *)
Definition step_failing (plan : list nat) : handler (World * nat) :=
  fun X ev '(w, n) =>
    match (if bool_decide (n ∈ plan) then rejection (IdbError "UnknownError") ev else None) with
    | Some x => (x, (w, S n))
    | None => let (x, w') := step X ev w in (x, (w', S n))
    end.

(** The same store when its reads lag behind its writes: lookups in
    [codes] still see the records of [snapshot]. *)
Definition step_lagging (snapshot : list Code.t) : handler World := fun X ev =>
  match ev in effE X return World -> X * World with
  | GetAll_codes q => fun w => (Ok (query q snapshot), w)
  | Get_codes k => fun w => (Ok (by_key k snapshot), w)
  | ev' => step _ ev'
  end.

End Idb.

Abbreviation idb := Idb.step.


(** ** Vocabulary of the specification *)

(** All characters of [s] satisfy [P]. *)
Definition all_chars (P : ascii -> bool) (s : string) : bool :=
  forallb P (list_ascii_of_string s).

(** A character that [toUpperCase] turns into one of [[A-Z0-9]]. *)
Definition is_alnum36 (c : ascii) : bool := is_upper_alnum (Js.upper_char c).

(** Tier derivation as the specification words it: first match wins. *)
Definition spec_tier (p : string) : string :=
  if Js.includes p "6" then "Pro-6"
  else if Js.includes p "Yearly" || Js.includes p yearly_ar then "Pro-12"
  else "Basic-3".

(** The default validity window: 180 days in milliseconds. *)
Definition validity_window : Z := 15552000000.

(** The active codes of role [ty] that user [u] owns in a [codes] store. *)
Definition active_codes (u : Z) (ty : string) (l : list Code.t) : list Code.t :=
  List.filter
    (fun c => (Code.userId c =? u) && String.eqb (Code.type c) ty && Code.isActive c) l.

(** Primary keys are unique in an object store. *)
Definition keys_unique (w : World) : Prop := NoDup (List.map Code.id (codes w)).

(** The code strings probed through the unique index, in order. *)
Definition probe_of (o : obs) : option string :=
  match o with
  | @Obs _ (GetAll_codes (ByCode s)) _ => Some s
  | _ => None
  end.

Definition probed (hist : list obs) : list string := omap probe_of hist.

(** A probe collides when the store returns a record for the candidate. *)
Definition probe_collided (o : obs) : bool :=
  match o with
  | @Obs _ (GetAll_codes (ByCode _)) (Ok (_ :: _)) => true
  | @Obs _ (GetAll_codes (ByCode _)) _ => false
  | _ => true
  end.

(** The code strings handed to [store.add] on [codes], in order. *)
Definition added_of (o : obs) : option string :=
  match o with
  | @Obs _ (Add_codes d) _ => Some (Code.d_code d)
  | _ => None
  end.

Definition added (hist : list obs) : list string := omap added_of hist.

(** The codes the store accepted, with the identifiers it assigned. *)
Definition persisted_of (o : obs) : option (string * Z) :=
  match o with
  | @Obs _ (Add_codes d) (Ok k) => Some (Code.d_code d, k)
  | _ => None
  end.

Definition persisted (hist : list obs) : list (string * Z) := omap persisted_of hist.

(** Requests that neither add nor delete a record. *)
Definition quiet_ev {X : Type} (ev : effE X) : bool :=
  match ev with
  | Add_codes _ | Delete_codes _ | Delete_users _ | Delete_subscriptions _ => false
  | _ => true
  end.

Definition quiet (o : obs) : bool :=
  match o with
  | Obs ev _ => quiet_ev ev
  end.

(** Requests that do not delete a code record. *)
Definition keeps_codes (o : obs) : bool :=
  match o with
  | @Obs _ (Delete_codes _) _ => false
  | _ => true
  end.

(** What a read-back observes of the store. *)
Inductive lookup :=
| Delay (ms : Z)
| ByString (s : string) (found : bool)
| ById (k : Z) (found : bool)
| Rejected (e : error)
| Other.

Definition lookup_of (o : obs) : lookup :=
  match o with
  | @Obs X ev x =>
      match ev in effE X return X -> lookup with
      | SetTimeout ms => fun _ => Delay ms
      | GetAll_codes (ByCode s) => fun r =>
          match r with
          | Ok l => ByString s (match l with [] => false | _ :: _ => true end)
          | Err e => Rejected e
          end
      | Get_codes k => fun r =>
          match r with
          | Ok o => ById k (present o)
          | Err e => Rejected e
          end
      | _ => fun _ => Other
      end x
  end.

(** The read-back of section 4.2, steps 4 and 5, in the specification's
    words: each new code is looked up by its string, then by its identifier
    when the string lookup misses; when one of them was not retrieved the
    string lookups are repeated once after a delay, and the regeneration
    fails when one of the repeated lookups misses. *)
Record readback := mk_readback {
  admin_by_string : bool;
  viewer_by_string : bool;
  admin_by_id : bool;
  viewer_by_id : bool;
  admin_retry : bool;
  viewer_retry : bool
}.

Definition first_pass_ok (r : readback) : bool :=
  (admin_by_string r || admin_by_id r) && (viewer_by_string r || viewer_by_id r).

Definition spec_readback_lookups (adminCode viewerCode : string)
    (adminCodeId viewerCodeId : Z) (r : readback) : list lookup :=
  ([Delay 200; ByString adminCode (admin_by_string r);
    ByString viewerCode (viewer_by_string r)]
   ++ (if admin_by_string r then [] else [ById adminCodeId (admin_by_id r)])
   ++ (if viewer_by_string r then [] else [ById viewerCodeId (viewer_by_id r)])
   ++ (if first_pass_ok r then []
       else [Delay 300; ByString adminCode (admin_retry r);
             ByString viewerCode (viewer_retry r)]))%list.

Definition spec_readback_outcome (r : readback) : outcome unit :=
  if first_pass_ok r || (admin_retry r && viewer_retry r)
  then Returned tt
  else Thrown verification_failed.

(** The requests of a run that the store rejected. *)
Definition rejected_of (o : obs) : option error :=
  match lookup_of o with
  | Rejected e => Some e
  | _ =>
      match o with
      | @Obs _ (GetAll_codes (ByUserId _)) (Err e) => Some e
      | @Obs _ (GetAll_codes AllRecords) (Err e) => Some e
      | @Obs _ (Get_users _) (Err e) => Some e
      | _ => None
      end
  end.

Definition rejected (hist : list obs) : list error := omap rejected_of hist.

(** The two lookups [verifyCode] makes itself, the code by its string and
    the owning user, when the store rejects them. *)
Definition primary_rejected (o : obs) : bool :=
  match o with
  | @Obs _ (GetAll_codes (ByCode _)) (Err _) => true
  | @Obs _ (Get_users _) (Err _) => true
  | _ => false
  end.

(** The lookups of the companion codes, made inside [getUserCodes]. *)
Definition companion_rejected (o : obs) : bool :=
  match o with
  | @Obs _ (GetAll_codes (ByUserId _)) (Err _) => true
  | @Obs _ (GetAll_codes AllRecords) (Err _) => true
  | _ => false
  end.

(** One pass of the uniqueness loop as a run shows it: the clock and the
    random source are read, and the candidate made of the two readings is
    looked up by its exact string. *)
Record attempt := mk_attempt {
  at_now : Z;
  at_rnd : list nat;
  at_answer : result (list Code.t)
}.

Definition attempt_candidate (ty : string) (a : attempt) : string :=
  generateCode_at ty (at_now a) (at_rnd a).

Definition attempt_requests (ty : string) (a : attempt) : list obs :=
  [Obs Date_now (at_now a); Obs Math_random (at_rnd a);
   Obs (GetAll_codes (ByCode (attempt_candidate ty a))) (at_answer a)].

(** The lookup of the candidate returned a record. *)
Definition attempt_found (a : attempt) : bool :=
  match at_answer a with
  | Ok (_ :: _) => true
  | _ => false
  end.

(** The steps of [generateCodesForUser] that come before the uniqueness
    loops (lines 457-468): the database handle, the list of the user's
    codes, their deactivation. *)
Definition before_generation (userId : Z) : prog unit :=
  await EnsureInit;;
  existingCodes ← getUserCodes userId None;
  for_of existingCodes deactivate_body.

(** An answer that is a rejection. *)
Definition is_err {A : Type} (r : result A) : bool :=
  match r with
  | Err _ => true
  | Ok _ => false
  end.

Definition failed_answer {X : Type} (ev : effE X) : X -> bool :=
  match ev in effE X return X -> bool with
  | EnsureInit => is_err
  | GetAll_codes _ => is_err
  | Get_codes _ => is_err
  | Add_codes _ => is_err
  | Update_codes _ => is_err
  | Delete_codes _ => is_err
  | Get_users _ => is_err
  | Delete_users _ => is_err
  | GetAll_subscriptions _ => is_err
  | Delete_subscriptions _ => is_err
  | Date_now | Math_random | SetTimeout _ => fun _ => false
  end.

Definition failed (o : obs) : bool :=
  match o with
  | Obs ev x => failed_answer ev x
  end.

(** No request of the run was rejected. *)
Definition unrejected (hist : list obs) : bool :=
  forallb (fun o => negb (failed o)) hist.

(** A program that cannot return once one of its requests was rejected. *)
Definition fail_fast {A : Type} (p : prog A) : Prop :=
  forall (W : Type) (h : handler W) (w w' : W) (a : A),
    run h p w = (Returned a, w') -> unrejected (history h p w) = true.

(** [getUserCodes] lost the list of the user's codes: the scan of the whole
    store, on which it falls back when the index query is rejected, was
    rejected as well, and [[]] is returned in place of the list. *)
Definition listing_lost (o : obs) : bool :=
  match o with
  | @Obs _ (GetAll_codes AllRecords) (Err _) => true
  | _ => false
  end.

(** ** A small database used in the examples *)

Module Sample.

(** A subscriber whose expiry date is the epoch
    (["1970-01-01T00:00:00.000Z"]). *)
Definition alice : User.t :=
  User.mk 1 "Alice" "alice@example.org" "0100" (PText "Plan-6-Premium")
          (DInstant 0) "active".

(** A subscriber without expiry date and without product. *)
Definition bob : User.t :=
  User.mk 2 "Bob" "bob@example.org" "0200" PNull DAbsent "active".

(** A subscriber with a yearly plan that expires in 2033. *)
Definition carol : User.t :=
  User.mk 3 "Carol" "carol@example.org" "0300" (PText "Yearly Plan")
          (DInstant 2000000000000) "active".

Definition retired : Code.t :=
  Code.mk 1 1 "ADM-OLD00001" "admin" false 5 None None.
Definition admin1 : Code.t :=
  Code.mk 2 1 "ADM-OLD00002" "admin" true 5 None None.
Definition viewer1 : Code.t :=
  Code.mk 3 1 "VWR-OLD00003" "viewer" true 5 None None.
Definition admin2 : Code.t :=
  Code.mk 4 2 "ADM-BOB00004" "admin" true 6 None None.
Definition admin3 : Code.t :=
  Code.mk 5 3 "ADM-CAR00005" "admin" true 7 None None.

(** The clock advances by one millisecond per reading from
    2023-11-14T22:13:20Z; [Math.random()] always has at least five
    radix-36 digits. *)
Definition db : World :=
  mk_world {[ 1 := alice; 2 := bob; 3 := carol ]}
           [retired; admin1; viewer1; admin2; admin3] 6 []
           (fun n => 1700000000000 + Z.of_nat n) 0
           (fun n => [1; 2; 3; 4; n]%nat) 0.

(** The same database with a stalled clock and a constant random source:
    every candidate is ["ADM-3V281234"] or ["VWR-3V281234"], and both are
    already taken. *)
Definition stuck : World :=
  mk_world {[ 1 := alice ]}
           [retired;
            Code.mk 2 1 "ADM-3V281234" "admin" true 5 None None;
            Code.mk 3 1 "VWR-3V281234" "viewer" true 5 None None] 4 []
           (fun _ => 1700000000000) 0
           (fun _ => [1; 2; 3; 4]%nat) 0.

(** [db] when [Math.random()] returns 0.5, whose radix-36 rendering is
    ["0.i"]. *)
Definition half : World :=
  mk_world (users db) (codes db) (codesKeyGen db) (subscriptions db)
           (clock db) 0 (fun _ => [18]%nat) 0.

End Sample.

(** ** Further methods and vocabulary *)

(** [getUserSubscription(userId)] (lines 617-620). *)
Definition getUserSubscription (userId : Z) : prog (option Subscription.t) :=
  subscriptions ← await (GetAll_subscriptions userId);
  mret (match subscriptions with
        | s :: _ => Some s        (* subscriptions.length > 0 ? subscriptions[0] : null *)
        | [] => None
        end).

(** Requests that leave every object store as it is. *)
Definition reads_ev {X : Type} (ev : effE X) : bool :=
  match ev with
  | Add_codes _ | Update_codes _ | Delete_codes _
  | Delete_users _ | Delete_subscriptions _ => false
  | _ => true
  end.

Definition reads (o : obs) : bool :=
  match o with
  | Obs ev _ => reads_ev ev
  end.

(** Requests that leave [users] and [subscriptions] as they are. *)
Definition keeps_users (o : obs) : bool :=
  match o with
  | @Obs _ (Delete_users _) _ => false
  | @Obs _ (Delete_subscriptions _) _ => false
  | _ => true
  end.

(** A uniqueness probe or read-back that found a record. *)
Definition found_by_string (o : obs) : bool :=
  match o with
  | @Obs _ (GetAll_codes (ByCode _)) (Ok (_ :: _)) => true
  | _ => false
  end.

(** The unique index on [code]: no two records hold the same code string. *)
Definition codes_unique (w : World) : Prop := NoDup (List.map Code.code (codes w)).

(** The key generator is ahead of every stored key. *)
Definition keys_below (w : World) : Prop :=
  forall c, In c (codes w) -> Code.id c < codesKeyGen w.

(** What IndexedDB guarantees of the [codes] store declared in [init]
    (key path [id], auto-increment, unique index on [code]). *)
Definition consistent (w : World) : Prop :=
  keys_unique w /\ codes_unique w /\ keys_below w.

(** Two records that differ at most in [isActive] and [updatedAt]. *)
Definition same_code (x y : Code.t) : Prop :=
  Code.id x = Code.id y /\ Code.userId x = Code.userId y /\
  Code.code x = Code.code y /\ Code.type x = Code.type y.

(** The parts of the world that the methods on [codes] leave alone. *)
Definition same_frame (w w' : World) : Prop :=
  users w' = users w /\ subscriptions w' = subscriptions w /\
  clock w' = clock w /\ entropy w' = entropy w.

(** The record [updateCode(id, {isActive: false})] stores at time [t]. *)
Definition retired_at (t : Z) (c : Code.t) : Code.t :=
  Code.set_updatedAt t (Code.set_isActive false c).

(** No code the generator can produce from the world's clock and random
    source is held by a record. *)
Definition fresh_source (w : World) : Prop :=
  forall (ty : string) (n m : nat) (c : Code.t),
    In c (codes w) -> Code.code c <> generateCode_at ty (clock w n) (entropy w m).

(** * Properties *)

(** ** Running composite programs *)

Section Running.
Context {W : Type} (h : handler W).

Lemma run_bind {A B : Type} (p : prog A) (f : A -> prog B) (w : W) :
  run h (bind p f) w =
  match run h p w with
  | (Returned a, w') => run h (f a) w'
  | (Thrown e, w') => (Thrown e, w')
  end.
Proof.
  revert w; induction p as [a | e | X ev k IH]; intros w; simpl; try reflexivity.
  destruct (h X ev w) as [x w']; apply IH.
Qed.

Lemma run_try_catch {A : Type} (p : prog A) (k : error -> prog A) (w : W) :
  run h (try_catch p k) w =
  match run h p w with
  | (Returned a, w') => (Returned a, w')
  | (Thrown e, w') => run h (k e) w'
  end.
Proof.
  revert w; induction p as [a | e | X ev k' IH]; intros w; simpl; try reflexivity.
  destruct (h X ev w) as [x w']; apply IH.
Qed.

Lemma history_bind {A B : Type} (p : prog A) (f : A -> prog B) (w : W) :
  history h (bind p f) w =
  (history h p w ++
   match run h p w with
   | (Returned a, w') => history h (f a) w'
   | (Thrown _, _) => []
   end)%list.
Proof.
  revert w; induction p as [a | e | X ev k IH]; intros w; simpl; try reflexivity.
  destruct (h X ev w) as [x w']; simpl; f_equal; apply IH.
Qed.

Lemma history_try_catch {A : Type} (p : prog A) (k : error -> prog A) (w : W) :
  history h (try_catch p k) w =
  (history h p w ++
   match run h p w with
   | (Returned _, _) => []
   | (Thrown e, w') => history h (k e) w'
   end)%list.
Proof.
  revert w; induction p as [a | e | X ev k' IH]; intros w; simpl.
  - reflexivity.
  - reflexivity.
  - destruct (h X ev w) as [x w']; simpl; f_equal; apply IH.
Qed.

(** A [catch] block that returns a value makes the whole [try] return. *)
Lemma run_try_catch_returns {A : Type} (p : prog A) (a0 : A) (w : W) :
  exists a w', run h (try_catch p (fun _ => Ret a0)) w = (Returned a, w').
Proof.
  rewrite run_try_catch.
  destruct (run h p w) as [[a | e] w']; simpl; eauto.
Qed.


Lemma run_await {A : Type} (ev : effE (result A)) (w : W) :
  run h (await ev) w =
  match h _ ev w with
  | (Ok a, w') => (Returned a, w')
  | (Err e, w') => (Thrown e, w')
  end.
Proof. simpl. destruct (h _ ev w) as [[a | e] w']; reflexivity. Qed.

Lemma history_rethrow {A : Type} (p : prog A) (w : W) :
  history h (try_catch p (fun e => Throw e)) w = history h p w /\
  run h (try_catch p (fun e => Throw e)) w = run h p w.
Proof.
  rewrite history_try_catch, run_try_catch.
  destruct (run h p w) as [[a | e] w']; cbn; rewrite ?app_nil_r; auto.
Qed.

End Running.


(** ** Symbolic execution *)

Ltac unmonad := unfold mbind, prog_bind, mret, prog_ret in *.

Tactic Notation "run_step" hyp(H) "as" ident(a) ident(w) :=
  rewrite run_bind in H;
  let E := fresh "E" a in
  let e := fresh "e" in
  match type of H with
  | context [run ?h ?p ?w0] =>
      lazymatch p with
      | bind _ _ => fail
      | _ => destruct (run h p w0) as [[a | e] w] eqn:E; try discriminate H
      end
  end.

(** Splits on the answer of the next request to [h]. *)
Ltac answer h :=
  match goal with
  | |- context [h ?X ?ev ?w] =>
      let x := fresh "x" in let w' := fresh "w" in
      destruct (h X ev w) as [x w'] eqn:?; simpl
  | H : context [h ?X ?ev ?w] |- _ =>
      let x := fresh "x" in let w' := fresh "w" in
      destruct (h X ev w) as [x w'] eqn:?; simpl in *
  end.


(** ** Code Generator *)

Module CodeShape.

Lemma all_chars_app (P : ascii -> bool) (a b : string) :
  all_chars P (a ++ b) = all_chars P a && all_chars P b.
Proof.
  unfold all_chars. induction a as [| c a IH]; [reflexivity |].
  change (String c a ++ b) with (String c (a ++ b)).
  cbn. rewrite IH. apply andb_assoc.
Qed.

Lemma length_app (a b : string) :
  String.length (a ++ b) = (String.length a + String.length b)%nat.
Proof.
  induction a as [| c a IH]; [reflexivity |].
  change (String c a ++ b) with (String c (a ++ b)).
  cbn. rewrite IH. reflexivity.
Qed.

Lemma length_upper (s : string) : String.length (Js.toUpperCase s) = String.length s.
Proof. induction s as [| c s IH]; cbn; [reflexivity | rewrite IH; reflexivity]. Qed.

Lemma upper_alnum (s : string) :
  all_chars is_alnum36 s = true -> all_chars is_upper_alnum (Js.toUpperCase s) = true.
Proof.
  unfold all_chars. induction s as [| c s IH]; [reflexivity |].
  cbn [Js.toUpperCase list_ascii_of_string forallb].
  intros H. apply andb_prop in H as [Hc Hs].
  apply andb_true_intro. split; [exact Hc | exact (IH Hs)].
Qed.

Lemma length_drop (n : nat) (s : string) :
  String.length (Js.drop n s) = (String.length s - n)%nat.
Proof.
  revert s. induction n as [| n IH]; intros s; cbn.
  - lia.
  - destruct s as [| c s]; cbn; [reflexivity | apply IH].
Qed.

Lemma all_chars_drop (P : ascii -> bool) (n : nat) (s : string) :
  all_chars P s = true -> all_chars P (Js.drop n s) = true.
Proof.
  revert s. induction n as [| n IH]; intros s H; cbn; [exact H |].
  destruct s as [| c s]; [reflexivity |].
  apply IH. unfold all_chars in *. cbn in H. apply andb_prop in H as [_ H]. exact H.
Qed.

Lemma length_take (n : nat) (s : string) :
  (n <= String.length s)%nat -> String.length (Js.take n s) = n.
Proof.
  revert s. induction n as [| n IH]; intros s H; cbn; [reflexivity |].
  destruct s as [| c s]; cbn in *; [lia |]. rewrite IH; [reflexivity | lia].
Qed.

Lemma all_chars_take (P : ascii -> bool) (n : nat) (s : string) :
  all_chars P s = true -> all_chars P (Js.take n s) = true.
Proof.
  revert s. induction n as [| n IH]; intros s H; cbn; [reflexivity |].
  destruct s as [| c s]; [reflexivity |].
  unfold all_chars in *. cbn in *. apply andb_prop in H as [Hc H].
  rewrite Hc. exact (IH s H).
Qed.

(** Every radix-36 digit is upper-cased into [[A-Z0-9]]. *)
Lemma digit36_alnum (d : nat) : is_alnum36 (Js.digit36 d) = true.
Proof.
  unfold Js.digit36.
  pose proof (Nat.mod_upper_bound d 36 ltac:(lia)) as Hlt.
  generalize dependent (d mod 36)%nat. intros k Hk.
  do 36 (destruct k as [| k]; [reflexivity |]). lia.
Qed.

Lemma digits_alnum (ds : list nat) :
  all_chars is_alnum36 (string_of_list_ascii (List.map Js.digit36 ds)) = true.
Proof.
  unfold all_chars. induction ds as [| d ds IH]; [reflexivity |].
  cbn. rewrite digit36_alnum. exact IH.
Qed.

Lemma length_digits (ds : list nat) :
  String.length (string_of_list_ascii (List.map Js.digit36 ds)) = length ds.
Proof. induction ds as [| d ds IH]; cbn; [reflexivity | rewrite IH; reflexivity]. Qed.

Lemma nat_digits36_alnum (fuel : nat) (n : N) (acc : string) :
  all_chars is_alnum36 acc = true ->
  all_chars is_alnum36 (Js.nat_digits36 fuel n acc) = true.
Proof.
  revert n acc. induction fuel as [| f IH]; intros n acc Hacc; cbn; [exact Hacc |].
  assert (Hacc' : all_chars is_alnum36
                    (String (Js.digit36 (N.to_nat (n mod 36))) acc) = true).
  { unfold all_chars in *. cbn. rewrite digit36_alnum. exact Hacc. }
  destruct (n <? 36)%N; [exact Hacc' | apply IH, Hacc'].
Qed.

Lemma nat_digits36_grows (fuel : nat) (n : N) (acc : string) :
  (String.length acc <= String.length (Js.nat_digits36 fuel n acc))%nat.
Proof.
  revert n acc. induction fuel as [| f IH]; intros n acc; cbn; [lia |].
  destruct (n <? 36)%N; cbn; [lia |].
  etransitivity; [| apply IH]. cbn. lia.
Qed.

(** A number of at least [36^3] has at least four radix-36 digits. *)
Lemma nat_digits36_four (fuel : nat) (n : N) :
  (4 <= fuel)%nat -> (46656 <= n)%N ->
  (4 <= String.length (Js.nat_digits36 fuel n EmptyString))%nat.
Proof.
  intros Hf Hn.
  destruct fuel as [| [| [| [| f]]]]; try lia.
  assert (H1 : (n <? 36)%N = false) by (apply N.ltb_ge; lia).
  assert (H2 : (n / 36 <? 36)%N = false).
  { apply N.ltb_ge. apply N.div_le_lower_bound; lia. }
  assert (H3 : (n / 36 / 36 <? 36)%N = false).
  { apply N.ltb_ge. apply N.div_le_lower_bound; [lia |].
    apply N.div_le_lower_bound; lia. }
  cbn [Js.nat_digits36]. rewrite H1, H2, H3.
  destruct (n / 36 / 36 / 36 <? 36)%N; [cbn [String.length]; lia |].
  match goal with |- context [Js.nat_digits36 f ?m ?acc] =>
    pose proof (nat_digits36_grows f m acc) as Hg end.
  cbn [String.length] in Hg. lia.
Qed.

Lemma toString36_four (now : Z) :
  46656 <= now -> (4 <= String.length (Js.toString36 now))%nat.
Proof.
  intros H. unfold Js.toString36.
  destruct (Z.ltb_spec now 0) as [Hneg | _]; [lia |].
  apply nat_digits36_four; [| lia].
  assert (15 <= N.log2 (Z.abs_N now))%N by (apply N.log2_le_pow2; lia).
  lia.
Qed.

Lemma toString36_alnum (now : Z) :
  0 <= now -> all_chars is_alnum36 (Js.toString36 now) = true.
Proof.
  intros H. unfold Js.toString36.
  destruct (Z.ltb_spec now 0) as [Hneg | _]; [lia |].
  apply nat_digits36_alnum. reflexivity.
Qed.

(** With a clock past the first 46.656 seconds of 1970 and a random number
    of at least four radix-36 digits, [generateCode] matches
    [^(ADM|VWR)-[A-Z0-9]{8}$]. *)
Lemma generateCode_pattern (type : string) (now : Z) (rnd : list nat) :
  46656 <= now -> (4 <= length rnd)%nat ->
  matches_code_pattern (generateCode_at type now rnd) = true.
Proof.
  intros Hnow Hrnd.
  set (T := Js.toUpperCase (Js.slice_last 4 (Js.toString36 now))).
  set (R := Js.toUpperCase (Js.substring 2 6 (Js.fraction_toString36 rnd))).
  assert (HT : String.length T = 4%nat /\ all_chars is_upper_alnum T = true).
  { unfold T, Js.slice_last. split.
    - rewrite length_upper, length_drop. pose proof (toString36_four now Hnow). lia.
    - apply upper_alnum, all_chars_drop, toString36_alnum. lia. }
  assert (HR : String.length R = 4%nat /\ all_chars is_upper_alnum R = true).
  { unfold R, Js.substring, Js.fraction_toString36.
    destruct rnd as [| d ds]; [cbn in Hrnd; lia |].
    change (Js.take (6 - 2) (Js.drop 2 ("0." ++ string_of_list_ascii (List.map Js.digit36 (d :: ds)))))
      with (Js.take 4 (string_of_list_ascii (List.map Js.digit36 (d :: ds)))).
    split.
    - rewrite length_upper, length_take; [reflexivity |]. rewrite length_digits. exact Hrnd.
    - apply upper_alnum, all_chars_take, digits_alnum. }
  destruct HT as [HT1 HT2], HR as [HR1 HR2].
  assert (Hbody : (String.length (T ++ R) =? 8)%nat
                  && forallb is_upper_alnum (list_ascii_of_string (T ++ R)) = true).
  { rewrite length_app, HT1, HR1.
    change (forallb is_upper_alnum (list_ascii_of_string (T ++ R)))
      with (all_chars is_upper_alnum (T ++ R)).
    rewrite all_chars_app, HT2, HR2. reflexivity. }
  unfold generateCode_at, matches_code_pattern. fold T R.
  destruct (String.eqb type "admin"); exact Hbody.
Qed.

End CodeShape.

(** C2: every generated code must match [^(ADM|VWR)-[A-Z0-9]{8}$], with
    four random characters; when [Math.random()] returns 0.5, rendered
    ["0.i"] in radix 36, [generateCode('admin')] is the nine-character
    string ["ADM-3V28I"]. *)
Theorem generateCode_short_random :
  entropy Sample.half (draws Sample.half) = [18%nat] /\
  Js.fraction_toString36 [18%nat] = "0.i" /\
  fst (run idb (generateCode "admin") Sample.half) = Returned "ADM-3V28I" /\
  matches_code_pattern "ADM-3V28I" = false.
Proof. repeat split; vm_compute; reflexivity. Qed.


(** ** Code Verifier *)

Lemma derive_tier_text {W} (h : handler W) (p : string) (w : W) :
  run h (derive_tier (PText p)) w = (Returned (spec_tier p), w).
Proof.
  unfold derive_tier, spec_tier, and_then, or_else, truthy_product.
  destruct (String.eqb_spec p "") as [-> | Hne]; [reflexivity |].
  cbn.
  destruct (Js.includes p "6"); cbn; [reflexivity |].
  destruct (Js.includes p yearly_ar); cbn.
  - rewrite orb_true_r. reflexivity.
  - rewrite orb_false_r. destruct (Js.includes p "Yearly"); reflexivity.
Qed.

Lemma derive_tier_missing {W} (h : handler W) (p : product_field) (w : W) :
  p = PUndefined \/ p = PNull ->
  run h (derive_tier p) w = (Thrown TypeError, w).
Proof. intros [-> | ->]; reflexivity. Qed.

(** One step of symbolic execution of [run h (bind p f) w] in [H]. *)

Lemma derive_tier_cases (p : product_field) :
  (exists t, derive_tier p = Ret t) \/ derive_tier p = Throw TypeError.
Proof.
  destruct p as [| | p]; [right; reflexivity | right; reflexivity | left].
  unfold derive_tier, and_then, or_else, product_includes. unmonad.
  destruct (truthy_product (PText p)); simpl.
  - destruct (Js.includes p "6"); simpl; eauto.
    destruct (Js.includes p yearly_ar); simpl; eauto.
    destruct (Js.includes p "Yearly"); simpl; eauto.
  - destruct (Js.includes p "Yearly"); simpl; eauto.
Qed.

Section Verify.
Context {W : Type} (h : handler W).

(** The part of [verifyCode] after the expiry check. *)
Lemma verifyCode_success_inv (s : string) (w w' : W) (v : verified) :
  run h (verifyCode s) w = (Returned (Success v), w') ->
  exists (code : Code.t) (user : User.t) (now : Z) (userCodes : list Code.t) (p : string),
    Code.isActive code = true /\
    is_expired (expiry_time (User.expiryDate user)) now = false /\
    User.product user = PText p /\
    v = mk_verified
          (if String.eqb (Code.type code) "admin" then "admin" else "viewer")
          (until_time (expiry_time (User.expiryDate user)) now)
          (spec_tier p)
          (code_or_empty (find_code "admin" userCodes))
          (code_or_empty (find_code "viewer" userCodes))
          (User.id user) (User.name user) (User.email user) (User.product user).
Proof.
  intros H. unfold verifyCode in H. unmonad.
  run_step H as u0 w1.
  rewrite run_try_catch in H.
  match type of H with context [run h ?p ?w] =>
    destruct (run h p w) as [[r | e] w2] eqn:Hbody end;
    [| simpl in H; discriminate H].
  injection H as -> ->.
  run_step Hbody as o w3.
  destruct o as [code |]; cbv beta iota in Hbody; [| discriminate Hbody].
  destruct (Code.isActive code) eqn:Hact; cbv beta iota delta [negb] in Hbody;
    [| discriminate Hbody].
  run_step Hbody as o w4.
  destruct o as [user |]; cbv beta iota in Hbody; [| discriminate Hbody].
  run_step Hbody as now w5.
  cbv beta iota zeta in Hbody.
  destruct (is_expired _ _) eqn:Hexp; [discriminate Hbody |].
  run_step Hbody as userCodes w6.
  destruct (User.product user) as [| | p] eqn:Hp.
  - rewrite run_bind, (derive_tier_missing h PUndefined) in Hbody by auto. discriminate.
  - rewrite run_bind, (derive_tier_missing h PNull) in Hbody by auto. discriminate.
  - rewrite run_bind, derive_tier_text in Hbody. simpl in Hbody.
    injection Hbody as <- <-.
    exists code, user, now, userCodes, p. rewrite Hp. auto.
Qed.
End Verify.

(** *** [verifyCode] on the IndexedDB store *)

Lemma getUserCodes_idb (w : World) (u : Z) :
  run idb (getUserCodes u None) w =
  (Returned (List.filter Code.isActive (Idb.query (ByUserId u) (codes w))), w).
Proof. reflexivity. Qed.

Lemma getCode_idb (w : World) (s : string) :
  run idb (getCode s) w =
  (Returned (List.head (Idb.query (ByCode s) (codes w))), w).
Proof.
  unfold getCode. cbn. destruct (List.filter _ _); reflexivity.
Qed.

(** The answer to an active code of an unexpired user with a product. *)
Lemma verifyCode_idb_success (w : World) (s : string) (c : Code.t) (u : User.t) (p : string) :
  List.head (Idb.query (ByCode s) (codes w)) = Some c ->
  Code.isActive c = true ->
  users w !! Code.userId c = Some u ->
  is_expired (expiry_time (User.expiryDate u)) (clock w (ticks w)) = false ->
  User.product u = PText p ->
  run idb (verifyCode s) w =
  (Returned
     (Success
        (mk_verified
           (if String.eqb (Code.type c) "admin" then "admin" else "viewer")
           (until_time (expiry_time (User.expiryDate u)) (clock w (ticks w)))
           (spec_tier p)
           (code_or_empty
              (find_code "admin"
                 (List.filter Code.isActive (Idb.query (ByUserId (Code.userId c)) (codes w)))))
           (code_or_empty
              (find_code "viewer"
                 (List.filter Code.isActive (Idb.query (ByUserId (Code.userId c)) (codes w)))))
           (User.id u) (User.name u) (User.email u) (User.product u))),
   Idb.tick w).
Proof.
  intros Hc Hact Hu Hexp Hp.
  unfold verifyCode. unmonad.
  rewrite run_bind. cbn [await run Idb.step settle].
  rewrite run_try_catch.
  rewrite run_bind, getCode_idb, Hc. cbv beta iota. rewrite Hact. cbv beta iota delta [negb].
  rewrite run_bind. cbn [getUser await run Idb.step settle]. rewrite Hu. cbv beta iota.
  rewrite run_bind. cbn [perform run Idb.step]. cbv beta iota zeta. rewrite Hexp.
  rewrite run_bind, getUserCodes_idb.
  rewrite run_bind, Hp, derive_tier_text. reflexivity.
Qed.

Lemma verifyCode_idb_expired (w : World) (s : string) (c : Code.t) (u : User.t) :
  List.head (Idb.query (ByCode s) (codes w)) = Some c ->
  Code.isActive c = true ->
  users w !! Code.userId c = Some u ->
  is_expired (expiry_time (User.expiryDate u)) (clock w (ticks w)) = true ->
  run idb (verifyCode s) w = (Returned (Failure "EXPIRED"), Idb.tick w).
Proof.
  intros Hc Hact Hu Hexp.
  unfold verifyCode. unmonad.
  rewrite run_bind. cbn [await run Idb.step settle].
  rewrite run_try_catch.
  rewrite run_bind, getCode_idb, Hc. cbv beta iota. rewrite Hact. cbv beta iota delta [negb].
  rewrite run_bind. cbn [getUser await run Idb.step settle]. rewrite Hu. cbv beta iota.
  rewrite run_bind. cbn [perform run Idb.step]. cbv beta iota zeta. rewrite Hexp.
  reflexivity.
Qed.

(** An expiry instant other than the epoch that lies in the past makes
    [verifyCode] answer [EXPIRED]. *)
Lemma verifyCode_expired_after_epoch (w : World) (s : string) (c : Code.t) (u : User.t) (t : Z) :
  List.head (Idb.query (ByCode s) (codes w)) = Some c ->
  Code.isActive c = true ->
  users w !! Code.userId c = Some u ->
  User.expiryDate u = DInstant t ->
  t <> 0 ->
  t < clock w (ticks w) ->
  fst (run idb (verifyCode s) w) = Returned (Failure "EXPIRED").
Proof.
  intros Hc Hact Hu Ht Hnz Hlt.
  rewrite (verifyCode_idb_expired w s c u); auto.
  rewrite Ht. unfold is_expired, truthy_num; simpl.
  apply andb_true_intro; split.
  - apply negb_true_iff, Z.eqb_neq, Hnz.
  - apply Z.ltb_lt, Hlt.
Qed.

Lemma find_code_active (u : Z) (l : list Code.t) (ty : string) :
  find_code ty (List.filter Code.isActive (Idb.query (ByUserId u) l))
  = List.head (active_codes u ty l).
Proof.
  unfold find_code, active_codes, Idb.query.
  induction l as [| x l IH]; [reflexivity |]. simpl.
  destruct (Code.userId x =? u); simpl; [| exact IH].
  destruct (Code.isActive x) eqn:Ha; simpl; rewrite ?Ha.
  - rewrite andb_true_r. destruct (String.eqb (Code.type x) ty); simpl; [reflexivity | exact IH].
  - rewrite andb_false_r. exact IH.
Qed.

(** In a [Success] the [until] field is the expiry instant when there is one
    other than the epoch, and the default window when there is none. *)
Lemma verifyCode_until (w : World) (s : string) (c : Code.t) (u : User.t) (p : string) :
  List.head (Idb.query (ByCode s) (codes w)) = Some c ->
  Code.isActive c = true ->
  users w !! Code.userId c = Some u ->
  is_expired (expiry_time (User.expiryDate u)) (clock w (ticks w)) = false ->
  User.product u = PText p ->
  exists v, fst (run idb (verifyCode s) w) = Returned (Success v) /\
    (forall t, User.expiryDate u = DInstant t -> t <> 0 -> until v = t) /\
    (User.expiryDate u = DAbsent -> until v = clock w (ticks w) + validity_window) /\
    codes_admin v =
      code_or_empty (List.head (active_codes (Code.userId c) "admin" (codes w))) /\
    codes_viewer v =
      code_or_empty (List.head (active_codes (Code.userId c) "viewer" (codes w))).
Proof.
  intros Hc Hact Hu Hexp Hp.
  rewrite (verifyCode_idb_success w s c u p) by assumption.
  eexists; split; [reflexivity |]. cbn [until codes_admin codes_viewer].
  pose proof (find_code_active (Code.userId c) (codes w)) as Hfind.
  repeat split.
  - intros t Ht Hnz. rewrite Ht. unfold until_time, truthy_num; simpl.
    destruct (Z.eqb_spec t 0); [contradiction | reflexivity].
  - intros Ht. rewrite Ht. reflexivity.
  - rewrite Hfind; reflexivity.
  - rewrite Hfind; reflexivity.
Qed.

(** *** Claims about [verifyCode] *)

(** C4: for a user whose [product] is the string [p], a successful
    verification reports the tier by first match: ["Pro-6"] when [p] contains
    ["6"], else ["Pro-12"] when it contains ["Yearly"] or the Arabic token,
    else ["Basic-3"]; so ["Plan-6-Premium"] gives [Pro-6], ["Yearly Plan"]
    gives [Pro-12] and ["Plan-3"] gives [Basic-3]. *)
Theorem verifyCode_tier_precedence
    (w : World) (s : string) (c : Code.t) (u : User.t) (p : string) :
  List.head (Idb.query (ByCode s) (codes w)) = Some c ->
  Code.isActive c = true ->
  users w !! Code.userId c = Some u ->
  is_expired (expiry_time (User.expiryDate u)) (clock w (ticks w)) = false ->
  User.product u = PText p ->
  exists v w',
    run idb (verifyCode s) w = (Returned (Success v), w') /\
    tier v =
      (if Js.includes p "6" then "Pro-6"
       else if Js.includes p "Yearly" || Js.includes p yearly_ar then "Pro-12"
       else "Basic-3") /\
    (p = "Plan-6-Premium" -> tier v = "Pro-6") /\
    (p = "Yearly Plan" -> tier v = "Pro-12") /\
    (p = "Plan-3" -> tier v = "Basic-3").
Proof.
  intros Hc Hact Hu Hexp Hp.
  rewrite (verifyCode_idb_success w s c u p) by assumption.
  eexists _, _; split; [reflexivity |]. cbn [tier].
  split; [reflexivity |].
  repeat split; intros ->; reflexivity.
Qed.

Lemma verifyCode_tier_precedence_witness :
  exists v w',
    run idb (verifyCode "ADM-CAR00005") Sample.db = (Returned (Success v), w') /\
    tier v = "Pro-12".
Proof.
  destruct (verifyCode_tier_precedence Sample.db "ADM-CAR00005" Sample.admin3
              Sample.carol "Yearly Plan")
    as (v & w' & Hrun & _ & _ & Hyearly & _); try reflexivity.
  exists v, w'. split; [exact Hrun | apply Hyearly; reflexivity].
Defined.

(** C5: a user whose [expiryDate] lies strictly before the current instant
    must be answered [EXPIRED]; at the epoch as expiry date the code answers
    [Success] instead. *)
Theorem verifyCode_epoch_expiry_succeeds :
  User.expiryDate Sample.alice = DInstant 0 /\
  0 < clock Sample.db (ticks Sample.db) /\
  List.head (Idb.query (ByCode "ADM-OLD00002") (codes Sample.db)) = Some Sample.admin1 /\
  users Sample.db !! Code.userId Sample.admin1 = Some Sample.alice /\
  exists v, fst (run idb (verifyCode "ADM-OLD00002") Sample.db) = Returned (Success v).
Proof.
  repeat split; try reflexivity.
  eexists. vm_compute. reflexivity.
Qed.

(** C6: in a [Success] the [until] field must be the user's [expiryDate]
    when there is one; for the expiry date at the epoch the code reports the
    current time plus 180 days. *)
Theorem verifyCode_epoch_until :
  User.expiryDate Sample.alice = DInstant 0 /\
  exists v,
    fst (run idb (verifyCode "ADM-OLD00002") Sample.db) = Returned (Success v) /\
    payload_userId v = User.id Sample.alice /\
    until v = clock Sample.db (ticks Sample.db) + 180 * 24 * 60 * 60 * 1000 /\
    until v <> 0.
Proof.
  split; [reflexivity |].
  eexists. split; [vm_compute; reflexivity |].
  cbn [payload_userId until]. repeat split. discriminate.
Qed.

(** C10: for an active code whose user exists, is not expired and has a
    [null] or [undefined] [product], [verifyCode] answers the generic failure
    [{ok: false, message: 'ERROR'}]: the [includes] call on the missing
    product throws, and the catch-all handler swallows the [TypeError]. *)
Theorem verifyCode_missing_product (w : World) (s : string) (c : Code.t) (u : User.t) :
  List.head (Idb.query (ByCode s) (codes w)) = Some c ->
  Code.isActive c = true ->
  users w !! Code.userId c = Some u ->
  is_expired (expiry_time (User.expiryDate u)) (clock w (ticks w)) = false ->
  User.product u = PUndefined \/ User.product u = PNull ->
  fst (run idb (verifyCode s) w) = Returned (Failure "ERROR").
Proof.
  intros Hc Hact Hu Hexp Hp.
  unfold verifyCode. unmonad.
  rewrite run_bind. cbn [await run Idb.step settle].
  rewrite run_try_catch.
  rewrite run_bind, getCode_idb, Hc. cbv beta iota. rewrite Hact. cbv beta iota delta [negb].
  rewrite run_bind. cbn [getUser await run Idb.step settle]. rewrite Hu. cbv beta iota.
  rewrite run_bind. cbn [perform run Idb.step]. cbv beta iota zeta. rewrite Hexp.
  rewrite run_bind, getUserCodes_idb.
  rewrite run_bind, derive_tier_missing by exact Hp. reflexivity.
Qed.

Lemma verifyCode_missing_product_witness :
  fst (run idb (verifyCode "ADM-BOB00004") Sample.db) = Returned (Failure "ERROR").
Proof.
  apply (verifyCode_missing_product Sample.db "ADM-BOB00004" Sample.admin2 Sample.bob);
    try reflexivity.
  right; reflexivity.
Defined.

(** C9 as stated fails: the store rejects both lookups of the companion
    codes, and [verifyCode] still answers [Success], with empty companion
    codes, instead of the generic failure. *)
Lemma verifyCode_absorbs_companion_failure :
  let h := Idb.step_failing [5; 6]%nat in
  let w := (Sample.db, 0%nat) in
  existsb companion_rejected (history h (verifyCode "ADM-CAR00005") w) = true /\
  rejected (history h (verifyCode "ADM-CAR00005") w)
    = [IdbError "UnknownError"; IdbError "UnknownError"] /\
  exists v,
    fst (run h (verifyCode "ADM-CAR00005") w) = Returned (Success v) /\
    codes_admin v = "" /\ codes_viewer v = "".
Proof.
  cbv zeta. split; [vm_compute; reflexivity |].
  split; [vm_compute; reflexivity |].
  eexists. split; [vm_compute; reflexivity |].
  split; reflexivity.
Qed.

(** C9, amended: once the database handle is there, [verifyCode] never
    throws, in any environment; and when the store rejects the lookup of the
    code or the lookup of its user, the answer is the generic failure
    [{ok: false, message: 'ERROR'}]. *)
Theorem verifyCode_fails_closed {W : Type} (h : handler W) (w w1 : W) (s : string) :
  h _ EnsureInit w = (Ok tt, w1) ->
  (exists r w', run h (verifyCode s) w = (Returned r, w')) /\
  (existsb primary_rejected (history h (verifyCode s) w) = true ->
   fst (run h (verifyCode s) w) = Returned (Failure "ERROR")).
Proof.
  intros Hinit. split.
  - unfold verifyCode. unmonad. rewrite run_bind, run_await, Hinit.
    apply run_try_catch_returns.
  - unfold verifyCode. unmonad. simpl. rewrite Hinit. simpl.
    answer h. destruct x as [[| c l] | e]; simpl; try discriminate; auto.
    destruct (Code.isActive c); simpl; try discriminate.
    answer h. destruct x as [[user |] | e]; simpl; try discriminate; auto.
    answer h.
    destruct (is_expired _ _); simpl; try discriminate.
    answer h. destruct x0 as [[] | e]; simpl; auto.
    answer h. destruct x0 as [l' | e]; simpl.
    + destruct (derive_tier_cases (User.product user)) as [[t ->] | ->];
        simpl; discriminate.
    + answer h.
      destruct x0 as [l' | e'];
        destruct (derive_tier_cases (User.product user)) as [[t ->] | ->];
        simpl; discriminate.
Qed.

Lemma verifyCode_fails_closed_witness :
  fst (run (Idb.step_failing [2]%nat) (verifyCode "ADM-CAR00005") (Sample.db, 0%nat))
  = Returned (Failure "ERROR").
Proof.
  apply (verifyCode_fails_closed (Idb.step_failing [2]%nat)
           (Sample.db, 0%nat) (Sample.db, 1%nat) "ADM-CAR00005").
  - reflexivity.
  - vm_compute. reflexivity.
Defined.


(** ** Code Lifecycle Manager *)

(** *** The uniqueness probe *)

Section Probe.
Context {W : Type} (h : handler W).

Lemma unique_candidate_probes (ty : string) (n : nat) (w : W) :
  (length (probed (history h (unique_candidate ty n) w)) <= S n)%nat /\
  (forall c w', run h (unique_candidate ty n) w = (Returned c, w') ->
                list.last (probed (history h (unique_candidate ty n) w)) = Some c) /\
  (forallb probe_collided (history h (unique_candidate ty n) w) = true ->
   exists c w', run h (unique_candidate ty n) w = (Returned c, w') /\
                length (probed (history h (unique_candidate ty n) w)) = S n).
Proof.
  revert w; induction n as [| n IH]; intros w.
  - cbn. destruct (h _ Date_now w) as [now w1].
    destruct (h _ Math_random w1) as [rnd w2]. cbn.
    destruct (h _ (GetAll_codes (ByCode (generateCode_at ty now rnd))) w2)
      as [[[| c l] | e] w3] eqn:Hq; cbn.
    + repeat split; [lia | congruence | discriminate].
    + repeat split; [lia | congruence | eauto].
    + repeat split; [lia | congruence | discriminate].
  - cbn. destruct (h _ Date_now w) as [now w1].
    destruct (h _ Math_random w1) as [rnd w2]. cbn.
    destruct (h _ (GetAll_codes (ByCode (generateCode_at ty now rnd))) w2)
      as [[[| c l] | e] w3] eqn:Hq; cbn.
    + repeat split; [lia | congruence | discriminate].
    + destruct (IH w3) as (Hlen & Hlast & Hcol).
      change (Vis Date_now _) with (unique_candidate ty n).
      unfold probed in *.
      repeat split.
      * lia.
      * intros c0 w' Hrun. specialize (Hlast c0 w' Hrun).
        destruct (omap probe_of (history h (unique_candidate ty n) w3));
          [discriminate | exact Hlast].
      * intros Hall. destruct (Hcol Hall) as (c0 & w' & Hrun & Hl).
        exists c0, w'. split; [exact Hrun | lia].
    + repeat split; [lia | congruence | discriminate].
Qed.

(** The run of the loop, attempt by attempt: every attempt but the last
    found a record; the last one ends the loop because its candidate is
    free, because the attempts are used up, or because its lookup was
    rejected. *)
Lemma unique_candidate_attempts (ty : string) (n : nat) (w : W) :
  exists (retried : list attempt) (final : attempt) (w' : W),
    history h (unique_candidate ty n) w
      = flat_map (attempt_requests ty) (retried ++ [final]) /\
    forallb attempt_found retried = true /\
    (length retried <= n)%nat /\
    match at_answer final with
    | Err e => run h (unique_candidate ty n) w = (Thrown e, w')
    | Ok found =>
        (found = [] \/ length retried = n) /\
        run h (unique_candidate ty n) w = (Returned (attempt_candidate ty final), w')
    end.
Proof.
  revert w; induction n as [| n IH]; intros w.
  - cbn. destruct (h _ Date_now w) as [now w1].
    destruct (h _ Math_random w1) as [rnd w2]. cbn.
    destruct (h _ (GetAll_codes (ByCode (generateCode_at ty now rnd))) w2)
      as [ans w3] eqn:Hq.
    exists [], (mk_attempt now rnd ans), w3.
    destruct ans as [[| c l] | e]; cbn;
      (split; [reflexivity |]; split; [reflexivity |]; split; [lia |]); auto.
  - cbn. destruct (h _ Date_now w) as [now w1].
    destruct (h _ Math_random w1) as [rnd w2]. cbn.
    destruct (h _ (GetAll_codes (ByCode (generateCode_at ty now rnd))) w2)
      as [[[| c l] | e] w3] eqn:Hq; cbn.
    + exists [], (mk_attempt now rnd (Ok [])), w3.
      split; [reflexivity |]. split; [reflexivity |]. split; [cbn; lia |].
      cbn. auto.
    + change (Vis Date_now _) with (unique_candidate ty n).
      destruct (IH w3) as (retried & final & w' & Hh & Hf & Hlen & Hend).
      exists (mk_attempt now rnd (Ok (c :: l)) :: retried), final, w'.
      split; [rewrite Hh; reflexivity |]. split; [exact Hf |].
      split; [cbn; lia |].
      destruct (at_answer final) as [found | e]; [| exact Hend].
      destruct Hend as [Hstop Hrun]. split; [| exact Hrun].
      destruct Hstop as [-> | <-]; [left; reflexivity | right; reflexivity].
    + exists [], (mk_attempt now rnd (Err e)), w3.
      split; [reflexivity |]. split; [reflexivity |]. split; [cbn; lia |].
      reflexivity.
Qed.

End Probe.

(** Regeneration, once the codes of the user are retired, is the admin
    loop, the viewer loop, and then the addition of the admin candidate. *)
Lemma generateCodesForUser_generation_step
    {W : Type} (h : handler W) (w : W) (u : Z) :
  fst (run h (before_generation u) w) = Returned tt ->
  let w1 := snd (run h (before_generation u) w) in
  let loop ty := unique_candidate ty (maxAttempts - 1) in
  match run h (loop "admin") w1 with
  | (Thrown e, _) =>
      history h (generateCodesForUser u) w
        = (history h (before_generation u) w ++ history h (loop "admin") w1)%list /\
      fst (run h (generateCodesForUser u) w) = Thrown e
  | (Returned adminCode, w2) =>
      match run h (loop "viewer") w2 with
      | (Thrown e, _) =>
          history h (generateCodesForUser u) w
            = (history h (before_generation u) w ++ history h (loop "admin") w1
               ++ history h (loop "viewer") w2)%list /\
          fst (run h (generateCodesForUser u) w) = Thrown e
      | (Returned viewerCode, w3) =>
          exists t r rest,
            history h (generateCodesForUser u) w
              = (history h (before_generation u) w ++ history h (loop "admin") w1
                 ++ history h (loop "viewer") w2
                 ++ Obs Date_now t
                    :: Obs (Add_codes (Code.mk_draft u adminCode "admin" true t None)) r
                    :: rest)%list
      end
  end.
Proof.
  cbv zeta. intros Hpre.
  unfold generateCodesForUser, before_generation in *. unmonad.
  rewrite !history_bind, !run_bind in *.
  destruct (run h (await EnsureInit) w) as [[[] | e] w0]; cbv beta iota in *;
    [| discriminate Hpre].
  match goal with
  | |- context [try_catch ?body _] =>
      destruct (history_rethrow h body w0) as [-> ->]
  end.
  rewrite !history_bind, !run_bind in *.
  destruct (run h (getUserCodes u None) w0) as [[L | e] w1]; cbv beta iota in *;
    [| discriminate Hpre].
  rewrite ?history_bind, ?run_bind in *.
  destruct (run h (for_of L deactivate_body) w1) as [[[] | e] w2]; cbv beta iota in *;
    [| discriminate Hpre].
  clear Hpre. cbn [fst snd].
  rewrite ?history_bind, ?run_bind.
  destruct (run h (unique_candidate "admin" (maxAttempts - 1)) w2) as [[a | e] w3];
    cbv beta iota.
  - rewrite ?history_bind, ?run_bind.
    destruct (run h (unique_candidate "viewer" (maxAttempts - 1)) w3) as [[v | e] w4];
      cbv beta iota.
    + unfold addCode at 1. unfold perform, await. unmonad. cbn [bind history].
      destruct (h _ Date_now w4) as [t w5].
      cbn [cd_userId cd_code cd_type cd_isActive cd_expiresAt].
      match goal with
      | |- context [h _ (Add_codes ?d) w5] => destruct (h _ (Add_codes d) w5) as [r w6]
      end.
      eexists t, r, _. rewrite <- !app_assoc. reflexivity.
    + rewrite ?app_nil_r, <- ?app_assoc. split; reflexivity.
  - rewrite ?app_nil_r, <- ?app_assoc. split; reflexivity.
Qed.

(** C7: for each role the uniqueness loop runs attempt after attempt, each
    of them reading the clock and the random source and looking up the
    candidate [generateCode] makes of the two readings by its exact string.
    Every attempt but the last found a record, and there are at most 10
    attempts.  The last attempt ends the loop because its candidate is free
    or because it is the 10th; in both cases the loop does not fail: it
    returns the last candidate, and whatever follows the loop runs with that
    candidate.  Only a rejected lookup makes the loop throw.  In
    [generateCodesForUser], once the codes of the user are retired, the
    requests are those of this loop for ['admin'], then those of this loop
    for ['viewer'], and then, whatever the loops found, the addition of the
    admin candidate the first loop returned. *)
Theorem unique_candidate_bounded_then_proceeds {W : Type} (h : handler W) :
  (forall (w : W) (ty : string),
     let loop := unique_candidate ty (maxAttempts - 1) in
     exists (retried : list attempt) (final : attempt) (w' : W),
       history h loop w = flat_map (attempt_requests ty) (retried ++ [final]) /\
       forallb attempt_found retried = true /\
       (length retried < 10)%nat /\
       match at_answer final with
       | Err e => run h loop w = (Thrown e, w')
       | Ok found =>
           (found = [] \/ length retried = 9%nat) /\
           run h loop w = (Returned (attempt_candidate ty final), w') /\
           forall (B : Type) (rest : string -> prog B),
             run h (bind loop rest) w = run h (rest (attempt_candidate ty final)) w'
       end) /\
  (forall (w : W) (u : Z),
     fst (run h (before_generation u) w) = Returned tt ->
     let w1 := snd (run h (before_generation u) w) in
     let loop ty := unique_candidate ty (maxAttempts - 1) in
     match run h (loop "admin") w1 with
     | (Thrown e, _) =>
         history h (generateCodesForUser u) w
           = (history h (before_generation u) w ++ history h (loop "admin") w1)%list /\
         fst (run h (generateCodesForUser u) w) = Thrown e
     | (Returned adminCode, w2) =>
         match run h (loop "viewer") w2 with
         | (Thrown e, _) =>
             history h (generateCodesForUser u) w
               = (history h (before_generation u) w ++ history h (loop "admin") w1
                  ++ history h (loop "viewer") w2)%list /\
             fst (run h (generateCodesForUser u) w) = Thrown e
         | (Returned viewerCode, w3) =>
             exists t r rest,
               history h (generateCodesForUser u) w
                 = (history h (before_generation u) w ++ history h (loop "admin") w1
                    ++ history h (loop "viewer") w2
                    ++ Obs Date_now t
                       :: Obs (Add_codes (Code.mk_draft u adminCode "admin" true t None)) r
                       :: rest)%list
         end
     end).
Proof.
  split.
  - intros w ty. cbv zeta.
    destruct (unique_candidate_attempts h ty (maxAttempts - 1) w)
      as (retried & final & w' & Hh & Hf & Hlen & Hend).
    exists retried, final, w'.
    split; [exact Hh |]. split; [exact Hf |].
    split; [unfold maxAttempts in Hlen; cbn in Hlen; lia |].
    destruct (at_answer final) as [found | e]; [| exact Hend].
    destruct Hend as [Hstop Hrun].
    split; [exact Hstop |]. split; [exact Hrun |].
    intros B rest. rewrite run_bind, Hrun. reflexivity.
  - intros w u. exact (generateCodesForUser_generation_step h w u).
Qed.

(** Every candidate is taken: each loop uses its 10 attempts, and the
    admin candidate is handed to the store all the same. *)
Lemma unique_candidate_bounded_then_proceeds_witness :
  fst (run idb (before_generation 1) Sample.stuck) = Returned tt /\
  exists t r rest,
    history idb (generateCodesForUser 1) Sample.stuck
    = (history idb (before_generation 1) Sample.stuck
       ++ history idb (unique_candidate "admin" (maxAttempts - 1))
            (snd (run idb (before_generation 1) Sample.stuck))
       ++ history idb (unique_candidate "viewer" (maxAttempts - 1))
            (snd (run idb (unique_candidate "admin" (maxAttempts - 1))
                    (snd (run idb (before_generation 1) Sample.stuck))))
       ++ Obs Date_now t
          :: Obs (Add_codes (Code.mk_draft 1 "ADM-3V281234" "admin" true t None)) r
          :: rest)%list.
Proof.
  assert (Hpre : fst (run idb (before_generation 1) Sample.stuck) = Returned tt)
    by (vm_compute; reflexivity).
  split; [exact Hpre |].
  pose proof (proj2 (unique_candidate_bounded_then_proceeds idb) Sample.stuck 1 Hpre)
    as Hgen.
  cbv zeta in Hgen.
  assert (EA : fst (run idb (unique_candidate "admin" (maxAttempts - 1))
                      (snd (run idb (before_generation 1) Sample.stuck)))
               = Returned "ADM-3V281234") by (vm_compute; reflexivity).
  assert (EV : fst (run idb (unique_candidate "viewer" (maxAttempts - 1))
                      (snd (run idb (unique_candidate "admin" (maxAttempts - 1))
                              (snd (run idb (before_generation 1) Sample.stuck)))))
               = Returned "VWR-3V281234") by (vm_compute; reflexivity).
  destruct (run idb (unique_candidate "admin" (maxAttempts - 1))
              (snd (run idb (before_generation 1) Sample.stuck)))
    as [[a | e] w2] eqn:Ea.
  - assert (Ha : a = "ADM-3V281234").
    { cbn in EA. injection EA as ->. reflexivity. }
    subst a. cbn [snd] in *.
    destruct (run idb (unique_candidate "viewer" (maxAttempts - 1)) w2)
      as [[v | e] w3] eqn:Ev; [exact Hgen | discriminate EV].
  - discriminate EA.
Defined.

(** With every candidate taken, regeneration still hands the last admin
    candidate to the store; it is the store's unique index that rejects it. *)
Example generateCodesForUser_exhausted_probe :
  added (history idb (generateCodesForUser 1) Sample.stuck) = ["ADM-3V281234"] /\
  length (probed (history idb (generateCodesForUser 1) Sample.stuck)) = 20%nat /\
  fst (run idb (generateCodesForUser 1) Sample.stuck) = Thrown Idb.constraint_error.
Proof. repeat split; vm_compute; reflexivity. Qed.

(** *** The read-back *)

Ltac either k := first [k true | k false].

Ltac find_readback :=
  either ltac:(fun a1 => either ltac:(fun v1 => either ltac:(fun ai =>
  either ltac:(fun vi => either ltac:(fun a2 => either ltac:(fun v2 =>
    exists (mk_readback a1 v1 ai vi a2 v2); split; reflexivity)))))).

(** For every environment the read-back does what section 4.2 describes:
    either the store rejects a lookup and its error ends the read-back, or
    the lookups made and the outcome are those of [spec_readback_lookups]
    and [spec_readback_outcome]. *)
Lemma verify_saved_refines_readback
    {W : Type} (h : handler W) (w : W)
    (adminCode viewerCode : string) (adminCodeId viewerCodeId : Z) :
  let p := verify_saved adminCode viewerCode adminCodeId viewerCodeId in
  let seen := List.map lookup_of (history h p w) in
  (exists e, list.last seen = Some (Rejected e) /\ fst (run h p w) = Thrown e) \/
  (exists r,
     seen = spec_readback_lookups adminCode viewerCode adminCodeId viewerCodeId r /\
     fst (run h p w) = spec_readback_outcome r).
Proof.
  cbv zeta. unfold verify_saved, getCode. unmonad. cbn.
  destruct (h _ (SetTimeout 200) w) as [[] w1]. cbn.
  destruct (h _ (GetAll_codes (ByCode adminCode)) w1) as [[[| a la] | e] w2]; cbn;
    try (left; eexists; split; reflexivity).
  - destruct (h _ (GetAll_codes (ByCode viewerCode)) w2) as [[[| v lv] | e] w3]; cbn;
      try (left; eexists; split; reflexivity).
    + destruct (h _ (Get_codes adminCodeId) w3) as [[[a |] | e] w4]; cbn;
        try (left; eexists; split; reflexivity).
      * destruct (h _ (Get_codes viewerCodeId) w4) as [[[v |] | e] w5]; cbn;
          try (left; eexists; split; reflexivity).
        -- right. find_readback.
        -- destruct (h _ (SetTimeout 300) w5) as [[] w6]. cbn.
           destruct (h _ (GetAll_codes (ByCode adminCode)) w6) as [[[| a' la'] | e] w7]; cbn;
             try (left; eexists; split; reflexivity);
             destruct (h _ (GetAll_codes (ByCode viewerCode)) w7) as [[[| v' lv'] | e] w8]; cbn;
             try (left; eexists; split; reflexivity); right; find_readback.
      * destruct (h _ (Get_codes viewerCodeId) w4) as [[[v |] | e] w5]; cbn;
          try (left; eexists; split; reflexivity);
          destruct (h _ (SetTimeout 300) w5) as [[] w6]; cbn;
          destruct (h _ (GetAll_codes (ByCode adminCode)) w6) as [[[| a' la'] | e] w7]; cbn;
          try (left; eexists; split; reflexivity);
          destruct (h _ (GetAll_codes (ByCode viewerCode)) w7) as [[[| v' lv'] | e] w8]; cbn;
          try (left; eexists; split; reflexivity); right; find_readback.
    + destruct (h _ (Get_codes adminCodeId) w3) as [[[a |] | e] w4]; cbn;
        try (left; eexists; split; reflexivity).
      * right. find_readback.
      * destruct (h _ (SetTimeout 300) w4) as [[] w6]; cbn;
          destruct (h _ (GetAll_codes (ByCode adminCode)) w6) as [[[| a' la'] | e] w7]; cbn;
          try (left; eexists; split; reflexivity);
          destruct (h _ (GetAll_codes (ByCode viewerCode)) w7) as [[[| v' lv'] | e] w8]; cbn;
          try (left; eexists; split; reflexivity); right; find_readback.
  - destruct (h _ (GetAll_codes (ByCode viewerCode)) w2) as [[[| v lv] | e] w3]; cbn;
      try (left; eexists; split; reflexivity).
    + destruct (h _ (Get_codes viewerCodeId) w3) as [[[v |] | e] w5]; cbn;
        try (left; eexists; split; reflexivity).
      * right. find_readback.
      * destruct (h _ (SetTimeout 300) w5) as [[] w6]; cbn;
          destruct (h _ (GetAll_codes (ByCode adminCode)) w6) as [[[| a' la'] | e] w7]; cbn;
          try (left; eexists; split; reflexivity);
          destruct (h _ (GetAll_codes (ByCode viewerCode)) w7) as [[[| v' lv'] | e] w8]; cbn;
          try (left; eexists; split; reflexivity); right; find_readback.
    + right. find_readback.
Qed.

(** *** What a regeneration asks of the store *)

Section AllRequests.
Context {W : Type} (h : handler W) (f : obs -> bool).

Lemma all_bind {A B : Type} (p : prog A) (k : A -> prog B) (w : W) :
  forallb f (history h p w) = true ->
  (forall a w', forallb f (history h (k a) w') = true) ->
  forallb f (history h (bind p k) w) = true.
Proof.
  intros Hp Hk. rewrite history_bind, forallb_app, Hp.
  destruct (run h p w) as [[a | e] w']; [apply Hk | reflexivity].
Qed.

Lemma all_try_catch {A : Type} (p : prog A) (k : error -> prog A) (w : W) :
  forallb f (history h p w) = true ->
  (forall e w', forallb f (history h (k e) w') = true) ->
  forallb f (history h (try_catch p k) w) = true.
Proof.
  intros Hp Hk. rewrite history_try_catch, forallb_app, Hp.
  destruct (run h p w) as [[a | e] w']; [reflexivity | apply Hk].
Qed.

Lemma all_vis {A X : Type} (ev : effE X) (k : X -> prog A) (w : W) :
  (forall x, f (Obs ev x) = true) ->
  (forall x w', forallb f (history h (k x) w') = true) ->
  forallb f (history h (Vis ev k) w) = true.
Proof.
  intros Hev Hk. cbn. destruct (h X ev w) as [x w']. cbn.
  rewrite Hev. apply Hk.
Qed.

Lemma all_settle {A : Type} (r : result A) (w : W) :
  forallb f (history h (settle r) w) = true.
Proof. destruct r; reflexivity. Qed.

End AllRequests.

(** Walks through a program made of requests on which [f] holds. *)
Ltac all_requests :=
  repeat first
    [ reflexivity
    | apply all_settle
    | apply all_bind; [| intros ? ?]
    | apply all_try_catch; [| intros ? ?]
    | apply all_vis; [intros ?; reflexivity | intros ? ?]
    | match goal with
      | |- context [match ?x with _ => _ end] => destruct x
      end ].

Section Quiet.
Context {W : Type} (h : handler W).

Lemma quiet_getCode (s : string) (w : W) :
  forallb quiet (history h (getCode s) w) = true.
Proof. unfold getCode, await. unmonad. all_requests. Qed.

Lemma quiet_getUserCodes (u : Z) (ty : option string) (w : W) :
  forallb quiet (history h (getUserCodes u ty) w) = true.
Proof. unfold getUserCodes, await. unmonad. all_requests. Qed.

Lemma quiet_updateCode (k : Z) (patch : Code.t -> Code.t) (w : W) :
  forallb quiet (history h (updateCode k patch) w) = true.
Proof. unfold updateCode, await, perform. unmonad. all_requests. Qed.

Lemma quiet_deactivate (L : list Code.t) (w : W) :
  forallb quiet (history h (for_of L deactivate_body) w) = true.
Proof.
  revert w. induction L as [| c L IH]; intros w; [reflexivity |].
  cbn [for_of]. apply all_bind; [| intros ? ?; apply IH].
  unfold deactivate_body. unmonad. destruct (Code.isActive c); [| reflexivity].
  apply all_bind; [apply quiet_updateCode | reflexivity].
Qed.

Lemma quiet_unique_candidate (ty : string) (n : nat) (w : W) :
  forallb quiet (history h (unique_candidate ty n) w) = true.
Proof.
  revert w. induction n as [| n IH]; intros w; cbn [unique_candidate]; unmonad.
  - apply all_bind; [unfold generateCode, perform; unmonad; all_requests |].
    intros c w1. apply all_bind; [apply quiet_getCode |].
    intros [x |] w2; reflexivity.
  - apply all_bind; [unfold generateCode, perform; unmonad; all_requests |].
    intros c w1. apply all_bind; [apply quiet_getCode |].
    intros [x |] w2; [apply IH | reflexivity].
Qed.

Lemma quiet_verify_saved (a v : string) (ai vi : Z) (w : W) :
  forallb quiet (history h (verify_saved a v ai vi) w) = true.
Proof.
  unfold verify_saved. unmonad.
  apply all_bind; [unfold perform; all_requests |]. intros _ w1.
  apply all_bind; [apply quiet_getCode |]. intros ra w2.
  apply all_bind; [apply quiet_getCode |]. intros rv w3.
  apply all_bind; [destruct (present ra); [reflexivity | unfold await; all_requests] |].
  intros ra' w4.
  apply all_bind; [destruct (present rv); [reflexivity | unfold await; all_requests] |].
  intros rv' w5.
  destruct (negb (present ra') || negb (present rv')); [| reflexivity].
  apply all_bind; [unfold perform; all_requests |]. intros _ w6.
  apply all_bind; [apply quiet_getCode |]. intros ra2 w7.
  apply all_bind; [apply quiet_getCode |]. intros rv2 w8.
  destruct (negb (present ra2) || negb (present rv2)); reflexivity.
Qed.

End Quiet.

Lemma quiet_keeps_codes (o : obs) : quiet o = true -> keeps_codes o = true.
Proof. destruct o as [X ev x]. destruct ev; cbn; congruence. Qed.

Lemma quiet_not_persisted (l : list obs) :
  forallb quiet l = true -> persisted l = [].
Proof.
  induction l as [| o l IH]; [reflexivity |]. cbn [forallb].
  intros H. apply andb_prop in H as [Ho Hl].
  specialize (IH Hl). unfold persisted in *.
  destruct o as [X ev x]. destruct ev; cbn in *; congruence.
Qed.

Lemma persisted_cons (o : obs) (l : list obs) :
  persisted (o :: l) =
  match persisted_of o with
  | Some y => y :: persisted l
  | None => persisted l
  end.
Proof. reflexivity. Qed.

Lemma persisted_app (l1 l2 : list obs) :
  persisted (l1 ++ l2) = (persisted l1 ++ persisted l2)%list.
Proof. apply omap_app. Qed.

Lemma quiet_all_keep {W A : Type} (h : handler W) (p : prog A) (w : W) :
  forallb quiet (history h p w) = true ->
  forallb keeps_codes (history h p w) = true.
Proof.
  intros H. apply forallb_forall. intros o Ho.
  apply quiet_keeps_codes. exact (proj1 (forallb_forall _ _) H o Ho).
Qed.

(** Regeneration never asks the store to delete a code record, whatever the
    environment answers and however the call ends. *)
Lemma generateCodesForUser_never_deletes {W : Type} (h : handler W) (w : W) (u : Z) :
  forallb keeps_codes (history h (generateCodesForUser u) w) = true.
Proof.
  unfold generateCodesForUser. unmonad.
  apply all_bind; [unfold await; all_requests |]. intros _ w0.
  apply all_try_catch; [| reflexivity].
  apply all_bind; [apply quiet_all_keep, quiet_getUserCodes |]. intros L w1.
  apply all_bind; [apply quiet_all_keep, quiet_deactivate |]. intros _ w2.
  apply all_bind; [apply quiet_all_keep, quiet_unique_candidate |]. intros a w3.
  apply all_bind; [apply quiet_all_keep, quiet_unique_candidate |]. intros v w4.
  apply all_bind; [unfold addCode, await, perform; unmonad; all_requests |]. intros ai w5.
  apply all_bind; [unfold addCode, await, perform; unmonad; all_requests |]. intros vi w6.
  apply all_bind; [apply quiet_all_keep, quiet_verify_saved | reflexivity].
Qed.

Lemma addCode_history {W : Type} (h : handler W) (cd : codeData) (w : W) :
  (exists k w', run h (addCode cd) w = (Returned k, w') /\
                persisted (history h (addCode cd) w) = [(cd_code cd, k)]) \/
  (exists e w', run h (addCode cd) w = (Thrown e, w') /\
                persisted (history h (addCode cd) w) = []).
Proof.
  unfold addCode, await, perform. unmonad. cbn.
  destruct (h _ Date_now w) as [t w1]. cbn.
  match goal with |- context [h _ ?ev w1] => destruct (h _ ev w1) as [[k | e] w2] end;
    cbn; [left | right]; eauto.
Qed.

(** When the store accepted the two new codes, the rest of the call is the
    read-back of exactly these codes, and the call ends as the read-back
    does. *)
Lemma generateCodesForUser_reads_back
    {W : Type} (h : handler W) (w : W) (u : Z) (a v : string) (ai vi : Z) :
  persisted (history h (generateCodesForUser u) w) = [(a, ai); (v, vi)] ->
  exists pre w1,
    history h (generateCodesForUser u) w
      = (pre ++ history h (verify_saved a v ai vi) w1)%list /\
    persisted pre = [(a, ai); (v, vi)] /\
    fst (run h (generateCodesForUser u) w) =
      match fst (run h (verify_saved a v ai vi) w1) with
      | Returned _ => Returned (a, v)
      | Thrown e => Thrown e
      end.
Proof.
  unfold generateCodesForUser. unmonad.
  rewrite history_bind, run_bind, run_await. cbn [await history].
  destruct (h _ EnsureInit w) as [[[] | e] w0]; cbn [settle history app];
    [| cbn; discriminate].
  destruct (history_rethrow h
    (bind (getUserCodes u None) (fun existingCodes =>
       bind (for_of existingCodes deactivate_body) (fun _ =>
         bind (unique_candidate "admin" (maxAttempts - 1)) (fun adminCode =>
           bind (unique_candidate "viewer" (maxAttempts - 1)) (fun viewerCode =>
             bind (addCode (mk_codeData u adminCode "admin" (Some true) None))
               (fun adminCodeId =>
                bind (addCode (mk_codeData u viewerCode "viewer" (Some true) None))
                  (fun viewerCodeId =>
                   bind (verify_saved adminCode viewerCode adminCodeId viewerCodeId)
                     (fun _ => Ret (adminCode, viewerCode))))))))) w0) as [-> ->].
  rewrite persisted_cons. cbn [persisted_of].
  (* the phases before the two additions persist nothing *)
  rewrite history_bind, run_bind, persisted_app.
  rewrite (quiet_not_persisted _ (quiet_getUserCodes h u None w0)).
  destruct (run h (getUserCodes u None) w0) as [[L | e] w1]; [| discriminate].
  rewrite history_bind, run_bind, persisted_app.
  rewrite (quiet_not_persisted _ (quiet_deactivate h L w1)).
  destruct (run h (for_of L deactivate_body) w1) as [[[] | e] w2]; [| discriminate].
  rewrite history_bind, run_bind, persisted_app.
  rewrite (quiet_not_persisted _ (quiet_unique_candidate h "admin" (maxAttempts - 1) w2)).
  destruct (run h (unique_candidate "admin" (maxAttempts - 1)) w2) as [[a' | e] w3];
    [| discriminate].
  rewrite history_bind, run_bind, persisted_app.
  rewrite (quiet_not_persisted _ (quiet_unique_candidate h "viewer" (maxAttempts - 1) w3)).
  destruct (run h (unique_candidate "viewer" (maxAttempts - 1)) w3) as [[v' | e] w4];
    [| discriminate].
  (* the two additions *)
  rewrite history_bind, run_bind, persisted_app.
  destruct (addCode_history h (mk_codeData u a' "admin" (Some true) None) w4)
    as [(ai' & w5 & R5 & P5) | (e & w5 & R5 & P5)]; rewrite R5, P5; [| discriminate].
  rewrite history_bind, run_bind, persisted_app.
  destruct (addCode_history h (mk_codeData u v' "viewer" (Some true) None) w5)
    as [(vi' & w6 & R6 & P6) | (e & w6 & R6 & P6)]; rewrite R6, P6; [| discriminate].
  rewrite history_bind, run_bind, persisted_app.
  rewrite (quiet_not_persisted _ (quiet_verify_saved h a' v' ai' vi' w6)).
  cbn [cd_code app].
  intros H.
  assert (E : [(a', ai'); (v', vi')] = [(a, ai); (v, vi)]).
  { revert H.
    destruct (run h (verify_saved a' v' ai' vi') w6) as [[[] | e] w7]; cbn; auto. }
  injection E as -> -> -> ->.
  exists (Obs EnsureInit (Ok tt)
          :: history h (getUserCodes u None) w0
          ++ history h (for_of L deactivate_body) w1
          ++ history h (unique_candidate "admin" (maxAttempts - 1)) w2
          ++ history h (unique_candidate "viewer" (maxAttempts - 1)) w3
          ++ history h (addCode (mk_codeData u a "admin" (Some true) None)) w4
          ++ history h (addCode (mk_codeData u v "viewer" (Some true) None)) w5)%list,
         w6.
  split; [| split].
  - cbn [app]. f_equal. rewrite <- !app_assoc. repeat f_equal.
    destruct (run h (verify_saved a v ai vi) w6) as [[[] | e] w7]; cbn;
      rewrite ?app_nil_r; reflexivity.
  - rewrite persisted_cons. cbn [persisted_of]. rewrite !persisted_app.
    rewrite (quiet_not_persisted _ (quiet_getUserCodes h u None w0)).
    rewrite (quiet_not_persisted _ (quiet_deactivate h L w1)).
    rewrite (quiet_not_persisted _ (quiet_unique_candidate h "admin" (maxAttempts - 1) w2)).
    rewrite (quiet_not_persisted _ (quiet_unique_candidate h "viewer" (maxAttempts - 1) w3)).
    rewrite P5, P6. reflexivity.
  - destruct (run h (verify_saved a v ai vi) w6) as [[[] | e] w7]; reflexivity.
Qed.


(** C8: after the two new codes are persisted, regeneration reads each of
    them back by its code string, and by its assigned identifier when the
    string lookup misses; when one of them was not retrieved, the string
    lookups are repeated once after a delay, and the call fails with the
    verification error when a repeated lookup still misses, and returns the
    two codes otherwise.  (A lookup that the store rejects ends the call
    with the store's error.) *)
Theorem generateCodesForUser_readback
    {W : Type} (h : handler W) (w : W) (u : Z) (a v : string) (ai vi : Z) :
  persisted (history h (generateCodesForUser u) w) = [(a, ai); (v, vi)] ->
  exists pre w1,
    history h (generateCodesForUser u) w
      = (pre ++ history h (verify_saved a v ai vi) w1)%list /\
    persisted pre = [(a, ai); (v, vi)] /\
    let seen := List.map lookup_of (history h (verify_saved a v ai vi) w1) in
    (exists e, list.last seen = Some (Rejected e) /\
               fst (run h (generateCodesForUser u) w) = Thrown e) \/
    (exists r,
       seen = spec_readback_lookups a v ai vi r /\
       fst (run h (generateCodesForUser u) w) =
         if first_pass_ok r || (admin_retry r && viewer_retry r)
         then Returned (a, v)
         else Thrown verification_failed).
Proof.
  intros Hp.
  destruct (generateCodesForUser_reads_back h w u a v ai vi Hp)
    as (pre & w1 & Hhist & Hpre & Hrun).
  exists pre, w1. split; [exact Hhist |]. split; [exact Hpre |]. cbv zeta.
  destruct (verify_saved_refines_readback h w1 a v ai vi)
    as [(e & Hlast & Hout) | (r & Hseen & Hout)].
  - left. exists e. split; [exact Hlast |]. rewrite Hrun, Hout. reflexivity.
  - right. exists r. split; [exact Hseen |]. rewrite Hrun, Hout.
    unfold spec_readback_outcome.
    destruct (first_pass_ok r || (admin_retry r && viewer_retry r)); reflexivity.
Qed.

(** In a store whose reads lag behind its writes both codes are added, no
    read-back finds them, and the call fails after the one retry. *)
Lemma generateCodesForUser_readback_witness :
  let h := Idb.step_lagging (codes Sample.db) in
  persisted (history h (generateCodesForUser 1) Sample.db)
    = [("ADM-3V2A1234", 6); ("VWR-3V2B1234", 7)] /\
  fst (run h (generateCodesForUser 1) Sample.db) = Thrown verification_failed /\
  exists pre w1,
    history h (generateCodesForUser 1) Sample.db
      = (pre ++ history h (verify_saved "ADM-3V2A1234" "VWR-3V2B1234" 6 7) w1)%list /\
    persisted pre = [("ADM-3V2A1234", 6); ("VWR-3V2B1234", 7)] /\
    let seen :=
      List.map lookup_of
        (history h (verify_saved "ADM-3V2A1234" "VWR-3V2B1234" 6 7) w1) in
    (exists e, list.last seen = Some (Rejected e) /\
               fst (run h (generateCodesForUser 1) Sample.db) = Thrown e) \/
    (exists r,
       seen = spec_readback_lookups "ADM-3V2A1234" "VWR-3V2B1234" 6 7 r /\
       fst (run h (generateCodesForUser 1) Sample.db) =
         if first_pass_ok r || (admin_retry r && viewer_retry r)
         then Returned ("ADM-3V2A1234", "VWR-3V2B1234")
         else Thrown verification_failed).
Proof.
  cbv zeta.
  split; [vm_compute; reflexivity |]. split; [vm_compute; reflexivity |].
  apply (generateCodesForUser_readback (Idb.step_lagging (codes Sample.db))
           Sample.db 1 "ADM-3V2A1234" "VWR-3V2B1234" 6 7).
  vm_compute. reflexivity.
Defined.

(** The lookups of that failed read-back. *)
Example lagging_readback_lookups :
  List.map lookup_of
    (history (Idb.step_lagging (codes Sample.db))
       (verify_saved "ADM-3V2A1234" "VWR-3V2B1234" 6 7) Sample.db)
  = [Delay 200; ByString "ADM-3V2A1234" false; ByString "VWR-3V2B1234" false;
     ById 6 false; ById 7 false;
     Delay 300; ByString "ADM-3V2A1234" false; ByString "VWR-3V2B1234" false].
Proof. vm_compute. reflexivity. Qed.

(** *** The [codes] object store *)

Module IdbFacts.

Lemma by_key_some (k : Z) (l : list Code.t) (c : Code.t) :
  Idb.by_key k l = Some c -> In c l /\ Code.id c = k.
Proof.
  unfold Idb.by_key. intros H. apply List.find_some in H as [Hin Hk].
  split; [exact Hin | apply Z.eqb_eq, Hk].
Qed.

Lemma by_key_none (k : Z) (l : list Code.t) :
  Idb.by_key k l = None -> ~ In k (List.map Code.id l).
Proof.
  unfold Idb.by_key. intros H Hin.
  apply List.in_map_iff in Hin as (x & Hx & Hin).
  pose proof (List.find_none _ _ H x Hin) as Hf. simpl in Hf.
  apply Z.eqb_neq in Hf. contradiction.
Qed.

Lemma by_key_in (l : list Code.t) (c : Code.t) :
  NoDup (List.map Code.id l) -> In c l -> Idb.by_key (Code.id c) l = Some c.
Proof.
  unfold Idb.by_key. induction l as [| x l IH]; intros Hnd Hin; [destruct Hin |].
  simpl in *. inversion Hnd as [| ? ? Hx Hl]; subst.
  destruct Hin as [-> | Hin].
  - rewrite Z.eqb_refl. reflexivity.
  - destruct (Z.eqb_spec (Code.id x) (Code.id c)) as [Heq | Hne].
    + exfalso. apply Hx. rewrite Heq. apply List.in_map, Hin.
    + apply IH; assumption.
Qed.

Lemma in_remove_key (k : Z) (l : list Code.t) (x : Code.t) :
  In x (Idb.remove_key k l) <-> In x l /\ Code.id x <> k.
Proof.
  unfold Idb.remove_key. rewrite List.filter_In.
  rewrite negb_true_iff, Z.eqb_neq. reflexivity.
Qed.

Lemma insert_by_key_perm (c : Code.t) (l : list Code.t) :
  Permutation (Idb.insert_by_key c l) (c :: l).
Proof.
  induction l as [| x l IH]; simpl; [reflexivity |].
  destruct (Code.id c <? Code.id x); [reflexivity |].
  rewrite IH. apply perm_swap.
Qed.

Lemma in_insert_by_key (c : Code.t) (l : list Code.t) (x : Code.t) :
  In x (Idb.insert_by_key c l) <-> x = c \/ In x l.
Proof.
  split; intros H.
  - apply (Permutation_in _ (insert_by_key_perm c l)) in H.
    destruct H as [-> | H]; auto.
  - apply (Permutation_in _ (Permutation_sym (insert_by_key_perm c l))).
    destruct H as [-> | H]; [left; reflexivity | right; exact H].
Qed.


Lemma keys_remove_key (k : Z) (l : list Code.t) :
  NoDup (List.map Code.id l) ->
  NoDup (List.map Code.id (Idb.remove_key k l)) /\
  ~ In k (List.map Code.id (Idb.remove_key k l)).
Proof.
  intros Hnd. split.
  - induction l as [| x l IH]; simpl; [constructor |].
    inversion Hnd as [| ? ? Hx Hl]; subst.
    destruct (Code.id x =? k); simpl; [exact (IH Hl) |].
    constructor; [| exact (IH Hl)].
    intros Hin. apply Hx.
    apply List.in_map_iff in Hin as (y & Hy & Hin).
    apply in_remove_key in Hin as [Hin _].
    apply List.in_map_iff. exists y. auto.
  - intros Hin. apply List.in_map_iff in Hin as (y & Hy & Hin).
    apply in_remove_key in Hin as [_ Hne]. contradiction.
Qed.

(** A filter over a store into which a record was inserted. *)
Lemma filter_insert_out (f : Code.t -> bool) (c : Code.t) (l : list Code.t) :
  f c = false -> List.filter f (Idb.insert_by_key c l) = List.filter f l.
Proof.
  intros Hc. induction l as [| x l IH]; simpl.
  - rewrite Hc. reflexivity.
  - destruct (Code.id c <? Code.id x); simpl.
    + rewrite Hc. reflexivity.
    + rewrite IH. reflexivity.
Qed.

Lemma filter_none (f : Code.t -> bool) (l : list Code.t) :
  (forall x, In x l -> f x = false) -> List.filter f l = [].
Proof.
  induction l as [| x l IH]; intros Hl; simpl; [reflexivity |].
  rewrite (Hl x) by (left; reflexivity).
  apply IH. intros y Hy. apply Hl. right; exact Hy.
Qed.

Lemma filter_insert_only (f : Code.t -> bool) (c : Code.t) (l : list Code.t) :
  f c = true -> (forall x, In x l -> f x = false) ->
  List.filter f (Idb.insert_by_key c l) = [c].
Proof.
  intros Hc. induction l as [| x l IH]; intros Hl; simpl.
  - rewrite Hc. reflexivity.
  - assert (Hx : f x = false) by (apply Hl; left; reflexivity).
    assert (Hl' : forall y, In y l -> f y = false)
      by (intros y Hy; apply Hl; right; exact Hy).
    destruct (Code.id c <? Code.id x); simpl.
    + rewrite Hc, Hx, (filter_none f l Hl'). reflexivity.
    + rewrite Hx. apply IH, Hl'.
Qed.

End IdbFacts.

(** *** Regeneration on the IndexedDB store *)

Module IdbRun.
Import IdbFacts.






End IdbRun.

(** *** Runs in which the store rejects requests *)

Lemma filter_filter_and {A : Type} (f g : A -> bool) (l : list A) :
  List.filter f (List.filter g l) = List.filter (fun x => g x && f x) l.
Proof.
  induction l as [| x l IH]; [reflexivity |]. cbn.
  destruct (g x); cbn; [destruct (f x); cbn; rewrite IH; reflexivity | exact IH].
Qed.

Module Faults.

Lemma existsb_app_false {A : Type} (f : A -> bool) (l1 l2 : list A) :
  existsb f (l1 ++ l2) = false -> existsb f l1 = false /\ existsb f l2 = false.
Proof. rewrite existsb_app. apply orb_false_iff. Qed.

Lemma unrejected_app (l1 l2 : list obs) :
  unrejected (l1 ++ l2) = unrejected l1 && unrejected l2.
Proof. apply forallb_app. Qed.

(** **** Programs that a rejection stops *)

Lemma fail_fast_ret {A : Type} (a : A) : fail_fast (Ret a).
Proof. intros W h w w' a' _. reflexivity. Qed.

Lemma fail_fast_throw {A : Type} (e : error) : fail_fast (@Throw A e).
Proof. intros W h w w' a' _. reflexivity. Qed.

Lemma fail_fast_bind {A B : Type} (p : prog A) (f : A -> prog B) :
  fail_fast p -> (forall a, fail_fast (f a)) -> fail_fast (bind p f).
Proof.
  intros Hp Hf W h w w' b Hrun.
  rewrite run_bind in Hrun. rewrite history_bind, unrejected_app.
  destruct (run h p w) as [[a | e] w1] eqn:E; [| discriminate Hrun].
  rewrite (Hp W h w w1 a E). exact (Hf a W h w1 w' b Hrun).
Qed.

Ltac one_request :=
  let W := fresh "W" in let h := fresh "h" in let w := fresh "w" in
  let r := fresh "r" in let w1 := fresh "w" in
  intros W h w ? ?; cbn;
  destruct (h _ _ w) as [r w1]; try destruct r; cbn;
  first [discriminate | reflexivity].

Ltac stops :=
  unmonad;
  repeat first
    [ apply fail_fast_ret
    | apply fail_fast_throw
    | apply fail_fast_bind; [| intros ?]
    | one_request ].

Lemma fail_fast_getCode (s : string) : fail_fast (getCode s).
Proof. unfold getCode. stops. Qed.

Lemma fail_fast_generateCode (ty : string) : fail_fast (generateCode ty).
Proof. unfold generateCode. stops. Qed.

Lemma fail_fast_unique_candidate (ty : string) (n : nat) :
  fail_fast (unique_candidate ty n).
Proof.
  induction n as [| n IH]; cbn [unique_candidate]; unmonad.
  - apply fail_fast_bind; [apply fail_fast_generateCode | intros c].
    apply fail_fast_bind; [apply fail_fast_getCode | intros [x |]];
      apply fail_fast_ret.
  - apply fail_fast_bind; [apply fail_fast_generateCode | intros c].
    apply fail_fast_bind; [apply fail_fast_getCode | intros [x |]];
      [exact IH | apply fail_fast_ret].
Qed.

Lemma fail_fast_updateCode (k : Z) (patch : Code.t -> Code.t) :
  fail_fast (updateCode k patch).
Proof.
  unfold updateCode. unmonad.
  apply fail_fast_bind; [one_request | intros [c |]]; stops.
Qed.

Lemma fail_fast_deactivate (L : list Code.t) : fail_fast (for_of L deactivate_body).
Proof.
  induction L as [| c L IH]; cbn [for_of]; [apply fail_fast_ret |].
  apply fail_fast_bind; [| intros _; exact IH].
  unfold deactivate_body. destruct (Code.isActive c); unmonad;
    [| apply fail_fast_ret].
  apply fail_fast_bind; [apply fail_fast_updateCode | intros _; apply fail_fast_ret].
Qed.

Lemma fail_fast_addCode (cd : codeData) : fail_fast (addCode cd).
Proof. unfold addCode. stops. Qed.

Lemma fail_fast_verify_saved (a v : string) (ai vi : Z) :
  fail_fast (verify_saved a v ai vi).
Proof.
  unfold verify_saved. unmonad.
  apply fail_fast_bind; [one_request | intros _].
  apply fail_fast_bind; [apply fail_fast_getCode | intros x].
  apply fail_fast_bind; [apply fail_fast_getCode | intros y].
  apply fail_fast_bind; [destruct (present x); [apply fail_fast_ret | one_request] | intros x'].
  apply fail_fast_bind; [destruct (present y); [apply fail_fast_ret | one_request] | intros y'].
  destruct (negb (present x') || negb (present y')); [| apply fail_fast_ret].
  apply fail_fast_bind; [one_request | intros _].
  apply fail_fast_bind; [apply fail_fast_getCode | intros x2].
  apply fail_fast_bind; [apply fail_fast_getCode | intros y2].
  destruct (negb (present x2) || negb (present y2));
    [apply fail_fast_throw | apply fail_fast_ret].
Qed.

Lemma issue_all_unrejected {A B : Type} (req : A -> effE (result B)) (xs : list A)
    {W : Type} (h : handler W) (w : W) :
  (forall x r, failed_answer (req x) r = is_err r) ->
  exists rs w',
    run h (issue_all req xs) w = (Returned rs, w') /\
    (forall bs, all_ok rs = Ok bs -> unrejected (history h (issue_all req xs) w) = true).
Proof.
  intros Hreq. revert w. induction xs as [| x xs IH]; intros w.
  - exists [], w. split; reflexivity.
  - cbn [issue_all run history].
    destruct (h _ (req x) w) as [r w1].
    destruct (IH w1) as (rs & w' & Hrun & Hok).
    exists (r :: rs), w'. rewrite run_bind, Hrun. split; [reflexivity |].
    intros bs Hall. rewrite history_bind, Hrun. cbn [history].
    rewrite app_nil_r. cbn. rewrite Hreq.
    destruct r as [b | e]; cbn in Hall |- *; [| discriminate Hall].
    destruct (all_ok rs) as [bs' | e] eqn:E; [| discriminate Hall].
    exact (Hok bs' eq_refl).
Qed.

Lemma fail_fast_promise_all {A B : Type} (req : A -> effE (result B)) (xs : list A) :
  (forall x r, failed_answer (req x) r = is_err r) ->
  fail_fast (promise_all req xs).
Proof.
  intros Hreq W h w w' bs Hrun. unfold promise_all in *.
  destruct (issue_all_unrejected req xs h w Hreq) as (rs & w1 & Hissue & Hok).
  rewrite run_bind, Hissue in Hrun. rewrite history_bind, Hissue.
  destruct (all_ok rs) as [bs' | e] eqn:E; [| discriminate Hrun].
  cbn. rewrite app_nil_r. exact (Hok bs' eq_refl).
Qed.

(** **** The store with a fault plan *)

Lemma rejection_failed {X : Type} (e : error) (ev : effE X) (x : X) :
  Idb.rejection e ev = Some x -> failed_answer ev x = true.
Proof.
  destruct ev; cbn; intros H; try discriminate H; injection H as <-; reflexivity.
Qed.

(** A request is either rejected, and the store is left alone, or answered
    by the store. *)
Lemma step_failing_cases (plan : list nat) {X : Type} (ev : effE X) (w : World) (n : nat) :
  (exists x, Idb.step_failing plan X ev (w, n) = (x, (w, S n)) /\
             failed_answer ev x = true) \/
  Idb.step_failing plan X ev (w, n) = (fst (idb X ev w), (snd (idb X ev w), S n)).
Proof.
  unfold Idb.step_failing. destruct (bool_decide (n ∈ plan)).
  - destruct (Idb.rejection (IdbError "UnknownError") ev) as [x |] eqn:E.
    + left. exists x. split; [reflexivity | exact (rejection_failed _ _ _ E)].
    + right. destruct (idb X ev w); reflexivity.
  - right. destruct (idb X ev w); reflexivity.
Qed.

(** A run in which nothing was rejected is a run on the store. *)
Lemma unrejected_run {A : Type} (plan : list nat) (p : prog A) (w : World) (n : nat) :
  unrejected (history (Idb.step_failing plan) p (w, n)) = true ->
  exists n',
    run (Idb.step_failing plan) p (w, n)
    = (fst (run idb p w), (snd (run idb p w), n')).
Proof.
  revert w n. induction p as [a | e | X ev k IH]; intros w n Hu.
  - exists n. reflexivity.
  - exists n. reflexivity.
  - cbn [run history] in *.
    destruct (step_failing_cases plan ev w n) as [(x & E & Hf) | E];
      rewrite E in *.
    + cbn in Hu. rewrite Hf in Hu. discriminate Hu.
    + destruct (idb X ev w) as [x w1]. cbn [fst snd] in *.
      cbn in Hu. apply andb_true_iff in Hu as [_ Hu].
      exact (IH x w1 (S n) Hu).
Qed.

(** When [getUserCodes] returns without having lost the list, it returns
    what the store holds, and leaves the store as it is. *)
Lemma getUserCodes_listed (plan : list nat) (u : Z) (w : World) (n : nat)
    (L : list Code.t) (s : World * nat) :
  run (Idb.step_failing plan) (getUserCodes u None) (w, n) = (Returned L, s) ->
  existsb listing_lost (history (Idb.step_failing plan) (getUserCodes u None) (w, n))
    = false ->
  L = List.filter Code.isActive (Idb.query (ByUserId u) (codes w)) /\
  exists n', s = (w, n').
Proof.
  unfold getUserCodes. unmonad. cbn. unfold Idb.step_failing.
  destruct (bool_decide (n ∈ plan)); cbn; [discriminate |].
  destruct (bool_decide (S n ∈ plan)); cbn.
  - destruct (bool_decide (S (S n) ∈ plan)); cbn; [intros _ H; discriminate H |].
    intros H _. injection H as <- <-. split; [| eauto].
    rewrite filter_filter_and. reflexivity.
  - intros H _. injection H as <- <-. split; [reflexivity | eauto].
Qed.

(** A regeneration that returns without having lost the list of the user's
    codes ran as on a store that rejects nothing. *)
Lemma regenerate_as_idb (plan : list nat) (w w' : World) (n n' : nat) (u : Z)
    (a v : string) :
  run (Idb.step_failing plan) (generateCodesForUser u) (w, n)
    = (Returned (a, v), (w', n')) ->
  existsb listing_lost (history (Idb.step_failing plan) (generateCodesForUser u) (w, n))
    = false ->
  run idb (generateCodesForUser u) w = (Returned (a, v), w').
Proof.
  intros Hrun Hlost.
  unfold generateCodesForUser in *. unmonad.
  rewrite run_bind in Hrun. rewrite history_bind in Hlost.
  rewrite run_bind. cbn [await run Idb.step settle].
  destruct (run (Idb.step_failing plan) (await EnsureInit) (w, n))
    as [[[] | e] s0] eqn:E0; [| discriminate Hrun].
  assert (Hs0 : s0 = (w, S n)).
  { revert E0. cbn. unfold Idb.step_failing.
    destruct (bool_decide (n ∈ plan)); cbn; [discriminate |].
    intros H; injection H as <-. reflexivity. }
  subst s0.
  apply existsb_app_false in Hlost as [_ Hlost].
  match type of Hrun with
  | context [try_catch ?body _] =>
      destruct (history_rethrow (Idb.step_failing plan) body (w, S n)) as [Hh Hr];
      destruct (history_rethrow idb body w) as [_ Hr']
  end.
  rewrite Hr in Hrun. rewrite Hh in Hlost. rewrite Hr'. clear Hh Hr Hr'.
  rewrite run_bind in Hrun. rewrite history_bind in Hlost.
  rewrite run_bind, getUserCodes_idb.
  destruct (run (Idb.step_failing plan) (getUserCodes u None) (w, S n))
    as [[L | e] s1] eqn:E1; [| discriminate Hrun].
  apply existsb_app_false in Hlost as [Hlost _].
  destruct (getUserCodes_listed plan u w (S n) L s1 E1 Hlost) as (-> & n1 & ->).
  match type of Hrun with
  | run _ ?rest _ = _ =>
      assert (Hff : fail_fast rest)
  end.
  { apply fail_fast_bind; [apply fail_fast_deactivate | intros _].
    apply fail_fast_bind; [apply fail_fast_unique_candidate | intros ac].
    apply fail_fast_bind; [apply fail_fast_unique_candidate | intros vc].
    apply fail_fast_bind; [apply fail_fast_addCode | intros ai].
    apply fail_fast_bind; [apply fail_fast_addCode | intros vi].
    apply fail_fast_bind; [apply fail_fast_verify_saved | intros _].
    apply fail_fast_ret. }
  pose proof (Hff _ _ _ _ _ Hrun) as Hclean.
  destruct (unrejected_run plan _ w n1 Hclean) as (n2 & Hidb).
  rewrite Hidb in Hrun. injection Hrun as Ho Hw _.
  rewrite <- Ho, <- Hw. apply surjective_pairing.
Qed.

End Faults.





(** *** Cascade deletion on the IndexedDB store *)

Module Cascade.
Import IdbFacts.

Lemma all_ok_true {A : Type} (L : list A) :
  all_ok (List.map (fun _ => Ok true) L) = Ok (List.map (fun _ => true) L).
Proof. induction L as [| x L IH]; simpl; [reflexivity | rewrite IH; reflexivity]. Qed.

Lemma delete_codes_idb (L : list Code.t) (w : World) :
  exists w',
    run idb (promise_all (fun code => deleteCode (Code.id code)) L) w
      = (Returned (List.map (fun _ => true) L), w') /\
    (forall x, In x (codes w') <->
               In x (codes w) /\ ~ In (Code.id x) (List.map Code.id L)) /\
    users w' = users w /\ subscriptions w' = subscriptions w.
Proof.
  unfold promise_all.
  assert (H : exists w',
    run idb (issue_all (fun code => deleteCode (Code.id code)) L) w
      = (Returned (List.map (fun _ => Ok true) L), w') /\
    (forall x, In x (codes w') <->
               In x (codes w) /\ ~ In (Code.id x) (List.map Code.id L)) /\
    users w' = users w /\ subscriptions w' = subscriptions w).
  { revert w. induction L as [| c L IH]; intros w.
    - exists w. cbn. split; [reflexivity |]. split; [| auto]. tauto.
    - cbn [issue_all run deleteCode Idb.step].
      destruct (IH (Idb.set_codes (Idb.remove_key (Code.id c) (codes w)) (codesKeyGen w) w))
        as (w' & Hrun & Hin & Hu & Hs).
      exists w'. rewrite run_bind, Hrun. split; [reflexivity |].
      split; [| split; [exact Hu | exact Hs]].
      intros x. rewrite Hin. cbn [codes Idb.set_codes]. rewrite in_remove_key.
      cbn [List.map In]. intuition congruence. }
  destruct H as (w' & Hrun & Hrest).
  exists w'. rewrite run_bind, Hrun, all_ok_true. split; [reflexivity | exact Hrest].
Qed.

Lemma delete_subscriptions_idb (L : list Subscription.t) (w : World) :
  exists w',
    run idb (promise_all (fun sub => Delete_subscriptions (Subscription.id sub)) L) w
      = (Returned (List.map (fun _ => true) L), w') /\
    codes w' = codes w /\ users w' = users w.
Proof.
  unfold promise_all.
  assert (H : exists w',
    run idb (issue_all (fun sub => Delete_subscriptions (Subscription.id sub)) L) w
      = (Returned (List.map (fun _ => Ok true) L), w') /\
    codes w' = codes w /\ users w' = users w).
  { revert w. induction L as [| c L IH]; intros w.
    - exists w. cbn. auto.
    - cbn [issue_all run Idb.step].
      match goal with |- context [run idb _ ?w1] =>
        destruct (IH w1) as (w' & Hrun & Hc & Hu) end.
      exists w'. rewrite run_bind, Hrun. split; [reflexivity |].
      split; [exact Hc | exact Hu]. }
  destruct H as (w' & Hrun & Hrest).
  exists w'. rewrite run_bind, Hrun, all_ok_true. split; [reflexivity | exact Hrest].
Qed.

(** [deleteUser(u)] removes the user and the codes that [getUserCodes]
    lists for [u], the active ones; every other code record stays. *)
Lemma deleteUser_idb (w : World) (u : Z) :
  keys_unique w ->
  exists w',
    run idb (deleteUser u) w = (Returned true, w') /\
    users w' = delete u (users w) /\
    (forall x, In x (codes w') <->
               In x (codes w) /\ ~ (Code.userId x = u /\ Code.isActive x = true)).
Proof.
  intros Hnd. unfold deleteUser, deleteUserCodes, deleteUserSubscriptions. unmonad.
  rewrite !run_bind, getUserCodes_idb.
  set (L := List.filter Code.isActive (Idb.query (ByUserId u) (codes w))).
  destruct (delete_codes_idb L w) as (w1 & Hrun1 & Hin & Hu1 & Hs1).
  rewrite Hrun1. rewrite run_bind. rewrite run_bind.
  cbn [await run Idb.step settle].
  set (S := List.filter (fun s => Subscription.userId s =? u) (subscriptions w1)).
  destruct (delete_subscriptions_idb S w1) as (w2 & Hrun2 & Hc2 & Hu2).
  rewrite Hrun2. cbn [await run Idb.step settle].
  eexists. split; [reflexivity |]. cbn [users codes Idb.set_users].
  split; [rewrite Hu2, Hu1; reflexivity |].
  intros x. rewrite Hc2, Hin. split.
  - intros [Hx Hnot]. split; [exact Hx |]. intros [Hxu Hxa]. apply Hnot.
    apply List.in_map. apply List.filter_In. split; [| exact Hxa].
    cbn. apply List.filter_In. split; [exact Hx | apply Z.eqb_eq, Hxu].
  - intros [Hx Hnot]. split; [exact Hx |]. intros Hid.
    apply List.in_map_iff in Hid as (y & Hy & Hin').
    apply List.filter_In in Hin' as [Hin' Hya].
    cbn in Hin'. apply List.filter_In in Hin' as [Hin' Hyu].
    assert (y = x).
    { pose proof (by_key_in _ _ Hnd Hin') as E1.
      pose proof (by_key_in _ _ Hnd Hx) as E2. rewrite Hy in E1. congruence. }
    subst y. apply Hnot. split; [apply Z.eqb_eq, Hyu | exact Hya].
Qed.

End Cascade.

(** An inactive code of a deleted user is not deleted with it. *)
Lemma deleteUser_keeps_inactive_codes (w : World) (u : Z) (c : Code.t) :
  keys_unique w ->
  In c (codes w) -> Code.userId c = u -> Code.isActive c = false ->
  exists w', run idb (deleteUser u) w = (Returned true, w') /\
             users w' !! u = None /\ In c (codes w').
Proof.
  intros Hnd Hc Hu Hact.
  destruct (Cascade.deleteUser_idb w u Hnd) as (w' & Hrun & Husers & Hcodes).
  exists w'. split; [exact Hrun |]. split.
  - rewrite Husers. apply lookup_delete_eq.
  - apply Hcodes. split; [exact Hc |]. intros [_ Ha]. congruence.
Qed.

(** C3: deleting a user must hard-delete all of that user's code records,
    active and inactive; [deleteUser(1)] removes user 1 and the two active
    codes, and leaves the inactive code ["ADM-OLD00001"] of user 1 in the
    store. *)
Theorem deleteUser_leaves_inactive_code :
  In Sample.retired (codes Sample.db) /\
  Code.userId Sample.retired = 1 /\
  Code.isActive Sample.retired = false /\
  fst (run idb (deleteUser 1) Sample.db) = Returned true /\
  users (snd (run idb (deleteUser 1) Sample.db)) !! 1 = None /\
  Idb.query (ByUserId 1) (codes (snd (run idb (deleteUser 1) Sample.db)))
    = [Sample.retired].
Proof.
  split; [left; reflexivity |].
  repeat split; vm_compute; reflexivity.
Qed.

(** * Further properties of the methods *)

(** ** [generateCode] *)

Lemma generateCode_prefix (type : string) (now : Z) (rnd : list nat) :
  Js.startsWith (if String.eqb type "admin" then "ADM-" else "VWR-")
                (generateCode_at type now rnd) = true.
Proof. unfold generateCode_at. destruct (String.eqb type "admin"); reflexivity. Qed.

(** The code of a role starts with the prefix of that role, so a code
    generated for ['admin'] never equals a code generated for another
    role, whatever the clock and the random source give. *)
Theorem generateCode_roles_apart (type : string) (now now' : Z) (rnd rnd' : list nat) :
  type <> "admin" ->
  Js.startsWith "ADM-" (generateCode_at "admin" now rnd) = true /\
  Js.startsWith "VWR-" (generateCode_at type now' rnd') = true /\
  generateCode_at "admin" now rnd <> generateCode_at type now' rnd'.
Proof.
  intros Hty. apply String.eqb_neq in Hty.
  unfold generateCode_at. rewrite Hty. cbn [String.eqb Ascii.eqb].
  split; [reflexivity |]. split; [reflexivity |]. discriminate.
Qed.

Lemma generateCode_roles_apart_witness :
  generateCode_at "admin" 1700000000000 [1; 2; 3; 4]%nat
  <> generateCode_at "viewer" 1700000000000 [1; 2; 3; 4]%nat.
Proof.
  apply (generateCode_roles_apart "viewer" 1700000000000 1700000000000
           [1; 2; 3; 4]%nat [1; 2; 3; 4]%nat).
  discriminate.
Defined.

Lemma generateCode_pattern_witness :
  matches_code_pattern (generateCode_at "viewer" 1700000000000 [35; 0; 18; 7; 2]%nat) = true.
Proof.
  apply CodeShape.generateCode_pattern; [lia | simpl; lia].
Defined.

(** ** [verifyCode]: the early answers *)

(** A code string without record, or whose record is inactive, is answered
    [INVALID] right after the lookup: the user store is not consulted. *)
Theorem verifyCode_invalid
    {W : Type} (h : handler W) (w w1 w2 : W) (s : string) (l : list Code.t) :
  h _ EnsureInit w = (Ok tt, w1) ->
  h _ (GetAll_codes (ByCode s)) w1 = (Ok l, w2) ->
  List.head l = None \/ (exists c, List.head l = Some c /\ Code.isActive c = false) ->
  run h (verifyCode s) w = (Returned (Failure "INVALID"), w2) /\
  history h (verifyCode s) w
    = [Obs EnsureInit (Ok tt); Obs (GetAll_codes (ByCode s)) (Ok l)].
Proof.
  intros Hinit Hq Hl. unfold verifyCode, getCode. unmonad. cbn.
  rewrite Hinit. cbn. rewrite Hq. cbn.
  destruct l as [| c l'].
  - split; reflexivity.
  - destruct Hl as [Hl | (c' & Hc' & Hact)]; [discriminate Hl |].
    cbn in Hc'. injection Hc' as <-. rewrite Hact. cbn. split; reflexivity.
Qed.

Lemma verifyCode_invalid_witness :
  run idb (verifyCode "ADM-OLD00001") Sample.db
    = (Returned (Failure "INVALID"), Sample.db) /\
  run idb (verifyCode "ADM-NOSUCH00") Sample.db
    = (Returned (Failure "INVALID"), Sample.db).
Proof.
  split.
  - apply (verifyCode_invalid idb Sample.db Sample.db Sample.db "ADM-OLD00001"
             [Sample.retired]); [reflexivity | reflexivity |].
    right. exists Sample.retired. split; reflexivity.
  - apply (verifyCode_invalid idb Sample.db Sample.db Sample.db "ADM-NOSUCH00" []);
      [reflexivity | reflexivity |].
    left. reflexivity.
Defined.

(** An active code whose owner is not in the user store is answered
    [USER_NOT_FOUND]. *)
Theorem verifyCode_user_not_found
    {W : Type} (h : handler W) (w w1 w2 w3 : W) (s : string) (c : Code.t)
    (l : list Code.t) :
  h _ EnsureInit w = (Ok tt, w1) ->
  h _ (GetAll_codes (ByCode s)) w1 = (Ok (c :: l), w2) ->
  Code.isActive c = true ->
  h _ (Get_users (Code.userId c)) w2 = (Ok None, w3) ->
  run h (verifyCode s) w = (Returned (Failure "USER_NOT_FOUND"), w3).
Proof.
  intros Hinit Hq Hact Hu. unfold verifyCode, getCode, getUser. unmonad. cbn.
  rewrite Hinit. cbn. rewrite Hq. cbn. rewrite Hact. cbn. rewrite Hu. reflexivity.
Qed.

Lemma verifyCode_user_not_found_witness :
  let orphaned := Idb.set_users ∅ Sample.db in
  run idb (verifyCode "ADM-CAR00005") orphaned
    = (Returned (Failure "USER_NOT_FOUND"), orphaned).
Proof.
  cbv zeta.
  apply (verifyCode_user_not_found idb (Idb.set_users ∅ Sample.db)
           (Idb.set_users ∅ Sample.db) (Idb.set_users ∅ Sample.db)
           (Idb.set_users ∅ Sample.db) "ADM-CAR00005" Sample.admin3 []);
    reflexivity.
Defined.

(** ** Methods that only read *)

Section Reads.
Context {W : Type} (h : handler W).

Lemma reads_getCode (s : string) (w : W) :
  forallb reads (history h (getCode s) w) = true.
Proof. unfold getCode, await. unmonad. all_requests. Qed.

Lemma reads_getUserCodes (u : Z) (ty : option string) (w : W) :
  forallb reads (history h (getUserCodes u ty) w) = true.
Proof. unfold getUserCodes, await. unmonad. all_requests. Qed.

Lemma reads_derive_tier (p : product_field) (w : W) :
  history h (derive_tier p) w = [].
Proof. destruct (derive_tier_cases p) as [[t ->] | ->]; reflexivity. Qed.

End Reads.

Lemma idb_step_reads {X : Type} (ev : effE X) (w w1 : World) (x : X) :
  reads_ev ev = true -> idb X ev w = (x, w1) ->
  codes w1 = codes w /\ codesKeyGen w1 = codesKeyGen w /\
  users w1 = users w /\ subscriptions w1 = subscriptions w.
Proof.
  destruct ev; cbn; try discriminate; intros _ H; injection H as _ <-; auto.
Qed.

(** On the IndexedDB store a run made of read requests changes no object
    store. *)
Lemma idb_reads_frame {A : Type} (p : prog A) (w : World) :
  forallb reads (history idb p w) = true ->
  let w' := snd (run idb p w) in
  codes w' = codes w /\ codesKeyGen w' = codesKeyGen w /\
  users w' = users w /\ subscriptions w' = subscriptions w.
Proof.
  cbv zeta. revert w. induction p as [a | e | X ev k IH]; intros w; cbn [history run snd]; auto.
  destruct (idb X ev w) as [x w1] eqn:E. cbn [forallb reads].
  intros H. apply andb_prop in H as [Hev Hk].
  destruct (idb_step_reads ev w w1 x Hev E) as (H1 & H2 & H3 & H4).
  destruct (IH x w1 Hk) as (G1 & G2 & G3 & G4).
  rewrite G1, G2, G3, G4. auto.
Qed.

(** Verification never writes: whatever the environment answers,
    [verifyCode] only issues read requests, and on the IndexedDB store it
    leaves the codes, the key generator, the users and the subscriptions as
    they were. *)
Theorem verifyCode_reads_only (s : string) :
  (forall (W : Type) (h : handler W) (w : W),
     forallb reads (history h (verifyCode s) w) = true) /\
  (forall w : World,
     let w' := snd (run idb (verifyCode s) w) in
     codes w' = codes w /\ codesKeyGen w' = codesKeyGen w /\
     users w' = users w /\ subscriptions w' = subscriptions w).
Proof.
  assert (Hreads : forall (W : Type) (h : handler W) (w : W),
            forallb reads (history h (verifyCode s) w) = true).
  { intros W h w. unfold verifyCode. unmonad.
    apply all_bind; [unfold await; all_requests |]. intros _ w0.
    apply all_try_catch; [| reflexivity].
    apply all_bind; [apply reads_getCode |]. intros [c |] w1; [| reflexivity].
    destruct (negb (Code.isActive c)); [reflexivity |].
    apply all_bind; [unfold getUser, await; all_requests |].
    intros [user |] w2; [| reflexivity].
    apply all_bind; [unfold perform; all_requests |]. intros now w3.
    cbv zeta. destruct (is_expired _ now); [reflexivity |].
    apply all_bind; [apply reads_getUserCodes |]. intros userCodes w4.
    apply all_bind; [rewrite reads_derive_tier; reflexivity | reflexivity]. }
  split; [exact Hreads |].
  intros w. apply idb_reads_frame, Hreads.
Qed.

(** ** [getUserCodes] *)

(** When the index query is rejected, the scan of the whole store that
    [getUserCodes] falls back on returns the very list the index query would
    have given, with and without a role filter. *)
Theorem getUserCodes_fallback_agrees (w : World) (u : Z) (type : option string) :
  fst (run (Idb.step_failing [1]%nat) (getUserCodes u type) (w, 0%nat))
  = fst (run idb (getUserCodes u type) w) /\
  rejected (history (Idb.step_failing [1]%nat) (getUserCodes u type) (w, 0%nat))
  = [IdbError "UnknownError"].
Proof.
  unfold getUserCodes. unmonad. cbn.
  change (bool_decide (0%nat ∈ [1%nat])) with false. cbn.
  change (bool_decide (1%nat ∈ [1%nat])) with true. cbn.
  change (bool_decide (2%nat ∈ [1%nat])) with false. cbn.
  split; [| reflexivity].
  destruct (type_given type) as [ty |]; cbn; f_equal.
  - rewrite !filter_filter_and. apply List.filter_ext. intros c.
    destruct (Code.userId c =? u), (String.eqb (Code.type c) ty), (Code.isActive c);
      reflexivity.
  - rewrite !filter_filter_and. reflexivity.
Qed.

(** Once the database handle is there [getUserCodes] always returns a list,
    of active codes only and, when a role is asked for, of that role only;
    when both of its lookups are rejected the list is empty. *)
Theorem getUserCodes_total
    {W : Type} (h : handler W) (w w1 : W) (u : Z) (type : option string) :
  h _ EnsureInit w = (Ok tt, w1) ->
  exists l w',
    run h (getUserCodes u type) w = (Returned l, w') /\
    (forall c, In c l ->
       Code.isActive c = true /\
       forall ty, type_given type = Some ty -> Code.type c = ty) /\
    (length (rejected (history h (getUserCodes u type) w)) = 2%nat -> l = []).
Proof.
  intros Hinit. unfold getUserCodes. unmonad. cbn. rewrite Hinit. cbn.
  destruct (h _ (GetAll_codes (ByUserId u)) w1) as [[l1 | e1] w2]; cbn.
  - eexists _, _. split; [reflexivity |]. split; [| discriminate].
    intros c Hc. destruct (type_given type) as [ty |].
    + apply List.filter_In in Hc as [_ Hc]. apply andb_prop in Hc as [Ht Ha].
      split; [exact Ha |]. intros ty' E. injection E as <-.
      apply String.eqb_eq, Ht.
    + apply List.filter_In in Hc as [_ Hc]. split; [exact Hc | discriminate].
  - destruct (h _ (GetAll_codes AllRecords) w2) as [[l2 | e2] w3]; cbn.
    + eexists _, _. split; [reflexivity |]. split; [| discriminate].
      intros c Hc. destruct (type_given type) as [ty |].
      * apply List.filter_In in Hc as [Hc Ht].
        apply List.filter_In in Hc as [_ Hc]. apply andb_prop in Hc as [_ Ha].
        split; [exact Ha |]. intros ty' E. injection E as <-.
        apply String.eqb_eq, Ht.
      * apply List.filter_In in Hc as [_ Hc]. apply andb_prop in Hc as [_ Ha].
        split; [exact Ha | discriminate].
    + eexists _, _. split; [reflexivity |]. split; [intros c [] | reflexivity].
Qed.

Lemma getUserCodes_total_witness :
  exists l w',
    run (Idb.step_failing [1; 2]%nat) (getUserCodes 1 (Some "admin")) (Sample.db, 0%nat)
      = (Returned l, w') /\
    l = [].
Proof.
  destruct (getUserCodes_total (Idb.step_failing [1; 2]%nat) (Sample.db, 0%nat)
              (Sample.db, 1%nat) 1 (Some "admin")) as (l & w' & Hrun & _ & Hnone);
    [reflexivity |].
  exists l, w'. split; [exact Hrun |]. apply Hnone. vm_compute. reflexivity.
Defined.

(** ** [updateCode] *)

(** [updateCode] on an identifier that is not stored throws
    ['Code not found'] and writes nothing. *)
Theorem updateCode_not_found
    {W : Type} (h : handler W) (w w1 : W) (codeId : Z) (patch : Code.t -> Code.t) :
  h _ (Get_codes codeId) w = (Ok None, w1) ->
  run h (updateCode codeId patch) w = (Thrown (JsError "Code not found"), w1) /\
  history h (updateCode codeId patch) w = [Obs (Get_codes codeId) (Ok None)].
Proof.
  intros Hget. unfold updateCode. unmonad. cbn. rewrite Hget. cbn.
  split; reflexivity.
Qed.

Lemma updateCode_not_found_witness :
  run idb (updateCode 99 (Code.set_isActive false)) Sample.db
    = (Thrown (JsError "Code not found"), Sample.db).
Proof.
  apply (updateCode_not_found idb Sample.db Sample.db 99 (Code.set_isActive false)).
  reflexivity.
Defined.

(** ** The [codes] store under the methods' requests *)

Module StoreFacts.
Import IdbFacts.

Lemma by_key_insert_ne (c : Code.t) (k : Z) (l : list Code.t) :
  Code.id c <> k -> Idb.by_key k (Idb.insert_by_key c l) = Idb.by_key k l.
Proof.
  intros Hne. unfold Idb.by_key.
  induction l as [| x l IH]; cbn.
  - destruct (Z.eqb_spec (Code.id c) k); [contradiction | reflexivity].
  - destruct (Code.id c <? Code.id x); cbn.
    + destruct (Z.eqb_spec (Code.id c) k); [contradiction | reflexivity].
    + destruct (Code.id x =? k); [reflexivity | exact IH].
Qed.

Lemma by_key_insert_eq (c : Code.t) (l : list Code.t) :
  Idb.by_key (Code.id c) l = None ->
  Idb.by_key (Code.id c) (Idb.insert_by_key c l) = Some c.
Proof.
  unfold Idb.by_key. induction l as [| x l IH]; cbn; intros Hnone.
  - rewrite Z.eqb_refl. reflexivity.
  - destruct (Code.id x =? Code.id c) eqn:Hx; [discriminate |].
    destruct (Code.id c <? Code.id x); cbn.
    + rewrite Z.eqb_refl. reflexivity.
    + rewrite Hx. exact (IH Hnone).
Qed.

Lemma by_key_remove_ne (k k' : Z) (l : list Code.t) :
  k' <> k -> Idb.by_key k' (Idb.remove_key k l) = Idb.by_key k' l.
Proof.
  intros Hne. unfold Idb.by_key, Idb.remove_key.
  induction l as [| x l IH]; cbn; [reflexivity |].
  destruct (Z.eqb_spec (Code.id x) k) as [Hk | Hk]; cbn.
  - destruct (Z.eqb_spec (Code.id x) k'); [congruence | exact IH].
  - destruct (Code.id x =? k'); [reflexivity | exact IH].
Qed.

Lemma by_key_remove_eq (k : Z) (l : list Code.t) :
  Idb.by_key k (Idb.remove_key k l) = None.
Proof.
  unfold Idb.by_key, Idb.remove_key.
  induction l as [| x l IH]; cbn; [reflexivity |].
  destruct (Code.id x =? k) eqn:Hk; cbn; [exact IH | rewrite Hk; exact IH].
Qed.

Lemma code_taken_false (s : string) (k : Z) (l : list Code.t) :
  Idb.code_taken s k l = false <->
  (forall c, In c l -> Code.code c = s -> Code.id c = k).
Proof.
  unfold Idb.code_taken. split.
  - intros H c Hc Hs.
    destruct (Z.eq_dec (Code.id c) k) as [E | E]; [exact E | exfalso].
    assert (Ht : existsb (fun c => String.eqb (Code.code c) s && negb (Code.id c =? k)) l
                 = true).
    { apply List.existsb_exists. exists c. split; [exact Hc |].
      apply andb_true_intro. split; [apply String.eqb_eq, Hs |].
      apply negb_true_iff, Z.eqb_neq, E. }
    congruence.
  - intros H. destruct (existsb _ l) eqn:Ht; [| reflexivity].
    apply List.existsb_exists in Ht as (c & Hc & Hb).
    apply andb_prop in Hb as [Hs Hk].
    apply String.eqb_eq in Hs. apply negb_true_iff, Z.eqb_neq in Hk.
    exfalso. apply Hk, (H c Hc Hs).
Qed.

Lemma nodup_map_filter {B : Type} (f : Code.t -> B) (g : Code.t -> bool) (l : list Code.t) :
  NoDup (List.map f l) -> NoDup (List.map f (List.filter g l)).
Proof.
  induction l as [| x l IH]; cbn; intros Hnd; [constructor |].
  inversion Hnd as [| ? ? Hx Hl]; subst.
  destruct (g x); cbn; [| exact (IH Hl)].
  constructor; [| exact (IH Hl)].
  intros Hin. apply Hx. apply List.in_map_iff in Hin as (y & Hy & Hin).
  apply List.filter_In in Hin as [Hin _]. apply List.in_map_iff. exists y. auto.
Qed.

Lemma nodup_map_insert {B : Type} (f : Code.t -> B) (c : Code.t) (l : list Code.t) :
  NoDup (List.map f l) -> ~ In (f c) (List.map f l) ->
  NoDup (List.map f (Idb.insert_by_key c l)).
Proof.
  intros Hnd Hfresh.
  apply (Permutation_NoDup (l := List.map f (c :: l))).
  - apply Permutation_map, Permutation_sym, insert_by_key_perm.
  - cbn. constructor; assumption.
Qed.

(** Every request keeps the store consistent: unique keys, unique code
    strings, key generator ahead of the keys. *)
Lemma step_consistent {X : Type} (ev : effE X) (w w1 : World) (x : X) :
  consistent w -> idb X ev w = (x, w1) -> consistent w1.
Proof.
  unfold consistent, keys_unique, codes_unique, keys_below.
  intros (Hk & Hc & Hb).
  destruct ev; cbn; try (intros H; injection H as _ <-; cbn; auto; fail).
  - (* add *)
    unfold Idb.add.
    destruct (Idb.by_key (codesKeyGen w) (codes w)) eqn:Hfree; cbn;
      [intros H; injection H as _ <-; auto |].
    destruct (Idb.code_taken (Code.d_code d) (codesKeyGen w) (codes w)) eqn:Ht; cbn;
      intros H; injection H as _ <-; cbn; [auto |].
    split; [| split].
    + apply nodup_map_insert; [exact Hk | cbn; apply by_key_none, Hfree].
    + apply nodup_map_insert; [exact Hc |]. cbn. intros Hin.
      apply List.in_map_iff in Hin as (y & Hy & Hin).
      pose proof (proj1 (code_taken_false _ _ _) Ht y Hin Hy) as E.
      specialize (Hb y Hin). lia.
    + intros y Hy. apply in_insert_by_key in Hy as [-> | Hy]; cbn; [lia |].
      specialize (Hb y Hy). lia.
  - (* put *)
    unfold Idb.put.
    destruct (Idb.code_taken (Code.code c) (Code.id c) (codes w)) eqn:Ht; cbn;
      intros H; injection H as _ <-; cbn; [auto |].
    destruct (keys_remove_key (Code.id c) (codes w) Hk) as [Hk' Hfresh].
    split; [| split].
    + apply nodup_map_insert; assumption.
    + apply nodup_map_insert; [apply nodup_map_filter, Hc |].
      intros Hin. apply List.in_map_iff in Hin as (y & Hy & Hin).
      apply in_remove_key in Hin as [Hin Hne].
      apply Hne, (proj1 (code_taken_false _ _ _) Ht y Hin Hy).
    + intros y Hy. apply in_insert_by_key in Hy as [-> | Hy]; [lia |].
      apply in_remove_key in Hy as [Hy _]. specialize (Hb y Hy). lia.
  - (* delete *)
    intros H; injection H as _ <-; cbn.
    split; [apply nodup_map_filter, Hk |].
    split; [apply nodup_map_filter, Hc |].
    intros y Hy. apply in_remove_key in Hy as [Hy _]. exact (Hb y Hy).
Qed.

Lemma run_keeps {A : Type} (p : prog A) (w : World) :
  consistent w -> consistent (snd (run idb p w)).
Proof.
  revert w. induction p as [a | e | X ev k IH]; intros w Hw; cbn [run snd]; auto.
  destruct (idb X ev w) as [x w1] eqn:E.
  apply IH. exact (step_consistent ev w w1 x Hw E).
Qed.

End StoreFacts.

(** Whatever a method asks of the store, and however it ends, the [codes]
    store stays consistent: primary keys unique, code strings unique, key
    generator ahead of every key. *)
Theorem run_consistent {A : Type} (p : prog A) (w : World) :
  consistent w -> consistent (snd (run idb p w)).
Proof. apply StoreFacts.run_keeps. Qed.

Lemma sample_consistent : consistent Sample.db.
Proof.
  split; [| split].
  - unfold keys_unique. cbn.
    repeat (constructor; [cbn; intuition discriminate |]). constructor.
  - unfold codes_unique. cbn.
    repeat (constructor; [cbn; intuition discriminate |]). constructor.
  - intros c Hc. cbn in Hc.
    repeat (destruct Hc as [<- | Hc]; [cbn; lia |]). destruct Hc.
Qed.

Lemma run_consistent_witness :
  consistent (snd (run idb (generateCodesForUser 1) Sample.db)) /\
  consistent (snd (run idb (deleteUser 1) Sample.db)).
Proof.
  split; apply run_consistent, sample_consistent.
Defined.

(** ** [addCode], [getCode] and [updateCode] on the IndexedDB store *)

(** A code string that no record holds is stored under the next key and
    found again by [getCode], active unless [isActive: false] was passed. *)
Theorem addCode_then_getCode (w : World) (cd : codeData) :
  consistent w ->
  (forall c, In c (codes w) -> Code.code c <> cd_code cd) ->
  exists w' stored,
    run idb (addCode cd) w = (Returned (codesKeyGen w), w') /\
    run idb (getCode (cd_code cd)) w' = (Returned (Some stored), w') /\
    Code.id stored = codesKeyGen w /\
    Code.userId stored = cd_userId cd /\
    Code.code stored = cd_code cd /\
    Code.type stored = cd_type cd /\
    Code.isActive stored = negb (bool_decide (cd_isActive cd = Some false)) /\
    Code.createdAt stored = clock w (ticks w) /\
    codesKeyGen w' = codesKeyGen w + 1.
Proof.
  intros (Hk & Hc & Hb) Hfree.
  assert (Hkey : Idb.by_key (codesKeyGen w) (codes w) = None).
  { destruct (Idb.by_key (codesKeyGen w) (codes w)) as [y |] eqn:E; [| reflexivity].
    apply IdbFacts.by_key_some in E as [Hy Hid]. specialize (Hb y Hy). lia. }
  assert (Ht : Idb.code_taken (cd_code cd) (codesKeyGen w) (codes w) = false).
  { apply StoreFacts.code_taken_false. intros c Hin Hs. exfalso. exact (Hfree c Hin Hs). }
  set (d := Code.mk_draft (cd_userId cd) (cd_code cd) (cd_type cd)
              (match cd_isActive cd with Some false => false | _ => true end)
              (clock w (ticks w))
              (match cd_expiresAt cd with Some 0 => None | e => e end)).
  set (stored := Code.with_id (codesKeyGen w) d).
  set (w' := Idb.set_codes (Idb.insert_by_key stored (codes w)) (codesKeyGen w + 1)
               (Idb.tick w)).
  assert (Hadd : run idb (addCode cd) w = (Returned (codesKeyGen w), w')).
  { unfold addCode. unmonad. cbn. unfold Idb.add. cbn.
    fold (Idb.by_key (codesKeyGen w) (codes w)).
    fold (Idb.code_taken (cd_code cd) (codesKeyGen w) (codes w)).
    rewrite Hkey, Ht. reflexivity. }
  exists w', stored. split; [exact Hadd |].
  split.
  - rewrite getCode_idb. unfold w'. cbn [codes Idb.set_codes Idb.query].
    rewrite IdbFacts.filter_insert_only; [reflexivity | cbn; apply String.eqb_refl |].
    intros x Hx. apply String.eqb_neq. apply Hfree, Hx.
  - cbn. repeat split.
    destruct (cd_isActive cd) as [[|] |]; reflexivity.
Qed.

Lemma addCode_then_getCode_witness :
  exists w' stored,
    run idb (addCode (mk_codeData 2 "VWR-BOB00006" "viewer" None None)) Sample.db
      = (Returned 6, w') /\
    run idb (getCode "VWR-BOB00006") w' = (Returned (Some stored), w') /\
    Code.isActive stored = true.
Proof.
  destruct (addCode_then_getCode Sample.db
              (mk_codeData 2 "VWR-BOB00006" "viewer" None None) sample_consistent)
    as (w' & stored & Hadd & Hget & _ & _ & _ & _ & Hact & _).
  - intros c Hc. cbn in Hc.
    repeat (destruct Hc as [<- | Hc]; [discriminate |]). destruct Hc.
  - exists w', stored. split; [exact Hadd |]. split; [exact Hget | exact Hact].
Defined.

(** A code string that a record already holds is refused with the store's
    [ConstraintError], and no record is added. *)
Theorem addCode_duplicate (w : World) (cd : codeData) (c : Code.t) :
  consistent w ->
  In c (codes w) -> Code.code c = cd_code cd ->
  exists w',
    run idb (addCode cd) w = (Thrown Idb.constraint_error, w') /\
    codes w' = codes w /\ codesKeyGen w' = codesKeyGen w.
Proof.
  intros (Hk & Hc & Hb) Hin Hs.
  unfold addCode. unmonad. cbn. unfold Idb.add. cbn.
  fold (Idb.by_key (codesKeyGen w) (codes w)).
  fold (Idb.code_taken (cd_code cd) (codesKeyGen w) (codes w)).
  assert (Ht : Idb.code_taken (cd_code cd) (codesKeyGen w) (codes w) = true).
  { destruct (Idb.code_taken (cd_code cd) (codesKeyGen w) (codes w)) eqn:E;
      [reflexivity |].
    pose proof (proj1 (StoreFacts.code_taken_false _ _ _) E c Hin Hs) as Hid.
    specialize (Hb c Hin). lia. }
  rewrite Ht, orb_true_r. cbn. eexists. split; [reflexivity |]. split; reflexivity.
Qed.

Lemma addCode_duplicate_witness :
  exists w',
    run idb (addCode (mk_codeData 2 "ADM-OLD00001" "admin" (Some true) None)) Sample.db
      = (Thrown Idb.constraint_error, w') /\
    codes w' = codes Sample.db.
Proof.
  destruct (addCode_duplicate Sample.db
              (mk_codeData 2 "ADM-OLD00001" "admin" (Some true) None) Sample.retired
              sample_consistent) as (w' & Hrun & Hcodes & _).
  - left. reflexivity.
  - reflexivity.
  - exists w'. split; assumption.
Defined.

(** [updateCode(k, {isActive: b})] on a stored record changes [isActive]
    and [updatedAt] of that record and nothing else: the record keeps its
    key, owner, code string and role, and every other key still leads to
    the record it led to. *)
Theorem updateCode_sets_isActive (w : World) (k : Z) (b : bool) (x : Code.t) :
  consistent w ->
  Idb.by_key k (codes w) = Some x ->
  exists w',
    run idb (updateCode k (Code.set_isActive b)) w = (Returned k, w') /\
    Idb.by_key k (codes w')
      = Some (Code.set_updatedAt (clock w (ticks w)) (Code.set_isActive b x)) /\
    (forall k', k' <> k -> Idb.by_key k' (codes w') = Idb.by_key k' (codes w)) /\
    users w' = users w.
Proof.
  intros (Hk & Hc & Hb) Hx.
  pose proof (IdbFacts.by_key_some _ _ _ Hx) as [Hin Hid].
  unfold updateCode. unmonad. cbn. rewrite Hx. cbn. unfold Idb.put. cbn.
  fold (Idb.code_taken (Code.code x) (Code.id x) (codes w)).
  assert (Ht : Idb.code_taken (Code.code x) (Code.id x) (codes w) = false).
  { apply StoreFacts.code_taken_false. intros c Hcin Hs.
    assert (c = x); [| congruence].
    clear - Hc Hcin Hin Hs. unfold codes_unique in Hc.
    induction (codes w) as [| y l IH]; [destruct Hin |].
    cbn in Hc. inversion Hc as [| ? ? Hy Hl]; subst.
    destruct Hcin as [-> | Hcin], Hin as [-> | Hin]; auto.
    - exfalso. apply Hy. rewrite Hs. apply List.in_map, Hin.
    - exfalso. apply Hy. rewrite <- Hs. apply List.in_map, Hcin. }
  rewrite Ht. cbn. subst k.
  eexists. split; [reflexivity |]. cbn [codes Idb.set_codes users].
  fold (Idb.remove_key (Code.id x) (codes w)).
  split; [| split; [| reflexivity]].
  - apply (StoreFacts.by_key_insert_eq
             (Code.set_updatedAt (clock w (ticks w)) (Code.set_isActive b x))).
    cbn. apply StoreFacts.by_key_remove_eq.
  - intros k' Hne. rewrite StoreFacts.by_key_insert_ne by (cbn; congruence).
    apply StoreFacts.by_key_remove_ne, Hne.
Qed.

Lemma updateCode_sets_isActive_witness :
  exists w',
    run idb (updateCode 2 (Code.set_isActive false)) Sample.db = (Returned 2, w') /\
    Idb.by_key 2 (codes w')
      = Some (Code.set_updatedAt 1700000000000 (Code.set_isActive false Sample.admin1)).
Proof.
  destruct (updateCode_sets_isActive Sample.db 2 false Sample.admin1 sample_consistent)
    as (w' & Hrun & Hget & _); [reflexivity |].
  exists w'. split; [exact Hrun | exact Hget].
Defined.

(** ** Regeneration on a consistent store *)

Module Regen.
Import IdbFacts.

Lemma same_frame_refl (w : World) : same_frame w w.
Proof. unfold same_frame. auto. Qed.

Lemma same_frame_trans (w1 w2 w3 : World) :
  same_frame w1 w2 -> same_frame w2 w3 -> same_frame w1 w3.
Proof.
  unfold same_frame. intros (A1 & A2 & A3 & A4) (B1 & B2 & B3 & B4).
  repeat split; congruence.
Qed.

Lemma unique_code_record (l : list Code.t) (x y : Code.t) :
  NoDup (List.map Code.code l) -> In x l -> In y l ->
  Code.code x = Code.code y -> x = y.
Proof.
  induction l as [| z l IH]; intros Hnd Hx Hy Hs; [destruct Hx |].
  cbn in Hnd. inversion Hnd as [| ? ? Hz Hl]; subst.
  destruct Hx as [-> | Hx], Hy as [-> | Hy]; auto.
  - exfalso. apply Hz. rewrite Hs. apply List.in_map, Hy.
  - exfalso. apply Hz. rewrite <- Hs. apply List.in_map, Hx.
Qed.

(** One retirement on a consistent store. *)
Lemma updateCode_run (w : World) (c : Code.t) :
  consistent w -> In c (codes w) ->
  exists w1,
    run idb (updateCode (Code.id c) (Code.set_isActive false)) w
      = (Returned (Code.id c), w1) /\
    codes w1 = Idb.insert_by_key (retired_at (clock w (ticks w)) c)
                 (Idb.remove_key (Code.id c) (codes w)) /\
    codesKeyGen w1 = codesKeyGen w /\ same_frame w w1 /\ draws w1 = draws w.
Proof.
  intros (Hk & Hc & Hb) Hin.
  unfold updateCode. unmonad. cbn.
  rewrite (by_key_in _ _ Hk Hin). cbn. unfold Idb.put. cbn.
  fold (Idb.code_taken (Code.code c) (Code.id c) (codes w)).
  assert (Ht : Idb.code_taken (Code.code c) (Code.id c) (codes w) = false).
  { apply StoreFacts.code_taken_false. intros y Hy Hs.
    rewrite (unique_code_record _ y c Hc Hy Hin Hs). reflexivity. }
  rewrite Ht. cbn. eexists. split; [reflexivity |].
  cbn. split; [reflexivity |].
  split; [| split; [unfold same_frame; cbn; auto | reflexivity]].
  specialize (Hb c Hin). lia.
Qed.

(** The loop over the codes to retire, on a consistent store that holds
    them. *)
Lemma deactivate_loop_total (L : list Code.t) (w : World) :
  consistent w ->
  NoDup (List.map Code.id L) ->
  (forall c, In c L -> In c (codes w) /\ Code.isActive c = true) ->
  exists w1,
    run idb (for_of L deactivate_body) w = (Returned tt, w1) /\
    consistent w1 /\ codesKeyGen w1 = codesKeyGen w /\ same_frame w w1 /\
    draws w1 = draws w /\
    (forall x, In x (codes w1) ->
       (In x (codes w) /\ ~ In (Code.id x) (List.map Code.id L)) \/
       (exists y t, In y L /\ x = retired_at t y)) /\
    (forall x, In x (codes w) -> ~ In (Code.id x) (List.map Code.id L) ->
               In x (codes w1)) /\
    (forall y, In y L -> exists t, In (retired_at t y) (codes w1)).
Proof.
  revert w. induction L as [| c L IH]; intros w Hw HndL HL.
  - exists w. cbn. split; [reflexivity |]. split; [exact Hw |].
    split; [reflexivity |]. split; [apply same_frame_refl |]. split; [reflexivity |].
    split; [intros x Hx; left; split; [exact Hx | intros []] |].
    split; [intros x Hx _; exact Hx | intros y []].
  - cbn in HndL. inversion HndL as [| ? ? HcL HndL']; subst.
    destruct (HL c (or_introl eq_refl)) as [Hcin Hcact].
    destruct (updateCode_run w c Hw Hcin) as (w1 & Hrun1 & Hcodes1 & Hgen1 & Hfr1 & Hdr1).
    assert (Hw1 : consistent w1).
    { pose proof (StoreFacts.run_keeps (updateCode (Code.id c) (Code.set_isActive false)) w Hw)
        as H. rewrite Hrun1 in H. exact H. }
    assert (HL1 : forall y, In y L -> In y (codes w1) /\ Code.isActive y = true).
    { intros y Hy. destruct (HL y (or_intror Hy)) as [Hyin Hyact].
      split; [| exact Hyact]. rewrite Hcodes1.
      apply in_insert_by_key; right. apply in_remove_key. split; [exact Hyin |].
      intros E. apply HcL. rewrite <- E. apply List.in_map, Hy. }
    destruct (IH w1 Hw1 HndL' HL1)
      as (w2 & Hrun2 & Hw2 & Hgen2 & Hfr2 & Hdr2 & HA & HB & HC).
    exists w2. split.
    { cbn [for_of]. rewrite run_bind. unfold deactivate_body at 1. rewrite Hcact.
      unmonad. rewrite run_bind, Hrun1. cbn [run]. exact Hrun2. }
    split; [exact Hw2 |]. split; [congruence |].
    split; [exact (same_frame_trans _ _ _ Hfr1 Hfr2) |]. split; [congruence |].
    split; [| split].
    + intros x Hx. destruct (HA x Hx) as [[Hx1 Hnot] | (y & t & Hy & ->)].
      * rewrite Hcodes1 in Hx1. apply in_insert_by_key in Hx1 as [-> | Hx1].
        -- right. exists c, (clock w (ticks w)). split; [left |]; reflexivity.
        -- apply in_remove_key in Hx1 as [Hx1 Hne]. left. split; [exact Hx1 |].
           cbn. intros [E | E]; [congruence | contradiction].
      * right. exists y, t. split; [right; exact Hy | reflexivity].
    + intros x Hx Hnot. apply HB.
      * rewrite Hcodes1. apply in_insert_by_key; right. apply in_remove_key.
        split; [exact Hx |]. intros E. apply Hnot. left. congruence.
      * intros E. apply Hnot. right. exact E.
    + intros y [-> | Hy]; [| exact (HC y Hy)].
      exists (clock w (ticks w)). apply HB.
      * rewrite Hcodes1. apply in_insert_by_key; left. reflexivity.
      * exact HcL.
Qed.

Lemma consistent_same (w w' : World) :
  codes w' = codes w -> codesKeyGen w' = codesKeyGen w ->
  consistent w -> consistent w'.
Proof.
  unfold consistent, keys_unique, codes_unique, keys_below.
  intros -> ->. auto.
Qed.

(** The uniqueness probe on the IndexedDB store: it returns a candidate
    made from a clock reading and a random number, and writes nothing. *)
Lemma unique_candidate_run (ty : string) (n : nat) (w : World) :
  exists s w',
    run idb (unique_candidate ty n) w = (Returned s, w') /\
    codes w' = codes w /\ codesKeyGen w' = codesKeyGen w /\ same_frame w w' /\
    exists i j, s = generateCode_at ty (clock w i) (entropy w j).
Proof.
  revert w. induction n as [| n IH]; intros w; cbn.
  - match goal with |- context [List.filter ?f ?l] => destruct (List.filter f l) end;
      cbn; (eexists _, _; split; [reflexivity |]; cbn;
            split; [reflexivity |]; split; [reflexivity |];
            split; [unfold same_frame; cbn; auto | eauto]).
  - match goal with |- context [List.filter ?f ?l] => destruct (List.filter f l) end;
      cbn.
    + eexists _, _; split; [reflexivity |]; cbn.
      split; [reflexivity |]; split; [reflexivity |].
      split; [unfold same_frame; cbn; auto | eauto].
    + change (Vis Date_now _) with (unique_candidate ty n).
      destruct (IH (Idb.draw (Idb.tick w)))
        as (s & w' & Hrun & H1 & H2 & (F1 & F2 & F3 & F4) & (i & j & Hs)).
      exists s, w'. split; [exact Hrun |]. cbn in *.
      split; [exact H1 |]. split; [exact H2 |].
      split; [unfold same_frame; auto | eauto].
Qed.

(** [addCode] on a consistent store: refused when the code string is taken,
    stored under the next key otherwise. *)
Lemma addCode_cases (cd : codeData) (w : World) :
  consistent w ->
  (exists c, In c (codes w) /\ Code.code c = cd_code cd /\
             run idb (addCode cd) w = (Thrown Idb.constraint_error, Idb.tick w)) \/
  ((forall c, In c (codes w) -> Code.code c <> cd_code cd) /\
   run idb (addCode cd) w =
     (Returned (codesKeyGen w),
      Idb.set_codes
        (Idb.insert_by_key
           (Code.with_id (codesKeyGen w)
              (Code.mk_draft (cd_userId cd) (cd_code cd) (cd_type cd)
                 (match cd_isActive cd with Some false => false | _ => true end)
                 (clock w (ticks w))
                 (match cd_expiresAt cd with Some 0 => None | e => e end)))
           (codes w))
        (codesKeyGen w + 1) (Idb.tick w))).
Proof.
  intros (Hk & Hc & Hb).
  assert (Hkey : Idb.by_key (codesKeyGen w) (codes w) = None).
  { destruct (Idb.by_key (codesKeyGen w) (codes w)) as [y |] eqn:E; [| reflexivity].
    apply by_key_some in E as [Hy Hid]. specialize (Hb y Hy). lia. }
  unfold addCode. unmonad. cbn. unfold Idb.add. cbn.
  fold (Idb.by_key (codesKeyGen w) (codes w)).
  fold (Idb.code_taken (cd_code cd) (codesKeyGen w) (codes w)).
  rewrite Hkey. cbn [present orb].
  destruct (Idb.code_taken (cd_code cd) (codesKeyGen w) (codes w)) eqn:Ht.
  - left. unfold Idb.code_taken in Ht.
    apply List.existsb_exists in Ht as (c & Hin & Hb').
    apply andb_prop in Hb' as [Hs _]. apply String.eqb_eq in Hs.
    exists c. split; [exact Hin |]. split; [exact Hs | reflexivity].
  - right. split; [| reflexivity].
    intros c Hin Hs.
    pose proof (proj1 (StoreFacts.code_taken_false _ _ _) Ht c Hin Hs) as E.
    specialize (Hb c Hin). lia.
Qed.

(** The read-back finds what the store holds. *)
Lemma verify_saved_found (a v : string) (ai vi : Z) (w : World) (A V : Code.t) :
  In A (codes w) -> Code.code A = a ->
  In V (codes w) -> Code.code V = v ->
  run idb (verify_saved a v ai vi) w = (Returned tt, w).
Proof.
  intros HA Ha HV Hv.
  assert (Hne : forall s X, In X (codes w) -> Code.code X = s ->
            exists r l, List.filter (fun c => String.eqb (Code.code c) s) (codes w) = r :: l).
  { intros s X HX Hs.
    destruct (List.filter (fun c => String.eqb (Code.code c) s) (codes w)) as [| r l] eqn:E;
      [| eauto].
    exfalso. assert (Hin : In X []); [| destruct Hin].
    rewrite <- E. apply List.filter_In. split; [exact HX | apply String.eqb_eq, Hs]. }
  destruct (Hne a A HA Ha) as (ra & la & Ea).
  destruct (Hne v V HV Hv) as (rv & lv & Ev).
  unfold verify_saved, getCode. unmonad. cbn. rewrite Ea, Ev. reflexivity.
Qed.

Lemma generateCode_apart (now now' : Z) (rnd rnd' : list nat) :
  generateCode_at "admin" now rnd <> generateCode_at "viewer" now' rnd'.
Proof. unfold generateCode_at. cbn [String.eqb Ascii.eqb]. discriminate. Qed.

(** The run of [generateCodesForUser] on the IndexedDB store, phase by
    phase. *)
Lemma generateCodesForUser_phases (w : World) (u : Z) :
  run idb (generateCodesForUser u) w =
  match run idb (for_of (List.filter Code.isActive (Idb.query (ByUserId u) (codes w)))
                        deactivate_body) w with
  | (Thrown e, w1) => (Thrown e, w1)
  | (Returned _, w1) =>
    match run idb (unique_candidate "admin" (maxAttempts - 1)) w1 with
    | (Thrown e, w2) => (Thrown e, w2)
    | (Returned a, w2) =>
      match run idb (unique_candidate "viewer" (maxAttempts - 1)) w2 with
      | (Thrown e, w3) => (Thrown e, w3)
      | (Returned v, w3) =>
        match run idb (addCode (mk_codeData u a "admin" (Some true) None)) w3 with
        | (Thrown e, w4) => (Thrown e, w4)
        | (Returned ai, w4) =>
          match run idb (addCode (mk_codeData u v "viewer" (Some true) None)) w4 with
          | (Thrown e, w5) => (Thrown e, w5)
          | (Returned vi, w5) =>
            match run idb (verify_saved a v ai vi) w5 with
            | (Thrown e, w6) => (Thrown e, w6)
            | (Returned _, w6) => (Returned (a, v), w6)
            end
          end
        end
      end
    end
  end.
Proof.
  unfold generateCodesForUser. unmonad.
  rewrite run_bind. cbn [await run Idb.step settle].
  match goal with |- run idb (try_catch ?p _) w = _ =>
    rewrite (proj2 (history_rethrow idb p w)) end.
  rewrite run_bind, getUserCodes_idb.
  rewrite run_bind.
  destruct (run idb (for_of _ deactivate_body) w) as [[[] | e] w1]; [| reflexivity].
  rewrite run_bind.
  destruct (run idb (unique_candidate "admin" _) w1) as [[a | e] w2]; [| reflexivity].
  rewrite run_bind.
  destruct (run idb (unique_candidate "viewer" _) w2) as [[v | e] w3]; [| reflexivity].
  rewrite run_bind.
  destruct (run idb (addCode _) w3) as [[ai | e] w4]; [| reflexivity].
  rewrite run_bind.
  destruct (run idb (addCode _) w4) as [[vi | e] w5]; [| reflexivity].
  rewrite run_bind.
  destruct (run idb (verify_saved a v ai vi) w5) as [[[] | e] w6]; reflexivity.
Qed.

Lemma retired_fields (t : Z) (y : Code.t) :
  Code.id (retired_at t y) = Code.id y /\
  Code.userId (retired_at t y) = Code.userId y /\
  Code.code (retired_at t y) = Code.code y /\
  Code.type (retired_at t y) = Code.type y /\
  Code.isActive (retired_at t y) = false.
Proof. repeat split. Qed.

(** What [generateCodesForUser(u)] does to a consistent store: the active
    codes of [u] are retired, giving the records [l1]; then either a
    generated candidate is held by a record and the store refuses the
    addition, or the two new codes are added to [l1]. *)
Lemma regeneration_cases (w : World) (u : Z) :
  consistent w ->
  exists l1 : list Code.t,
    (forall x, In x l1 ->
       (In x (codes w) /\ ~ (Code.userId x = u /\ Code.isActive x = true)) \/
       (exists y t, In y (codes w) /\ Code.userId y = u /\
                    Code.isActive y = true /\ x = retired_at t y)) /\
    (forall x, In x (codes w) -> ~ (Code.userId x = u /\ Code.isActive x = true) ->
               In x l1) /\
    (forall y, In y (codes w) -> Code.userId y = u -> Code.isActive y = true ->
               exists t, In (retired_at t y) l1) /\
    ((exists w' ty i j c,
        run idb (generateCodesForUser u) w = (Thrown Idb.constraint_error, w') /\
        In c (codes w) /\
        Code.code c = generateCode_at ty (clock w i) (entropy w j)) \/
     (exists w' A V,
        run idb (generateCodesForUser u) w = (Returned (Code.code A, Code.code V), w') /\
        codes w' = Idb.insert_by_key V (Idb.insert_by_key A l1) /\
        (Code.userId A = u /\ Code.type A = "admin" /\ Code.isActive A = true) /\
        (Code.userId V = u /\ Code.type V = "viewer" /\ Code.isActive V = true) /\
        Code.code A <> Code.code V /\
        (forall x, In x l1 -> Code.code x <> Code.code A /\ Code.code x <> Code.code V) /\
        same_frame w w' /\ consistent w')).
Proof.
  intros Hw. pose proof Hw as (Hk & Hc & Hb).
  set (L := List.filter Code.isActive (Idb.query (ByUserId u) (codes w))).
  assert (HLin : forall c, In c L <->
            In c (codes w) /\ Code.userId c = u /\ Code.isActive c = true).
  { intros c. unfold L. rewrite List.filter_In. cbn. rewrite List.filter_In, Z.eqb_eq.
    tauto. }
  assert (HndL : NoDup (List.map Code.id L)).
  { unfold L. apply StoreFacts.nodup_map_filter. cbn.
    apply StoreFacts.nodup_map_filter. exact Hk. }
  assert (HidL : forall x, In x (codes w) -> In (Code.id x) (List.map Code.id L) ->
                           In x L).
  { intros x Hx Hid. apply List.in_map_iff in Hid as (y & Hy & HyL).
    pose proof (proj1 (HLin y) HyL) as (Hyin & _).
    pose proof (by_key_in _ _ Hk Hyin) as E1.
    pose proof (by_key_in _ _ Hk Hx) as E2.
    rewrite Hy in E1. assert (y = x) by congruence. subst y. exact HyL. }
  destruct (deactivate_loop_total L w Hw HndL)
    as (w1 & Hrun1 & Hw1 & Hgen1 & Hfr1 & Hdr1 & HA & HB & HC).
  { intros c Hc'. apply HLin in Hc' as (H1 & _ & H3). auto. }
  assert (HA' : forall x, In x (codes w1) ->
       (In x (codes w) /\ ~ (Code.userId x = u /\ Code.isActive x = true)) \/
       (exists y t, In y (codes w) /\ Code.userId y = u /\
                    Code.isActive y = true /\ x = retired_at t y)).
  { intros x Hx. destruct (HA x Hx) as [[Hin Hnot] | (y & t & Hy & ->)].
    - left. split; [exact Hin |]. intros [Hu Ha]. apply Hnot.
      apply List.in_map. apply HLin. auto.
    - right. apply HLin in Hy as (H1 & H2 & H3). exists y, t. auto. }
  exists (codes w1).
  split; [exact HA' |].
  split.
  { intros x Hx Hnot. apply HB; [exact Hx |]. intros Hid. apply Hnot.
    apply (HidL x Hx) in Hid. apply HLin in Hid. tauto. }
  split.
  { intros y Hy Hu Ha. apply HC. apply HLin. auto. }
  assert (Hold : forall x s, In x (codes w1) -> Code.code x = s ->
                   exists c, In c (codes w) /\ Code.code c = s).
  { intros x s Hx Hs. destruct (HA' x Hx) as [[Hin _] | (y & t & Hy & _ & _ & ->)].
    - exists x. auto.
    - exists y. split; [exact Hy | exact Hs]. }
  rewrite generateCodesForUser_phases. fold L. rewrite Hrun1.
  destruct (unique_candidate_run "admin" (maxAttempts - 1) w1)
    as (a & w2 & Hrun2 & Hc2 & Hg2 & Hfr2 & (i & j & Ha)).
  rewrite Hrun2.
  destruct (unique_candidate_run "viewer" (maxAttempts - 1) w2)
    as (v & w3 & Hrun3 & Hc3 & Hg3 & Hfr3 & (i' & j' & Hv)).
  rewrite Hrun3.
  pose proof (same_frame_trans _ _ _ Hfr1 Hfr2) as Hfr12.
  pose proof (same_frame_trans _ _ _ Hfr12 Hfr3) as Hfr13.
  assert (Ha' : a = generateCode_at "admin" (clock w i) (entropy w j)).
  { destruct Hfr1 as (_ & _ & E1 & E2). rewrite Ha, E1, E2. reflexivity. }
  assert (Hv' : v = generateCode_at "viewer" (clock w i') (entropy w j')).
  { destruct Hfr12 as (_ & _ & E1 & E2). rewrite Hv, E1, E2. reflexivity. }
  assert (Hav : a <> v) by (rewrite Ha', Hv'; apply generateCode_apart).
  assert (Hw3 : consistent w3).
  { apply (consistent_same w1); [congruence | congruence | exact Hw1]. }
  destruct (addCode_cases (mk_codeData u a "admin" (Some true) None) w3 Hw3)
    as [(c & Hcin & Hcs & Hrun4) | (Hfree4 & Hrun4)]; rewrite Hrun4.
  { left. rewrite Hc3, Hc2 in Hcin. destruct (Hold c a Hcin Hcs) as (c0 & Hc0 & Hs0).
    exists (Idb.tick w3), "admin", i, j, c0. split; [reflexivity |].
    split; [exact Hc0 | congruence]. }
  cbn [cd_userId cd_code cd_type cd_isActive cd_expiresAt] in Hrun4 |- *.
  set (A := Code.with_id (codesKeyGen w3)
              (Code.mk_draft u a "admin" true (clock w3 (ticks w3)) None)) in *.
  set (w4 := Idb.set_codes (Idb.insert_by_key A (codes w3)) (codesKeyGen w3 + 1)
               (Idb.tick w3)) in *.
  assert (Hw4 : consistent w4).
  { pose proof (StoreFacts.run_keeps (addCode (mk_codeData u a "admin" (Some true) None)) w3 Hw3)
      as H. rewrite Hrun4 in H. exact H. }
  destruct (addCode_cases (mk_codeData u v "viewer" (Some true) None) w4 Hw4)
    as [(c & Hcin & Hcs & Hrun5) | (Hfree5 & Hrun5)]; rewrite Hrun5.
  { left. cbn [codes w4 Idb.set_codes] in Hcin.
    apply in_insert_by_key in Hcin as [-> | Hcin]; [cbn in Hcs; congruence |].
    rewrite Hc3, Hc2 in Hcin. destruct (Hold c v Hcin Hcs) as (c0 & Hc0 & Hs0).
    exists (Idb.tick w4), "viewer", i', j', c0. split; [reflexivity |].
    split; [exact Hc0 | congruence]. }
  cbn [cd_userId cd_code cd_type cd_isActive cd_expiresAt] in Hrun5 |- *.
  set (V := Code.with_id (codesKeyGen w4)
              (Code.mk_draft u v "viewer" true (clock w4 (ticks w4)) None)) in *.
  set (w5 := Idb.set_codes (Idb.insert_by_key V (codes w4)) (codesKeyGen w4 + 1)
               (Idb.tick w4)) in *.
  assert (Hw5 : consistent w5).
  { pose proof (StoreFacts.run_keeps (addCode (mk_codeData u v "viewer" (Some true) None)) w4 Hw4)
      as H. rewrite Hrun5 in H. exact H. }
  rewrite (verify_saved_found a v _ _ w5 A V).
  - right. exists w5, A, V. split; [reflexivity |].
    split; [cbn; rewrite Hc3, Hc2; reflexivity |].
    split; [cbn; auto |]. split; [cbn; auto |]. split; [exact Hav |].
    split.
    { intros x Hx. split.
      - apply (Hfree4 x). rewrite Hc3, Hc2. exact Hx.
      - apply (Hfree5 x). cbn. apply in_insert_by_key; right.
        rewrite Hc3, Hc2. exact Hx. }
    split; [| exact Hw5].
    destruct Hfr13 as (F1 & F2 & F3 & F4). unfold same_frame. cbn. auto.
  - cbn. apply in_insert_by_key; right. apply in_insert_by_key; left. reflexivity.
  - reflexivity.
  - cbn. apply in_insert_by_key; left. reflexivity.
  - reflexivity.
Qed.

End Regen.

Lemma query_code_unique (l : list Code.t) (x : Code.t) :
  NoDup (List.map Code.code l) -> In x l ->
  Idb.query (ByCode (Code.code x)) l = [x].
Proof.
  cbn. induction l as [| y l IH]; intros Hnd Hin; [destruct Hin |].
  cbn in Hnd. inversion Hnd as [| ? ? Hy Hl]; subst. cbn.
  destruct Hin as [-> | Hin].
  - rewrite String.eqb_refl. f_equal. apply IdbFacts.filter_none.
    intros z Hz. apply String.eqb_neq. intros E. apply Hy. rewrite <- E.
    apply List.in_map, Hz.
  - destruct (String.eqb_spec (Code.code y) (Code.code x)) as [E | E].
    + exfalso. apply Hy. rewrite E. apply List.in_map, Hin.
    + apply IH; assumption.
Qed.

Lemma verifyCode_idb_inactive (w : World) (s : string) (c : Code.t) :
  List.head (Idb.query (ByCode s) (codes w)) = Some c ->
  Code.isActive c = false ->
  run idb (verifyCode s) w = (Returned (Failure "INVALID"), w).
Proof.
  intros Hc Hact. unfold verifyCode. unmonad.
  rewrite run_bind. cbn [await run Idb.step settle].
  rewrite run_try_catch, run_bind, getCode_idb, Hc. cbv beta iota.
  rewrite Hact. reflexivity.
Qed.

(** On a consistent store [generateCodesForUser] ends in one of two ways:
    it returns the two new codes, or the store refuses an addition with
    [ConstraintError] because a generated candidate is held by a record.
    The read-back never fails there, and no ['Code not found'] arises; and
    when no candidate the generator can produce is stored, the call
    succeeds. *)
Theorem regenerate_outcomes (w : World) (u : Z) :
  consistent w ->
  ((exists a v w', run idb (generateCodesForUser u) w = (Returned (a, v), w')) \/
   (exists w' ty i j c,
      run idb (generateCodesForUser u) w = (Thrown Idb.constraint_error, w') /\
      In c (codes w) /\
      Code.code c = generateCode_at ty (clock w i) (entropy w j))) /\
  (fresh_source w ->
   exists a v w', run idb (generateCodesForUser u) w = (Returned (a, v), w')).
Proof.
  intros Hw.
  destruct (Regen.regeneration_cases w u Hw) as (l1 & _ & _ & _ & Hcases).
  destruct Hcases as [(w' & ty & i & j & c & Hrun & Hc & Hs) | (w' & A & V & Hrun & _)].
  - split; [right; eauto 10 |].
    intros Hfresh. exfalso. exact (Hfresh ty i j c Hc Hs).
  - split; [left; eauto | eauto].
Qed.

Lemma sample_fresh : fresh_source Sample.db.
Proof.
  intros ty n m c Hc. cbn in Hc.
  assert (Hlen : String.length (Js.toUpperCase
            (Js.slice_last 4 (Js.toString36 (clock Sample.db n)))) = 4%nat).
  { unfold Js.slice_last. rewrite CodeShape.length_upper, CodeShape.length_drop.
    pose proof (CodeShape.toString36_four (clock Sample.db n)) as H.
    assert (46656 <= clock Sample.db n) by (cbn; lia). specialize (H H0). lia. }
  unfold generateCode_at.
  change (Js.toUpperCase (Js.substring 2 6 (Js.fraction_toString36 (entropy Sample.db m))))
    with "1234".
  destruct (Js.toUpperCase (Js.slice_last 4 (Js.toString36 (clock Sample.db n))))
    as [| t1 [| t2 [| t3 [| t4 [| t5 T]]]]]; cbn in Hlen; try discriminate Hlen.
  repeat (destruct Hc as [<- | Hc];
          [destruct (String.eqb ty "admin"); cbn; intros E; injection E; intros;
           discriminate |]).
  destruct Hc.
Qed.

Lemma regenerate_outcomes_witness :
  exists a v w', run idb (generateCodesForUser 1) Sample.db = (Returned (a, v), w').
Proof.
  exact (proj2 (regenerate_outcomes Sample.db 1 sample_consistent) sample_fresh).
Defined.

(** Regeneration touches the codes of its user only: after a successful
    [generateCodesForUser(u)] the code records of every other user are the
    records that were there before, and the users and subscriptions are
    unchanged. *)
Theorem regenerate_spares_others
    (w w' : World) (u : Z) (a v : string) :
  consistent w ->
  run idb (generateCodesForUser u) w = (Returned (a, v), w') ->
  users w' = users w /\ subscriptions w' = subscriptions w /\
  forall x, Code.userId x <> u -> (In x (codes w') <-> In x (codes w)).
Proof.
  intros Hw Hrun.
  destruct (Regen.regeneration_cases w u Hw) as (l1 & HA & HB & _ & Hcases).
  destruct Hcases as [(w0 & ty & i & j & c & Hrun' & _) |
                      (w0 & A & V & Hrun' & Hcodes & (HAu & _) & (HVu & _) & _ & _ & Hfr & _)];
    rewrite Hrun in Hrun'; [discriminate Hrun' |].
  injection Hrun' as -> -> <-.
  destruct Hfr as (F1 & F2 & _ & _).
  split; [exact F1 |]. split; [exact F2 |].
  intros x Hx. rewrite Hcodes. split.
  - intros Hin. apply IdbFacts.in_insert_by_key in Hin as [-> | Hin]; [congruence |].
    apply IdbFacts.in_insert_by_key in Hin as [-> | Hin]; [congruence |].
    destruct (HA x Hin) as [[Hin' _] | (y & t & _ & Hy & _ & ->)]; [exact Hin' |].
    cbn in Hx. congruence.
  - intros Hin. apply IdbFacts.in_insert_by_key; right.
    apply IdbFacts.in_insert_by_key; right.
    apply HB; [exact Hin |]. intros [Hu _]. congruence.
Qed.

Lemma regenerate_spares_others_witness :
  exists w',
    run idb (generateCodesForUser 1) Sample.db
      = (Returned ("ADM-3V2A1234", "VWR-3V2B1234"), w') /\
    In Sample.admin2 (codes w') /\ In Sample.admin3 (codes w') /\
    users w' = users Sample.db.
Proof.
  destruct (run idb (generateCodesForUser 1) Sample.db) as [o w'] eqn:Hrun.
  assert (Ho : o = Returned ("ADM-3V2A1234", "VWR-3V2B1234")).
  { change o with (fst (o, w')). rewrite <- Hrun. vm_compute. reflexivity. }
  subst o. exists w'. split; [reflexivity |].
  destruct (regenerate_spares_others _ _ _ _ _ sample_consistent Hrun)
    as (Hu & _ & Hothers).
  split; [| split; [| exact Hu]].
  - apply Hothers; [discriminate |]. cbn. auto 6.
  - apply Hothers; [discriminate |]. cbn. auto 6.
Defined.

(** A code string that leads to an inactive record is never accepted,
    whichever requests the store rejects during the verification. *)
Lemma verifyCode_inactive_never_accepted
    (plan : list nat) (w : World) (m : nat) (s : string) (c : Code.t) (r : verified) :
  List.head (Idb.query (ByCode s) (codes w)) = Some c ->
  Code.isActive c = false ->
  fst (run (Idb.step_failing plan) (verifyCode s) (w, m)) <> Returned (Success r).
Proof.
  intros Hc Hact. unfold verifyCode, getCode. unmonad. cbn in *.
  unfold Idb.step_failing.
  destruct (bool_decide (m ∈ plan)); cbn; [discriminate |].
  destruct (bool_decide (S m ∈ plan)); cbn; [discriminate |].
  destruct (List.filter (fun c0 => String.eqb (Code.code c0) s) (codes w))
    as [| c0 l]; cbn in *; [discriminate |].
  injection Hc as ->. rewrite Hact. cbn. discriminate.
Qed.

(** The codes a regeneration retires stop verifying.  On the store,
    whichever requests it rejects, after a successful
    [generateCodesForUser(u)] in which [getUserCodes] did not lose the list
    of the codes of [u], the code string of every code of [u] that was
    active before is answered [INVALID] when the verification meets no
    rejection, and is never answered [Success] whichever requests of the
    verification are rejected. *)
Theorem regenerate_invalidates_old
    (plan : list nat) (w w' : World) (n n' : nat) (u : Z) (a v : string) (c : Code.t) :
  consistent w ->
  run (Idb.step_failing plan) (generateCodesForUser u) (w, n)
    = (Returned (a, v), (w', n')) ->
  existsb listing_lost (history (Idb.step_failing plan) (generateCodesForUser u) (w, n))
    = false ->
  In c (codes w) -> Code.userId c = u -> Code.isActive c = true ->
  run idb (verifyCode (Code.code c)) w' = (Returned (Failure "INVALID"), w') /\
  forall (plan' : list nat) (m : nat) (r : verified),
    fst (run (Idb.step_failing plan') (verifyCode (Code.code c)) (w', m))
    <> Returned (Success r).
Proof.
  intros Hw Hfail Hlost Hc Hu Hact.
  pose proof (Faults.regenerate_as_idb plan w w' n n' u a v Hfail Hlost) as Hrun.
  destruct (Regen.regeneration_cases w u Hw) as (l1 & _ & _ & HC & Hcases).
  destruct Hcases as [(w0 & ty & i & j & c0 & Hrun' & _) |
                      (w0 & A & V & Hrun' & Hcodes & _ & _ & _ & _ & _ & Hw')];
    rewrite Hrun in Hrun'; [discriminate Hrun' |].
  injection Hrun' as -> -> <-.
  destruct (HC c Hc Hu Hact) as (t & Hin).
  assert (Hin' : In (retired_at t c) (codes w')).
  { rewrite Hcodes. apply IdbFacts.in_insert_by_key; right.
    apply IdbFacts.in_insert_by_key; right. exact Hin. }
  destruct Hw' as (_ & Hcu & _).
  assert (Hhead : List.head (Idb.query (ByCode (Code.code c)) (codes w'))
                  = Some (retired_at t c)).
  { change (Code.code c) with (Code.code (retired_at t c)).
    rewrite (query_code_unique _ _ Hcu Hin'). reflexivity. }
  split.
  - exact (verifyCode_idb_inactive w' (Code.code c) (retired_at t c) Hhead eq_refl).
  - intros plan' m r.
    exact (verifyCode_inactive_never_accepted plan' w' m (Code.code c)
             (retired_at t c) r Hhead eq_refl).
Qed.

(** The index query is rejected, the scan answers: the old admin code of
    user 1 is retired and no longer verifies. *)
Lemma regenerate_invalidates_old_witness :
  existsb listing_lost
    (history (Idb.step_failing [2]%nat) (generateCodesForUser 1) (Sample.db, 0%nat))
    = false /\
  exists w' n',
    run (Idb.step_failing [2]%nat) (generateCodesForUser 1) (Sample.db, 0%nat)
      = (Returned ("ADM-3V2A1234", "VWR-3V2B1234"), (w', n')) /\
    run idb (verifyCode "ADM-OLD00002") w' = (Returned (Failure "INVALID"), w').
Proof.
  assert (Hlost : existsb listing_lost
            (history (Idb.step_failing [2]%nat) (generateCodesForUser 1) (Sample.db, 0%nat))
          = false) by (vm_compute; reflexivity).
  split; [exact Hlost |].
  destruct (run (Idb.step_failing [2]%nat) (generateCodesForUser 1) (Sample.db, 0%nat))
    as [o [w' n']] eqn:Hrun.
  assert (Ho : o = Returned ("ADM-3V2A1234", "VWR-3V2B1234")).
  { change o with (fst (o, (w', n'))). rewrite <- Hrun. vm_compute. reflexivity. }
  subst o. exists w', n'. split; [reflexivity |].
  apply (regenerate_invalidates_old _ _ _ _ _ _ _ _ Sample.admin1
           sample_consistent Hrun Hlost);
    [cbn; auto | reflexivity | reflexivity].
Defined.

(** Round trip.  On the store, whichever requests it rejects, after a
    successful [generateCodesForUser(u)] in which [getUserCodes] did not
    lose the list of the codes of [u], for a stored, unexpired user with a
    product: a verification that meets no rejection accepts the new admin
    code with role ['admin'] and the new viewer code with role ['viewer'],
    and both answers carry the two new codes as companion codes. *)
Theorem regenerate_then_verify
    (plan : list nat) (w w' : World) (n n' : nat) (u : Z) (a v : string)
    (user : User.t) (p : string) :
  consistent w ->
  run (Idb.step_failing plan) (generateCodesForUser u) (w, n)
    = (Returned (a, v), (w', n')) ->
  existsb listing_lost (history (Idb.step_failing plan) (generateCodesForUser u) (w, n))
    = false ->
  users w !! u = Some user ->
  User.product user = PText p ->
  is_expired (expiry_time (User.expiryDate user)) (clock w' (ticks w')) = false ->
  exists va vv,
    fst (run idb (verifyCode a) w') = Returned (Success va) /\
    fst (run idb (verifyCode v) w') = Returned (Success vv) /\
    role va = "admin" /\ role vv = "viewer" /\
    codes_admin va = a /\ codes_viewer va = v /\
    codes_admin vv = a /\ codes_viewer vv = v /\
    payload_userId va = User.id user /\ payload_userId vv = User.id user.
Proof.
  intros Hw Hfail Hlost Huser Hp Hexp.
  pose proof (Faults.regenerate_as_idb plan w w' n n' u a v Hfail Hlost) as Hrun.
  destruct (Regen.regeneration_cases w u Hw) as (l1 & HA & _ & _ & Hcases).
  destruct Hcases as [(w0 & ty & i & j & c0 & Hrun' & _) |
      (w0 & A & V & Hrun' & Hcodes & (HAu & HAt & HAa) & (HVu & HVt & HVa)
          & Hne & Hfree & Hfr & Hw')];
    rewrite Hrun in Hrun'; [discriminate Hrun' |].
  injection Hrun' as -> -> <-.
  destruct Hw' as (_ & Hcu & _). destruct Hfr as (Fu & _).
  assert (HinA : In A (codes w')).
  { rewrite Hcodes. apply IdbFacts.in_insert_by_key; right.
    apply IdbFacts.in_insert_by_key; left. reflexivity. }
  assert (HinV : In V (codes w')).
  { rewrite Hcodes. apply IdbFacts.in_insert_by_key; left. reflexivity. }
  assert (Hretired : forall ty x, In x l1 ->
            ((Code.userId x =? u) && String.eqb (Code.type x) ty && Code.isActive x) = false).
  { intros ty x Hx. destruct (Z.eqb_spec (Code.userId x) u) as [Hu | Hu]; [| reflexivity].
    destruct (HA x Hx) as [[_ Hnot] | (y & t & _ & _ & _ & ->)].
    - destruct (Code.isActive x); [exfalso; apply Hnot; auto | apply andb_false_r].
    - apply andb_false_r. }
  assert (Hadmin : active_codes u "admin" (codes w') = [A]).
  { unfold active_codes. rewrite Hcodes.
    rewrite IdbFacts.filter_insert_out by (rewrite HVu, HVt, HVa, Z.eqb_refl; reflexivity).
    apply IdbFacts.filter_insert_only;
      [rewrite HAu, HAt, HAa, Z.eqb_refl; reflexivity | apply Hretired]. }
  assert (Hviewer : active_codes u "viewer" (codes w') = [V]).
  { unfold active_codes. rewrite Hcodes.
    apply IdbFacts.filter_insert_only;
      [rewrite HVu, HVt, HVa, Z.eqb_refl; reflexivity |].
    intros x Hx. apply IdbFacts.in_insert_by_key in Hx as [-> | Hx];
      [rewrite HAu, HAt, HAa, Z.eqb_refl; reflexivity | apply Hretired, Hx]. }
  assert (HuA : users w' !! Code.userId A = Some user) by (rewrite HAu, Fu; exact Huser).
  assert (HuV : users w' !! Code.userId V = Some user) by (rewrite HVu, Fu; exact Huser).
  eexists _, _.
  rewrite (verifyCode_idb_success w' (Code.code A) A user p);
    [| rewrite (query_code_unique _ _ Hcu HinA); reflexivity | exact HAa | exact HuA
     | exact Hexp | exact Hp].
  rewrite (verifyCode_idb_success w' (Code.code V) V user p);
    [| rewrite (query_code_unique _ _ Hcu HinV); reflexivity | exact HVa | exact HuV
     | exact Hexp | exact Hp].
  cbn [fst role codes_admin codes_viewer payload_userId].
  rewrite HAu, HVu, !find_code_active, Hadmin, Hviewer, HAt, HVt.
  repeat split.
Qed.

(** The index query is rejected, the scan answers: the new admin code
    of user 3 verifies and carries the new pair. *)
Lemma regenerate_then_verify_witness :
  existsb listing_lost
    (history (Idb.step_failing [2]%nat) (generateCodesForUser 3) (Sample.db, 0%nat))
    = false /\
  exists w' n' va,
    run (Idb.step_failing [2]%nat) (generateCodesForUser 3) (Sample.db, 0%nat)
      = (Returned ("ADM-3V291234", "VWR-3V2A1234"), (w', n')) /\
    fst (run idb (verifyCode "ADM-3V291234") w') = Returned (Success va) /\
    role va = "admin" /\ codes_admin va = "ADM-3V291234" /\
    codes_viewer va = "VWR-3V2A1234".
Proof.
  assert (Hlost : existsb listing_lost
            (history (Idb.step_failing [2]%nat) (generateCodesForUser 3) (Sample.db, 0%nat))
          = false) by (vm_compute; reflexivity).
  split; [exact Hlost |].
  destruct (run (Idb.step_failing [2]%nat) (generateCodesForUser 3) (Sample.db, 0%nat))
    as [o [w' n']] eqn:Hrun.
  assert (Ho : o = Returned ("ADM-3V291234", "VWR-3V2A1234")).
  { change o with (fst (o, (w', n'))). rewrite <- Hrun. vm_compute. reflexivity. }
  subst o.
  assert (Hexp : is_expired (expiry_time (User.expiryDate Sample.carol))
                   (clock w' (ticks w')) = false).
  { change w' with (fst (snd (Returned ("ADM-3V291234", "VWR-3V2A1234"), (w', n')))).
    rewrite <- Hrun. vm_compute. reflexivity. }
  destruct (regenerate_then_verify _ _ _ _ _ _ _ _ Sample.carol "Yearly Plan"
              sample_consistent Hrun Hlost eq_refl eq_refl Hexp)
    as (va & vv & H1 & _ & H3 & _ & H5 & H6 & _).
  exists w', n', va. split; [reflexivity |]. auto.
Defined.

(** ** Deleting a user *)

Module Removal.

Lemma delete_subscriptions_content (L : list Subscription.t) (w : World) :
  exists w',
    run idb (promise_all (fun sub => Delete_subscriptions (Subscription.id sub)) L) w
      = (Returned (List.map (fun _ => true) L), w') /\
    codes w' = codes w /\ users w' = users w /\
    (forall s, In s (subscriptions w') <->
               In s (subscriptions w) /\
               ~ In (Subscription.id s) (List.map Subscription.id L)).
Proof.
  unfold promise_all.
  assert (H : exists w',
    run idb (issue_all (fun sub => Delete_subscriptions (Subscription.id sub)) L) w
      = (Returned (List.map (fun _ => Ok true) L), w') /\
    codes w' = codes w /\ users w' = users w /\
    (forall s, In s (subscriptions w') <->
               In s (subscriptions w) /\
               ~ In (Subscription.id s) (List.map Subscription.id L))).
  { revert w. induction L as [| c L IH]; intros w.
    - exists w. cbn. split; [reflexivity |]. split; [reflexivity |].
      split; [reflexivity | tauto].
    - cbn [issue_all run Idb.step].
      match goal with |- context [run idb _ ?w1] =>
        destruct (IH w1) as (w' & Hrun & Hc & Hu & Hs) end.
      exists w'. rewrite run_bind, Hrun. split; [reflexivity |].
      split; [exact Hc |]. split; [exact Hu |].
      intros s. rewrite Hs. cbn [subscriptions Idb.set_subscriptions].
      rewrite List.filter_In, negb_true_iff, Z.eqb_neq. cbn [List.map In].
      intuition congruence. }
  destruct H as (w' & Hrun & Hrest).
  exists w'. rewrite run_bind, Hrun, Cascade.all_ok_true.
  split; [reflexivity | exact Hrest].
Qed.

Lemma deleteUserSubscriptions_idb (w : World) (u : Z) :
  exists l w',
    run idb (deleteUserSubscriptions u) w = (Returned l, w') /\
    codes w' = codes w /\ users w' = users w /\
    (forall s, In s (subscriptions w') <->
               In s (subscriptions w) /\
               ~ In (Subscription.id s)
                    (List.map Subscription.id
                       (List.filter (fun s => Subscription.userId s =? u)
                          (subscriptions w)))).
Proof.
  unfold deleteUserSubscriptions. unmonad.
  rewrite run_bind. cbn [await run Idb.step settle].
  destruct (delete_subscriptions_content
              (List.filter (fun s => Subscription.userId s =? u) (subscriptions w)) w)
    as (w' & Hrun & Hrest).
  eexists _, w'. split; [exact Hrun | exact Hrest].
Qed.

End Removal.

(** After [deleteUserSubscriptions(u)] the user has no subscription left:
    [getUserSubscription(u)] returns [null]; the codes and the users are as
    they were. *)
Theorem deleteUserSubscriptions_then_none (w : World) (u : Z) :
  exists l w',
    run idb (deleteUserSubscriptions u) w = (Returned l, w') /\
    run idb (getUserSubscription u) w' = (Returned None, w') /\
    codes w' = codes w /\ users w' = users w.
Proof.
  destruct (Removal.deleteUserSubscriptions_idb w u) as (l & w' & Hrun & Hc & Hu & Hs).
  exists l, w'. split; [exact Hrun |]. split; [| split; assumption].
  unfold getUserSubscription. unmonad. rewrite run_bind.
  cbn [await run Idb.step settle].
  destruct (List.filter (fun s => Subscription.userId s =? u) (subscriptions w'))
    as [| s rest] eqn:E; [reflexivity | exfalso].
  assert (Hin : In s (List.filter (fun s => Subscription.userId s =? u) (subscriptions w')))
    by (rewrite E; left; reflexivity).
  apply List.filter_In in Hin as [Hin Hsu].
  apply Hs in Hin as [Hin Hnot]. apply Hnot.
  apply List.in_map. apply List.filter_In. split; assumption.
Qed.

(** [deleteUser(u)] always succeeds on the store, removes user [u] and every
    subscription of [u], and leaves the other users, their codes and their
    subscriptions in place. *)
Theorem deleteUser_scope (w : World) (u : Z) :
  keys_unique w ->
  NoDup (List.map Subscription.id (subscriptions w)) ->
  exists w',
    run idb (deleteUser u) w = (Returned true, w') /\
    users w' !! u = None /\
    (forall k, k <> u -> users w' !! k = users w !! k) /\
    (forall x, Code.userId x <> u -> (In x (codes w') <-> In x (codes w))) /\
    (forall s, In s (subscriptions w') <->
               In s (subscriptions w) /\ Subscription.userId s <> u).
Proof.
  intros Hk Hsub.
  destruct (Cascade.deleteUser_idb w u Hk) as (w' & Hrun & Husers & Hcodes).
  exists w'. split; [exact Hrun |].
  split; [rewrite Husers; apply lookup_delete_eq |].
  split; [intros k Hne; rewrite Husers; apply lookup_delete_ne; congruence |].
  split.
  { intros x Hx. rewrite Hcodes. split; [tauto |].
    intros Hin. split; [exact Hin | tauto]. }
  (* the subscriptions, from the run itself *)
  revert Hrun. unfold deleteUser, deleteUserCodes. unmonad.
  rewrite !run_bind, getUserCodes_idb.
  destruct (Cascade.delete_codes_idb
              (List.filter Code.isActive (Idb.query (ByUserId u) (codes w))) w)
    as (w1 & Hrun1 & _ & _ & Hs1).
  rewrite Hrun1. rewrite run_bind.
  destruct (Removal.deleteUserSubscriptions_idb w1 u) as (l & w2 & Hrun2 & _ & _ & Hs2).
  rewrite Hrun2. cbn [await run Idb.step settle].
  intros E. injection E as <-. cbn [subscriptions Idb.set_users].
  intros s. rewrite Hs2, Hs1. split.
  - intros [Hin Hnot]. split; [exact Hin |]. intros Hu. apply Hnot.
    apply List.in_map. apply List.filter_In. split; [exact Hin | apply Z.eqb_eq, Hu].
  - intros [Hin Hu]. split; [exact Hin |]. intros Hid.
    apply List.in_map_iff in Hid as (y & Hy & Hyin).
    apply List.filter_In in Hyin as [Hyin Hyu]. apply Z.eqb_eq in Hyu.
    assert (y = s); [| congruence].
    clear - Hsub Hy Hyin Hin.
    induction (subscriptions w) as [| z l IH]; [destruct Hin |].
    cbn in Hsub. inversion Hsub as [| ? ? Hz Hl]; subst.
    destruct Hyin as [-> | Hyin], Hin as [-> | Hin]; auto.
    + exfalso. apply Hz. rewrite Hy. apply List.in_map, Hin.
    + exfalso. apply Hz. rewrite <- Hy. apply List.in_map, Hyin.
Qed.

Lemma deleteUser_scope_witness :
  exists w',
    run idb (deleteUser 1) Sample.db = (Returned true, w') /\
    users w' !! 1 = None /\ users w' !! 2 = Some Sample.bob /\
    In Sample.admin2 (codes w').
Proof.
  destruct (deleteUser_scope Sample.db 1) as (w' & Hrun & Hu & Hothers & Hcodes & _).
  - exact (proj1 sample_consistent).
  - constructor.
  - exists w'. split; [exact Hrun |]. split; [exact Hu |]. split.
    + rewrite Hothers by discriminate. reflexivity.
    + apply Hcodes; [discriminate |]. cbn. auto 6.
Defined.

(** A deletion that returns without having lost the list of the user's
    codes ran as on a store that rejects nothing. *)
Lemma deleteUser_as_idb (plan : list nat) (w w' : World) (n n' : nat) (u : Z) (b : bool) :
  run (Idb.step_failing plan) (deleteUser u) (w, n) = (Returned b, (w', n')) ->
  existsb listing_lost (history (Idb.step_failing plan) (deleteUser u) (w, n)) = false ->
  run idb (deleteUser u) w = (Returned b, w').
Proof.
  intros Hrun Hlost.
  unfold deleteUser, deleteUserCodes in *. unmonad.
  rewrite !run_bind in Hrun. rewrite !history_bind in Hlost.
  rewrite !run_bind, getUserCodes_idb.
  destruct (run (Idb.step_failing plan) (getUserCodes u None) (w, n))
    as [[L | e] s1] eqn:E1; [| discriminate Hrun].
  apply Faults.existsb_app_false in Hlost as [Hlost _].
  apply Faults.existsb_app_false in Hlost as [Hlost _].
  destruct (Faults.getUserCodes_listed plan u w n L s1 E1 Hlost) as (-> & n1 & ->).
  set (L := List.filter Code.isActive (Idb.query (ByUserId u) (codes w))) in *.
  assert (Hff : fail_fast
            (bind (promise_all (fun code => deleteCode (Code.id code)) L)
               (fun _ => bind (deleteUserSubscriptions u)
                  (fun _ => await (Delete_users u))))).
  { apply Faults.fail_fast_bind;
      [apply Faults.fail_fast_promise_all; reflexivity | intros _].
    apply Faults.fail_fast_bind; [| intros _; Faults.one_request].
    unfold deleteUserSubscriptions. unmonad.
    apply Faults.fail_fast_bind; [Faults.one_request | intros S].
    apply Faults.fail_fast_promise_all; reflexivity. }
  assert (Hrest : run (Idb.step_failing plan)
            (bind (promise_all (fun code => deleteCode (Code.id code)) L)
               (fun _ => bind (deleteUserSubscriptions u)
                  (fun _ => await (Delete_users u)))) (w, n1)
          = (Returned b, (w', n'))).
  { rewrite run_bind. exact Hrun. }
  pose proof (Hff _ _ _ _ _ Hrest) as Hclean.
  destruct (Faults.unrejected_run plan _ w n1 Hclean) as (n2 & Hidb).
  rewrite Hidb in Hrest. injection Hrest as Ho Hw _.
  rewrite run_bind in Ho, Hw.
  rewrite <- Ho, <- Hw. apply surjective_pairing.
Qed.

(** No code of a deleted user verifies.  On a store that rejects nothing,
    after [deleteUser(u)] a code string that leads to a record of [u] is
    answered [INVALID].  The same holds whichever requests the store
    rejects, after a [deleteUser(u)] that returns and in which
    [getUserCodes] did not lose the list of the codes of [u]; and such a
    code string is never answered [Success], whichever requests of the
    verification are rejected. *)
Theorem deleteUser_then_verify (w : World) (u : Z) (s : string) (c : Code.t) :
  keys_unique w ->
  (let w' := snd (run idb (deleteUser u) w) in
   List.head (Idb.query (ByCode s) (codes w')) = Some c ->
   Code.userId c = u ->
   run idb (verifyCode s) w' = (Returned (Failure "INVALID"), w')) /\
  (forall (plan : list nat) (n n' : nat) (w' : World) (b : bool),
     run (Idb.step_failing plan) (deleteUser u) (w, n) = (Returned b, (w', n')) ->
     existsb listing_lost (history (Idb.step_failing plan) (deleteUser u) (w, n)) = false ->
     List.head (Idb.query (ByCode s) (codes w')) = Some c ->
     Code.userId c = u ->
     run idb (verifyCode s) w' = (Returned (Failure "INVALID"), w') /\
     forall (plan' : list nat) (m : nat) (r : verified),
       fst (run (Idb.step_failing plan') (verifyCode s) (w', m)) <> Returned (Success r)).
Proof.
  intros Hk.
  assert (Hcore : forall w' b,
            run idb (deleteUser u) w = (Returned b, w') ->
            List.head (Idb.query (ByCode s) (codes w')) = Some c ->
            Code.userId c = u -> Code.isActive c = false).
  { intros w' b Hrun Hc Hu.
    destruct (Cascade.deleteUser_idb w u Hk) as (w0 & Hrun0 & _ & Hcodes).
    rewrite Hrun in Hrun0. injection Hrun0 as _ <-.
    assert (Hin : In c (codes w')).
    { destruct (Idb.query (ByCode s) (codes w')) as [| c' l] eqn:E; [discriminate Hc |].
      cbn in Hc. injection Hc as ->.
      assert (H : In c (Idb.query (ByCode s) (codes w'))) by (rewrite E; left; reflexivity).
      cbn in H. apply List.filter_In in H as [H _]. exact H. }
    apply Hcodes in Hin as [_ Hnot].
    destruct (Code.isActive c); [exfalso; apply Hnot; auto | reflexivity]. }
  split.
  - cbv zeta. intros Hc Hu.
    apply (verifyCode_idb_inactive _ s c Hc).
    destruct (run idb (deleteUser u) w) as [[b | e] w'] eqn:Hrun.
    + exact (Hcore w' b eq_refl Hc Hu).
    + destruct (Cascade.deleteUser_idb w u Hk) as (w0 & Hrun0 & _).
      rewrite Hrun in Hrun0. discriminate Hrun0.
  - intros plan n n' w' b Hrun Hlost Hc Hu.
    pose proof (deleteUser_as_idb plan w w' n n' u b Hrun Hlost) as Hidb.
    pose proof (Hcore w' b Hidb Hc Hu) as Hact.
    split.
    + exact (verifyCode_idb_inactive w' s c Hc Hact).
    + intros plan' m r.
      exact (verifyCode_inactive_never_accepted plan' w' m s c r Hc Hact).
Qed.

(** On the store, and with the index query rejected: the inactive code
    that [deleteUser(1)] leaves behind does not verify. *)
Lemma deleteUser_then_verify_witness :
  (let w' := snd (run idb (deleteUser 1) Sample.db) in
   run idb (verifyCode "ADM-OLD00001") w' = (Returned (Failure "INVALID"), w')) /\
  (let w' := fst (snd (run (Idb.step_failing [1]%nat) (deleteUser 1) (Sample.db, 0%nat))) in
   run idb (verifyCode "ADM-OLD00001") w' = (Returned (Failure "INVALID"), w')).
Proof.
  destruct (deleteUser_then_verify Sample.db 1 "ADM-OLD00001" Sample.retired
              (proj1 sample_consistent)) as [Hstore Hfaults].
  split.
  - apply Hstore; [vm_compute; reflexivity | reflexivity].
  - cbv zeta.
    destruct (run (Idb.step_failing [1]%nat) (deleteUser 1) (Sample.db, 0%nat))
      as [o [w' n']] eqn:Hrun.
    assert (Ho : o = Returned true).
    { change o with (fst (o, (w', n'))). rewrite <- Hrun. vm_compute. reflexivity. }
    subst o. cbn [fst snd].
    apply (Hfaults [1]%nat 0%nat n' w' true Hrun).
    + vm_compute. reflexivity.
    + change w' with (fst (snd (Returned true, (w', n')))). rewrite <- Hrun.
      vm_compute. reflexivity.
    + reflexivity.
Defined.

(** ** When verification succeeds *)

(** On the store [verifyCode] always returns an answer, and it answers
    [Success] only for a code string whose record is active, whose owner is
    stored and passes the expiry test, and whose owner's product is a
    string; the answer then names that owner. *)
Theorem verifyCode_success_only (w : World) (s : string) :
  exists r,
    run idb (verifyCode s) w = (Returned r, snd (run idb (verifyCode s) w)) /\
    forall v, r = Success v ->
      exists c user p,
        List.head (Idb.query (ByCode s) (codes w)) = Some c /\
        Code.isActive c = true /\
        users w !! Code.userId c = Some user /\
        is_expired (expiry_time (User.expiryDate user)) (clock w (ticks w)) = false /\
        User.product user = PText p /\
        payload_userId v = User.id user /\
        role v = (if String.eqb (Code.type c) "admin" then "admin" else "viewer").
Proof.
  unfold verifyCode. unmonad.
  rewrite run_bind. cbn [await run Idb.step settle].
  rewrite run_try_catch, run_bind, getCode_idb.
  destruct (List.head (Idb.query (ByCode s) (codes w))) as [c |] eqn:Hc; cbv beta iota;
    [| eexists; split; [reflexivity | discriminate]].
  destruct (Code.isActive c) eqn:Hact; cbv beta iota delta [negb];
    [| eexists; split; [reflexivity | discriminate]].
  rewrite run_bind. cbn [getUser await run Idb.step settle].
  destruct (users w !! Code.userId c) as [user |] eqn:Hu; cbv beta iota;
    [| eexists; split; [reflexivity | discriminate]].
  rewrite run_bind. cbn [perform run Idb.step]. cbv beta iota zeta.
  destruct (is_expired (expiry_time (User.expiryDate user)) (clock w (ticks w))) eqn:Hexp;
    [eexists; split; [reflexivity | discriminate] |].
  rewrite run_bind, getUserCodes_idb, run_bind.
  destruct (User.product user) as [| | p] eqn:Hp.
  - rewrite (derive_tier_missing idb PUndefined) by auto.
    eexists; split; [reflexivity | discriminate].
  - rewrite (derive_tier_missing idb PNull) by auto.
    eexists; split; [reflexivity | discriminate].
  - rewrite derive_tier_text. eexists; split; [reflexivity |].
    intros v E. injection E as <-. exists c, user, p. cbn. auto 10.
Qed.

(** ** The uniqueness probe: what a returned candidate means *)

(** In every environment, a candidate the probe loop returns was looked up
    last and found free, unless the loop used up all its attempts on
    candidates that were found. *)
Theorem unique_candidate_free_or_exhausted
    {W : Type} (h : handler W) (ty : string) (n : nat) (w w' : W) (c : string) :
  run h (unique_candidate ty n) w = (Returned c, w') ->
  list.last (history h (unique_candidate ty n) w)
    = Some (Obs (GetAll_codes (ByCode c)) (Ok []))
  \/ length (List.filter found_by_string (history h (unique_candidate ty n) w)) = S n.
Proof.
  revert w. induction n as [| n IH]; intros w; cbn.
  - destruct (h _ Date_now w) as [now w1].
    destruct (h _ Math_random w1) as [rnd w2]. cbn.
    destruct (h _ (GetAll_codes (ByCode (generateCode_at ty now rnd))) w2)
      as [[[| r l] | e] w3]; cbn; intros E; try discriminate E.
    + injection E as <- <-. left. reflexivity.
    + right. reflexivity.
  - destruct (h _ Date_now w) as [now w1].
    destruct (h _ Math_random w1) as [rnd w2]. cbn.
    destruct (h _ (GetAll_codes (ByCode (generateCode_at ty now rnd))) w2)
      as [[[| r l] | e] w3]; cbn; intros E; try discriminate E.
    + injection E as <- <-. left. reflexivity.
    + change (Vis Date_now _) with (unique_candidate ty n) in *.
      destruct (IH w3 E) as [Hlast | Hlen].
      * left. destruct (history h (unique_candidate ty n) w3); [discriminate Hlast |].
        exact Hlast.
      * right. rewrite Hlen. reflexivity.
Qed.

Lemma unique_candidate_free_or_exhausted_witness :
  exists w',
    run idb (unique_candidate "admin" 9) Sample.db = (Returned "ADM-3V281234", w') /\
    list.last (history idb (unique_candidate "admin" 9) Sample.db)
      = Some (Obs (GetAll_codes (ByCode "ADM-3V281234")) (Ok [])).
Proof.
  destruct (run idb (unique_candidate "admin" 9) Sample.db) as [o w'] eqn:Hrun.
  assert (Ho : o = Returned "ADM-3V281234").
  { change o with (fst (o, w')). rewrite <- Hrun. vm_compute. reflexivity. }
  subst o. exists w'. split; [reflexivity |].
  destruct (unique_candidate_free_or_exhausted idb "admin" 9 Sample.db w'
              "ADM-3V281234" Hrun) as [Hlast | Hlen]; [exact Hlast |].
  exfalso. revert Hlen. vm_compute. discriminate.
Defined.

(** ** [getUserCodes] with a role *)

(** On the store [getUserCodes(u, type)] returns, in key order, the active
    codes of [u] that have the role [type]; an empty [type] string counts
    as no role and gives all active codes of [u]. *)
Theorem getUserCodes_by_role (w : World) (u : Z) (ty : string) :
  ty <> "" ->
  fst (run idb (getUserCodes u (Some ty)) w) = Returned (active_codes u ty (codes w)) /\
  fst (run idb (getUserCodes u (Some "")) w) = fst (run idb (getUserCodes u None) w) /\
  fst (run idb (getUserCodes u None) w)
    = Returned (List.filter (fun c => (Code.userId c =? u) && Code.isActive c) (codes w)).
Proof.
  intros Hty. unfold getUserCodes, active_codes. unmonad. cbn.
  split; [| split; [reflexivity |]].
  - destruct ty as [| ch ty]; [contradiction |]. cbn. f_equal.
    rewrite filter_filter_and. apply List.filter_ext. intros c.
    apply andb_assoc.
  - f_equal. apply filter_filter_and.
Qed.

Lemma getUserCodes_by_role_witness :
  fst (run idb (getUserCodes 1 (Some "viewer")) Sample.db) = Returned [Sample.viewer1].
Proof.
  rewrite (proj1 (getUserCodes_by_role Sample.db 1 "viewer" ltac:(discriminate))).
  reflexivity.
Defined.

(** ** Witnesses for the expiry lemmas *)

Lemma verifyCode_expired_after_epoch_witness :
  let later :=
    mk_world (users Sample.db) (codes Sample.db) (codesKeyGen Sample.db)
             (subscriptions Sample.db) (fun _ => 2100000000000) 0
             (entropy Sample.db) 0 in
  fst (run idb (verifyCode "ADM-CAR00005") later) = Returned (Failure "EXPIRED").
Proof.
  cbv zeta.
  apply (verifyCode_expired_after_epoch _ "ADM-CAR00005" Sample.admin3 Sample.carol
           2000000000000); try reflexivity.
  discriminate.
Defined.

Lemma verifyCode_until_witness :
  exists v,
    fst (run idb (verifyCode "ADM-CAR00005") Sample.db) = Returned (Success v) /\
    until v = 2000000000000 /\
    codes_admin v = "ADM-CAR00005" /\ codes_viewer v = "".
Proof.
  destruct (verifyCode_until Sample.db "ADM-CAR00005" Sample.admin3 Sample.carol
              "Yearly Plan") as (v & Hrun & Ht & _ & Ha & Hv); try reflexivity.
  exists v. split; [exact Hrun |].
  split; [apply (Ht 2000000000000); [reflexivity | discriminate] |].
  split; [rewrite Ha; reflexivity | rewrite Hv; reflexivity].
Defined.
